(** * Training-load and synchronisation engine of strava-analytics

    A shallow embedding of [utils/training_metrics.py],
    [utils/strava_client.py] and [utils/sync_manager.py], and the
    properties of the specification proved (or refuted) on it.

    Numbers.  Python [int] is [Z].  Python [float] is modelled by the exact
    rationals [Q]: every float is a rational, and the arithmetic of the
    source ([+], [-], [*], [/], comparison, [round]) is taken exactly.
    Results are compared with [==] ([Qeq]) unless the function ends in
    [round], whose model returns a reduced fraction. *)

From Stdlib Require Import QArith Qround Qabs Qpower Qreduction Qcanon Lqa ZArith Lia.
From stdpp Require Import gmap strings list sorting.

Local Open Scope Q_scope.

(** ** Python values, exceptions, rounding *)

(** The exception classes the three modules raise or catch.  All of them
    derive from [Exception], so [except Exception] catches each one. *)
Inductive exn_kind :=
| RateLimitExceeded
| AccessUnauthorized
| TypeError
| ValueError
| ZeroDivisionError
| AttributeError
| OtherError.

Record exn := mk_exn { kind : exn_kind; message : string }.

(** [str(e)] *)
Definition str_exn (e : exn) : string := message e.

Inductive result (A : Type) :=
| Ok (a : A)
| Raise (e : exn).
Arguments Ok {A} a.
Arguments Raise {A} e.

(** The values found in the dictionaries the code passes around. *)
Inductive pyval :=
| PNone
| PInt (z : Z)
| PFloat (q : Q)
| PStr (s : string).

Definition Qlt_bool (x y : Q) : bool := negb (Qle_bool y x).

(** Truth value of a Python object in [if v], [not v], [a and b], [a or b]. *)
Definition truthy (v : pyval) : bool :=
  match v with
  | PNone => false
  | PInt z => negb (z =? 0)%Z
  | PFloat q => negb (Qeq_bool q 0)
  | PStr s => negb (String.eqb s "")
  end.

Definition truthy_int (o : option Z) : bool :=
  match o with Some z => negb (z =? 0)%Z | None => false end.

Definition truthy_float (o : option Q) : bool :=
  match o with Some q => negb (Qeq_bool q 0) | None => false end.

(** Use of a value as an operand of [/]: [None / 3600.0] is a [TypeError]. *)
Definition as_number (v : pyval) : result Q :=
  match v with
  | PInt z => Ok (inject_Z z)
  | PFloat q => Ok q
  | PNone => Raise (mk_exn TypeError "unsupported operand type(s) for /: 'NoneType' and 'float'")
  | PStr _ => Raise (mk_exn TypeError "unsupported operand type(s) for /: 'str' and 'float'")
  end.

(** [d.get(k)] and [d.get(k, default)]: the default is used only when the
    key is absent, a stored [None] is returned as it is. *)
Definition dict_get (d : gmap string pyval) (k : string) (default : pyval) : pyval :=
  match d !! k with Some v => v | None => default end.

(** [round(x)]: to the nearest integer, ties to the even one. *)
Definition round_half_even (x : Q) : Z :=
  let f := Qfloor x in
  match Qcompare (x - inject_Z f) (1 # 2) with
  | Lt => f
  | Gt => (f + 1)%Z
  | Eq => if Z.even f then f else (f + 1)%Z
  end.

(** [round(x, ndigits)] *)
Definition py_round (x : Q) (ndigits : nat) : Q :=
  let scale := inject_Z (10 ^ Z.of_nat ndigits) in
  Qred (inject_Z (round_half_even (x * scale)) / scale).


(** ** utils/training_metrics.py *)

(** A zone definition: the dictionary with keys ['min_value'] and
    ['max_value'] that [calculate_time_in_zones] reads. *)
Record Zone := mk_zone { min_value : Q; max_value : Q }.

Module TrainingMetrics.

Definition CTL_TIME_CONSTANT : Z := 42.
Definition ATL_TIME_CONSTANT : Z := 7.

(** [if not threshold_hr or threshold_hr == 0]: on a number both tests
    are the test against zero. *)
Definition calculate_tss_from_hr
    (duration_seconds average_hr threshold_hr : Q) (normalized : bool) : Q :=
  if Qeq_bool threshold_hr 0 then 0
  else
    let duration_hours := duration_seconds / 3600 in
    let intensity_factor := average_hr / threshold_hr in
    let tss := duration_hours * intensity_factor * intensity_factor * 100 in
    py_round tss 1.

Definition calculate_tss_from_power
    (duration_seconds normalized_power : Q) (ftp : Z) : Q :=
  if (ftp =? 0)%Z then 0
  else
    let duration_hours := duration_seconds / 3600 in
    let intensity_factor := normalized_power / inject_Z ftp in
    let tss := duration_hours * normalized_power * intensity_factor / inject_Z ftp * 100 in
    py_round tss 1.

Section NormalizedPower.
(** numpy computes in binary floating point: what it returns is close to the
    rational value of the operation, not equal to it, and is not determined
    by the source.  The numpy operations of the function are parameters of
    the embedding: [np.convolve(a, v, mode='valid')], [np.ones(n) / n],
    [np.mean] and [np.power] (applied to an array element by element). *)
Variable np_convolve_valid : list Q -> list Q -> list Q.
Variable np_ones_over : nat -> list Q.
Variable np_mean : list Q -> Q.
Variable np_power : Q -> Q -> Q.

End NormalizedPower.

Definition calculate_intensity_factor (normalized_power : Q) (ftp : Z) : Q :=
  if (ftp =? 0)%Z then 0
  else py_round (normalized_power / inject_Z ftp) 3.

(** The loop of [calculate_ctl]: one update of the running value. *)
Definition ctl_step (ctl daily_tss : Q) : Q :=
  ctl + (daily_tss - ctl) / inject_Z CTL_TIME_CONSTANT.

(** The running value when the loop of [calculate_ctl] ends. *)
Definition ctl_loop (daily_tss_values : list Q) (previous_ctl : Q) : Q :=
  fold_left ctl_step daily_tss_values previous_ctl.

Definition calculate_ctl (daily_tss_values : list Q) (previous_ctl : Q) : Q :=
  py_round (ctl_loop daily_tss_values previous_ctl) 2.

Definition atl_step (atl daily_tss : Q) : Q :=
  atl + (daily_tss - atl) / inject_Z ATL_TIME_CONSTANT.

Definition atl_loop (daily_tss_values : list Q) (previous_atl : Q) : Q :=
  fold_left atl_step daily_tss_values previous_atl.

Definition calculate_atl (daily_tss_values : list Q) (previous_atl : Q) : Q :=
  py_round (atl_loop daily_tss_values previous_atl) 2.

Definition calculate_tsb (ctl atl : Q) : Q := py_round (ctl - atl) 2.

Definition calculate_ctl_ramp_rate (current_ctl previous_ctl : Q) (days : Z) : Q :=
  if (days =? 0)%Z then 0
  else py_round ((current_ctl - previous_ctl) / inject_Z days * 7) 2.

(** [(hr_array >= zone['min_value']) & (hr_array < zone['max_value'])]
    for one sample. *)
Definition in_zone (zone : Zone) (hr : Q) : bool :=
  Qle_bool (min_value zone) hr && Qlt_bool hr (max_value zone).

(** [np.sum(in_zone)] *)
Definition count_in_zone (zone : Zone) (hr_data : list Q) : Z :=
  Z.of_nat (length (filter (fun hr => in_zone zone hr = true) hr_data)).

(** The loop [for i, zone in enumerate(zones, start=1)], from index [i] on. *)
Fixpoint zone_loop (hr_data : list Q) (sampling_interval : Z)
    (i : Z) (zones : list Zone) (zone_times : gmap Z Z) : gmap Z Z :=
  match zones with
  | [] => zone_times
  | zone :: rest =>
      let time_in_zone := (count_in_zone zone hr_data * sampling_interval)%Z in
      zone_loop hr_data sampling_interval (i + 1)%Z rest (<[i := time_in_zone]> zone_times)
  end.

Definition calculate_time_in_zones
    (hr_data : list Q) (zones : list Zone) (sampling_interval : Z) : gmap Z Z :=
  match hr_data, zones with
  | [], _ | _, [] => ∅
  | _, _ => zone_loop hr_data sampling_interval 1%Z zones ∅
  end.

Definition estimate_ftp_from_activity
    (duration_seconds average_power normalized_power : Q) : option Z :=
  let duration_minutes := duration_seconds / 60 in
  let power := if Qlt_bool 0 normalized_power then normalized_power else average_power in
  if Qeq_bool power 0 then None
  else if Qle_bool (4 * 60) duration_minutes && Qle_bool duration_minutes (6 * 60)
  then Some (round_half_even (power * (93 # 100)))
  else if Qle_bool (18 * 60) duration_minutes && Qle_bool duration_minutes (22 * 60)
  then Some (round_half_even (power * (95 # 100)))
  else if Qle_bool (50 * 60) duration_minutes && Qle_bool duration_minutes (70 * 60)
  then Some (round_half_even (power * 1))
  else None.

(** [sex.upper()] on the ASCII letters; the comparison with ["F"] that
    follows holds for ["F"] and ["f"] only. *)
Definition ascii_upper (c : Ascii.ascii) : Ascii.ascii :=
  let n := Ascii.nat_of_ascii c in
  if (97 <=? n)%nat && (n <=? 122)%nat then Ascii.ascii_of_nat (n - 32) else c.

Fixpoint str_upper (s : string) : string :=
  match s with
  | EmptyString => EmptyString
  | String c rest => String (ascii_upper c) (str_upper rest)
  end.

(** [max(0, x)] *)
Definition Qmax0 (x : Q) : Q := if Qle_bool x 0 then 0 else x.

Definition estimate_vo2max_from_running
    (distance_meters duration_seconds : Q) (age : Z) (weight_kg : Q) (sex : string) : Q :=
  if Qeq_bool duration_seconds 0 || Qeq_bool distance_meters 0 then 0
  else
    let velocity := distance_meters / (duration_seconds / 60) in
    let vo2 := - (460 # 100) + (182258 # 1000000) * velocity
               + (104 # 1000000) * velocity ^ 2 in
    let age_factor := 1 - Qmax0 (inject_Z (age - 25) * (5 # 1000)) in
    let vo2 := vo2 * age_factor in
    let vo2 := if String.eqb (str_upper sex) "F" then vo2 * (9 # 10) else vo2 in
    py_round vo2 1.

End TrainingMetrics.

(** The module-level convenience function [calculate_activity_tss]. *)
Definition calculate_activity_tss
    (activity : gmap string pyval)
    (athlete_ftp : option Z) (athlete_threshold_hr : option Q) : result Q :=
  if truthy (dict_get activity "weighted_average_watts" PNone) && truthy_int athlete_ftp
  then
    match as_number (dict_get activity "moving_time" (PInt 0)),
          as_number (dict_get activity "weighted_average_watts" PNone) with
    | Ok duration_seconds, Ok normalized_power =>
        Ok (TrainingMetrics.calculate_tss_from_power
              duration_seconds normalized_power (default 0%Z athlete_ftp))
    | Raise e, _ | _, Raise e => Raise e
    end
  else if truthy (dict_get activity "average_heartrate" PNone) && truthy_float athlete_threshold_hr
  then
    match as_number (dict_get activity "moving_time" (PInt 0)),
          as_number (dict_get activity "average_heartrate" PNone) with
    | Ok duration_seconds, Ok average_hr =>
        Ok (TrainingMetrics.calculate_tss_from_hr
              duration_seconds average_hr (default 0 athlete_threshold_hr) false)
    | Raise e, _ | _, Raise e => Raise e
    end
  else
    match as_number (dict_get activity "moving_time" (PInt 0)) with
    | Ok moving_time =>
        let duration_hours := moving_time / 3600 in
        let estimated_tss := duration_hours * 50 in
        Ok (py_round estimated_tss 1)
    | Raise e => Raise e
    end.

(** ** Reference definitions used to state the properties *)

(** The specification's reading of zone assignment: a sample belongs to the
    first zone, in the declared order, whose interval contains it. *)
Fixpoint first_matching_zone (i : Z) (zones : list Zone) (hr : Q) : option Z :=
  match zones with
  | [] => None
  | zone :: rest =>
      if TrainingMetrics.in_zone zone hr then Some i
      else first_matching_zone (i + 1)%Z rest hr
  end.

(** Seconds in zone [i] when every sample counts toward its first matching
    zone only. *)
Definition spec_time_in_zone_first_match
    (hr_data : list Q) (zones : list Zone) (sampling_interval : Z) (i : Z) : Z :=
  (Z.of_nat (length (filter (fun hr => first_matching_zone 1%Z zones hr = Some i) hr_data))
   * sampling_interval)%Z.

(** ** The world the client and the sync manager run in *)

(** Stored OAuth token (models/database/oauth_token.py). *)
Record OAuthToken := mk_token {
  token_athlete_id : Z;
  access_token : string;
  refresh_token : string;
  expires_at : Z
}.

(** The response of stravalib's token refresh.  ["athlete"] may be absent. *)
Record TokenResponse := mk_token_response {
  tr_athlete_id : option Z;
  tr_access_token : string;
  tr_refresh_token : string;
  tr_expires_at : Z
}.

(** What upstream hands over for the athlete and for one activity; only the
    attributes read by the code modelled below are kept. *)
Record StravaAthlete := mk_strava_athlete {
  sa_athlete_id : Z;
  sa_username : string;
  sa_weight : option Q                     (* getattr(strava_athlete, 'weight', None) *)
}.

Record StravaActivity := mk_strava_activity {
  sa_id : Z;
  sa_start_date : Z;                       (* seconds, UTC *)
  sa_moving_time : option Z;               (* seconds *)
  sa_weighted_average_watts : option Q;
  sa_average_heartrate : option Q
}.

(** Rows of the tables (models/database/*.py), with the columns the
    modelled code reads or writes.  A [datetime] is a number of seconds, a
    [date] a number of days. *)
Record Athlete := mk_athlete {
  athlete_id : Z;
  athlete_username : string;
  athlete_weight : option Q;
  ftp : option Z;
  max_heart_rate : option Z
}.

Record Activity := mk_activity {
  activity_id : Z;
  activity_athlete_id : option Z;
  start_date : Z;
  moving_time : option Z;
  weighted_average_watts : option Z;
  average_heartrate : option Q;
  training_stress_score : option Q;
  intensity_factor : option Q
}.

(** [ctl], [atl] and [tsb] are nullable columns; every row the modelled
    code writes has them set, and only such rows are considered. *)
Record TrainingLoad := mk_training_load {
  tl_athlete_id : Z;
  tl_date : Z;
  daily_tss : Q;
  ctl : Q;
  atl : Q;
  tsb : Q
}.

Record SyncMetadata := mk_sync_metadata {
  sync_athlete_id : Z;
  sync_type : string;
  sync_status : string;
  started_at : Z;
  completed_at : option Z;
  activities_synced : Z;
  streams_synced : Z;
  last_activity_date : option Z;
  error_message : option string
}.

Record ActivityStream := mk_activity_stream {
  stream_activity_id : Z;
  stream_type : string;
  stream_data : list Q;
  original_size : Z
}.

Record DB := mk_db {
  athletes : list Athlete;
  activities : list Activity;
  training_loads : list TrainingLoad;
  sync_metadata : list SyncMetadata;
  activity_streams : list ActivityStream;
  oauth_tokens : list OAuthToken
}.

(** The places where the code talks to the database session and may get an
    exception back. *)
Inductive db_site :=
| SiteOpenSession        (* get_database_session() *)
| SiteCreateRecord       (* commit in _create_sync_record *)
| SiteProfile            (* commit in _sync_athlete_profile *)
| SiteActivities         (* commit in _sync_all_activities / _sync_activities_after *)
| SiteTrainingLoads      (* commit in _calculate_training_loads *)
| SiteRecentActivities   (* query for the recent activities in _sync_recent_streams *)
| SiteStreams            (* commit in _sync_recent_streams *)
| SiteComplete           (* commit after sync_status = "success" *)
| SiteFailed             (* commit in the except handler *)
| SiteClose              (* session.close() in finally *)
| SiteSaveToken.         (* commit in _save_token *)

(** Behaviour of everything outside the repository during one run: the
    outcome of the n-th call of a stravalib function, of the n-th token
    refresh, the remote data, and the failures of the database session. *)
Record Upstream := mk_upstream {
  call_outcome : nat -> option exn;
  refresh_response : nat -> result TokenResponse;
  remote_athlete : StravaAthlete;
  remote_activities : list StravaActivity;
  remote_streams : Z -> list (string * list Q);
  db_fault : db_site -> option exn
}.

(** The mutable attributes of a [StravaClient]. *)
Record ClientState := mk_client {
  client_athlete_id : option Z;
  _token : option OAuthToken;
  _request_count_15min : Z;
  _request_count_daily : Z;
  _window_15min_start : Z;
  _window_daily_start : Z
}.

Record World := mk_world {
  now : Z;                 (* datetime.utcnow(), seconds *)
  api_calls : nat;         (* stravalib calls made so far *)
  refresh_calls : nat;     (* _refresh_access_token calls made so far *)
  client : ClientState;
  db : DB
}.

Definition set_now (t : Z) (w : World) : World :=
  mk_world t (api_calls w) (refresh_calls w) (client w) (db w).
Definition set_api_calls (n : nat) (w : World) : World :=
  mk_world (now w) n (refresh_calls w) (client w) (db w).
Definition set_refresh_calls (n : nat) (w : World) : World :=
  mk_world (now w) (api_calls w) n (client w) (db w).
Definition set_client (c : ClientState) (w : World) : World :=
  mk_world (now w) (api_calls w) (refresh_calls w) c (db w).
Definition set_db (d : DB) (w : World) : World :=
  mk_world (now w) (api_calls w) (refresh_calls w) (client w) d.

(** ** A state and exception monad *)

(** A computation reads the behaviour [u] of the outside, which it cannot
    change, and threads the world. *)
Definition M (A : Type) : Type := Upstream -> World -> result A * World.

Definition ret {A : Type} (a : A) : M A := fun _ w => (Ok a, w).

Definition bind {A B : Type} (c : M A) (k : A -> M B) : M B :=
  fun u w => match c u w with
             | (Ok a, w') => k a u w'
             | (Raise e, w') => (Raise e, w')
             end.

Definition raise {A : Type} (e : exn) : M A := fun _ w => (Raise e, w).

Definition gets {A : Type} (f : World -> A) : M A := fun _ w => (Ok (f w), w).

Definition modify (f : World -> World) : M unit := fun _ w => (Ok tt, f w).

(** [try: body except Exception as e: handler(e)] *)
Definition try_except {A : Type} (body : M A) (handler : exn -> M A) : M A :=
  fun u w => match body u w with
             | (Ok a, w') => (Ok a, w')
             | (Raise e, w') => handler e u w'
             end.

(** [try: body finally: cleanup]: the cleanup runs on both exits, and an
    exception of the cleanup replaces the outcome of the body. *)
Definition try_finally {A : Type} (body : M A) (cleanup : M unit) : M A :=
  fun u w => match body u w with
             | (r, w') => match cleanup u w' with
                          | (Ok _, w'') => (r, w'')
                          | (Raise e, w'') => (Raise e, w'')
                          end
             end.

Declare Scope monad_scope.
Delimit Scope monad_scope with monad.
Notation "x <- c ;; k" := (bind c (fun x => k))
  (at level 100, c at next level, right associativity) : monad_scope.
Notation "c ;; k" := (bind c (fun _ => k))
  (at level 100, right associativity) : monad_scope.
Local Open Scope monad_scope.

(** [for x in xs: body(x)] *)
Fixpoint for_each {A : Type} (xs : list A) (body : A -> M unit) : M unit :=
  match xs with
  | [] => ret tt
  | x :: rest => body x ;; for_each rest body
  end.

Definition utcnow : M Z := gets now.

(** [time.sleep(seconds)]: the clock moves on. *)
Definition sleep (seconds : Z) : M unit :=
  if (seconds <? 0)%Z
  then raise (mk_exn ValueError "sleep length must be non-negative")
  else modify (fun w => set_now (now w + seconds)%Z w).

(** A database operation at [site]: nothing but its possible failure is
    modelled; writes are applied to [db] when they are made.  The failures
    of the sites are independent of one another.  In the code a failed
    flush or commit leaves the session of [SyncManager] in need of a
    rollback, which sync_manager.py never calls, so that the next commit on
    that session raises as well: the properties below that say how a
    whole sync run ends are stated for runs in which no site fails. *)
Definition db_operation (site : db_site) : M unit :=
  fun u w => match db_fault u site with
             | Some e => (Raise e, w)
             | None => (Ok tt, w)
             end.

(** One call of a stravalib client method returning [payload]. *)
Definition upstream_call {A : Type} (payload : Upstream -> A) : M A :=
  fun u w =>
    let n := api_calls w in
    let w' := set_api_calls (S n) w in
    match call_outcome u n with
    | Some e => (Raise e, w')
    | None => (Ok (payload u), w')
    end.

(** The [n]-th call of stravalib's [refresh_access_token]. *)
Definition upstream_refresh (n : nat) : M TokenResponse :=
  fun u w => (refresh_response u n, w).

(** ** utils/strava_client.py *)

Module StravaClient.

Definition STRAVA_RATE_LIMIT_15MIN : Z := 100.
Definition STRAVA_RATE_LIMIT_DAILY : Z := 1000.

Definition set_client_athlete_id (id : Z) (c : ClientState) : ClientState :=
  mk_client (Some id) (_token c)
    (_request_count_15min c) (_request_count_daily c)
    (_window_15min_start c) (_window_daily_start c).

Definition set_token (t : OAuthToken) (c : ClientState) : ClientState :=
  mk_client (client_athlete_id c) (Some t)
    (_request_count_15min c) (_request_count_daily c)
    (_window_15min_start c) (_window_daily_start c).

Definition set_window_15min (count start : Z) (c : ClientState) : ClientState :=
  mk_client (client_athlete_id c) (_token c) count (_request_count_daily c)
    start (_window_daily_start c).

Definition set_window_daily (count start : Z) (c : ClientState) : ClientState :=
  mk_client (client_athlete_id c) (_token c) (_request_count_15min c) count
    (_window_15min_start c) start.

Definition add_oauth_token (t : OAuthToken) (d : DB) : DB :=
  mk_db (athletes d) (activities d) (training_loads d) (sync_metadata d)
    (activity_streams d) (oauth_tokens d ++ [t]).

(** [_save_token]: its [except] clause rolls back and re-raises, so the
    row added is stored only when the commit succeeds. *)
Definition _save_token (token_response : TokenResponse) : M unit :=
  match tr_athlete_id token_response with
  | Some id =>
      if (id =? 0)%Z
      then raise (mk_exn ValueError "No athlete ID in token response.")
      else
        modify (fun w => set_client (set_client_athlete_id id (client w)) w) ;;
        let token := mk_token id (tr_access_token token_response)
                       (tr_refresh_token token_response)
                       (tr_expires_at token_response) in
        db_operation SiteSaveToken ;;
        modify (fun w => set_db (add_oauth_token token (db w)) w) ;;
        modify (fun w => set_client (set_token token (client w)) w)
  | None => raise (mk_exn ValueError "No athlete ID in token response.")
  end.

(** [_refresh_access_token]: returns [True] or [False], never raises. *)
Definition _refresh_access_token : M bool :=
  n <- gets refresh_calls ;;
  modify (set_refresh_calls (S n)) ;;
  token <- gets (fun w => _token (client w)) ;;
  match token with
  | None => ret false
  | Some _ =>
      try_except
        (response <- upstream_refresh n ;;
         _save_token response ;;
         ret true)
        (fun _ => ret false)
  end.

Definition _check_rate_limit : M unit :=
  now <- utcnow ;;
  c <- gets client ;;
  (if (900 <? now - _window_15min_start c)%Z
   then modify (fun w => set_client (set_window_15min 0 now (client w)) w)
   else ret tt) ;;
  c <- gets client ;;
  (if (86400 <? now - _window_daily_start c)%Z
   then modify (fun w => set_client (set_window_daily 0 now (client w)) w)
   else ret tt) ;;
  c <- gets client ;;
  (if (STRAVA_RATE_LIMIT_15MIN <=? _request_count_15min c)%Z
   then
     let wait_time := (900 - (now - _window_15min_start c) mod 86400)%Z in
     sleep (wait_time + 1) ;;
     later <- utcnow ;;
     modify (fun w => set_client (set_window_15min 0 later (client w)) w)
   else ret tt) ;;
  c <- gets client ;;
  (if (STRAVA_RATE_LIMIT_DAILY <=? _request_count_daily c)%Z
   then raise (mk_exn RateLimitExceeded "Daily rate limit exceeded")
   else ret tt) ;;
  modify (fun w =>
    let c := client w in
    set_client
      (set_window_daily (_request_count_daily c + 1)%Z (_window_daily_start c)
         (set_window_15min (_request_count_15min c + 1)%Z (_window_15min_start c) c)) w).

(** The [for attempt in range(max_retries)] loop of
    [_make_request_with_retry], with [remaining] iterations to go.  When
    the range is used up the function falls off its end and returns
    [None]. *)
Fixpoint retry_loop {A : Type} (func : M A) (max_retries remaining : nat)
    : M (option A) :=
  match remaining with
  | O => ret None
  | S remaining' =>
      let attempt := Z.of_nat (max_retries - remaining) in
      try_except
        (result <- func ;; ret (Some result))
        (fun e =>
           match kind e with
           | RateLimitExceeded =>
               if (attempt <? Z.of_nat max_retries - 1)%Z
               then sleep (2 ^ attempt * 60) ;;
                    retry_loop func max_retries remaining'
               else raise e
           | AccessUnauthorized =>
               refreshed <- _refresh_access_token ;;
               if refreshed
               then retry_loop func max_retries remaining'
               else raise e
           | _ =>
               if (attempt <? Z.of_nat max_retries - 1)%Z
               then sleep (2 ^ attempt * 5) ;;
                    retry_loop func max_retries remaining'
               else raise e
           end)
  end.

Definition _make_request_with_retry {A : Type} (func : M A) (max_retries : nat)
    : M (option A) :=
  _check_rate_limit ;;
  retry_loop func max_retries max_retries.

Definition get_athlete : M (option StravaAthlete) :=
  _make_request_with_retry (upstream_call remote_athlete) 3.

(** [after] is exclusive upstream: activities that started after it. *)
Definition get_activities (after : option Z) : M (option (list StravaActivity)) :=
  _make_request_with_retry
    (upstream_call (fun u =>
       match after with
       | None => remote_activities u
       | Some t => filter (fun a => (t < sa_start_date a)%Z) (remote_activities u)
       end)) 3.

Definition get_activity_streams (activity_id : Z)
    : M (option (list (string * list Q))) :=
  _make_request_with_retry (upstream_call (fun u => remote_streams u activity_id)) 3.

End StravaClient.

(** ** utils/sync_manager.py *)

Definition set_athletes (l : list Athlete) (d : DB) : DB :=
  mk_db l (activities d) (training_loads d) (sync_metadata d)
    (activity_streams d) (oauth_tokens d).
Definition set_activities (l : list Activity) (d : DB) : DB :=
  mk_db (athletes d) l (training_loads d) (sync_metadata d)
    (activity_streams d) (oauth_tokens d).
Definition set_training_loads (l : list TrainingLoad) (d : DB) : DB :=
  mk_db (athletes d) (activities d) l (sync_metadata d)
    (activity_streams d) (oauth_tokens d).
Definition set_sync_metadata (l : list SyncMetadata) (d : DB) : DB :=
  mk_db (athletes d) (activities d) (training_loads d) l
    (activity_streams d) (oauth_tokens d).
Definition set_activity_streams (l : list ActivityStream) (d : DB) : DB :=
  mk_db (athletes d) (activities d) (training_loads d) (sync_metadata d)
    l (oauth_tokens d).

(** [session.query(T).filter_by(...).first()], then either [session.add] of
    a new row or an update of the row found: the first row matching [p] is
    replaced by [f] of it, and [f fresh] is appended when there is none.
    The row is looked up in the table as written so far.  The session is
    made with [autoflush=False] (settings.py), so the query of the code sees
    the rows flushed so far only; the two agree as long as no key is added
    twice between two commits, which is what the hypotheses on distinct ids
    and on rows stored beforehand say. *)
Fixpoint update_first {A : Type} (p : A -> bool) (f : A -> A) (rows : list A) : list A :=
  match rows with
  | [] => []
  | r :: rest => if p r then f r :: rest else r :: update_first p f rest
  end.

Definition upsert {A : Type} (p : A -> bool) (fresh : A) (f : A -> A) (rows : list A)
    : list A :=
  match List.find p rows with
  | Some _ => update_first p f rows
  | None => rows ++ [f fresh]
  end.

(** [int(x)] on a float: truncation toward zero. *)
Definition Qtrunc (x : Q) : Z := if Qle_bool 0 x then Qfloor x else Qceiling x.

Definition opt_int_to_py (o : option Z) : pyval :=
  match o with Some z => PInt z | None => PNone end.
Definition opt_float_to_py (o : option Q) : pyval :=
  match o with Some q => PFloat q | None => PNone end.

(** [order_by(Activity.start_date)] and [sorted(daily_tss.items())] *)
Definition by_start_date (a b : Activity) : Prop := (start_date a <= start_date b)%Z.
#[global] Instance by_start_date_dec : RelDecision by_start_date.
Proof. intros a b. unfold by_start_date. apply _. Defined.

Definition by_day (p q : Z * Q) : Prop := (fst p <= fst q)%Z.
#[global] Instance by_day_dec : RelDecision by_day.
Proof. intros p q. unfold by_day. apply _. Defined.

(** [activity.start_date.date()] *)
Definition date_of (datetime : Z) : Z := (datetime / 86400)%Z.

(** [activity.training_stress_score or 0.0] *)
Definition tss_or_zero (a : Activity) : Q :=
  if truthy_float (training_stress_score a)
  then default 0 (training_stress_score a)
  else 0.

Module SyncManager.

Definition SYNC_STREAM_DATA_DAYS : Z := 90.

(** An optional progress callback; all that matters of a call is whether
    it raises. *)
Definition Callback : Type := string -> Z -> Z -> option exn.

Definition call_progress (progress_callback : option Callback)
    (status : string) (current total : Z) : M unit :=
  match progress_callback with
  | None => ret tt
  | Some f => match f status current total with
              | Some e => raise e
              | None => ret tt
              end
  end.

(** A result that may be an exception, run inside the monad. *)
Definition lift_result {A : Type} (r : result A) : M A := fun _ w => (r, w).

(** Use of a wrapper result that must not be [None]. *)
Definition not_none {A : Type} (o : option A) (e : exn) : M A :=
  match o with Some a => ret a | None => raise e end.

(** [Activity(id=...)]: every other column is NULL until it is set. *)
Definition new_activity (id : Z) : Activity :=
  mk_activity id None 0 None None None None None.

Definition new_training_load (athlete day : Z) : TrainingLoad :=
  mk_training_load athlete day 0 0 0 0.

(** The daily sums of [_calculate_training_loads]:
    [daily_tss[d] = daily_tss.get(d, 0.0) + tss]. *)
Fixpoint group_daily_tss (activities : list Activity) (daily_tss : gmap Z Q)
    : gmap Z Q :=
  match activities with
  | [] => daily_tss
  | activity :: rest =>
      let activity_date := date_of (start_date activity) in
      let tss := tss_or_zero activity in
      group_daily_tss rest
        (<[activity_date := default 0 (daily_tss !! activity_date) + tss]> daily_tss)
  end.

(** [order_by(TrainingLoad.date.desc()).first()] *)
Definition latest_training_load (rows : list TrainingLoad) : option TrainingLoad :=
  fold_left
    (fun best row =>
       match best with
       | None => Some row
       | Some b => if (tl_date b <? tl_date row)%Z then Some row else Some b
       end)
    rows None.

(** [order_by(SyncMetadata.completed_at.desc()).first()] *)
Definition latest_completed (rows : list SyncMetadata) : option SyncMetadata :=
  fold_left
    (fun best row =>
       match best with
       | None => Some row
       | Some b =>
           if (default 0%Z (completed_at b) <? default 0%Z (completed_at row))%Z
           then Some row else Some b
       end)
    rows None.

Section Manager.
(** [self.athlete_id] *)
Variable self_athlete_id : Z.

Definition _create_sync_record (type status : string) : M nat :=
  now <- utcnow ;;
  d <- gets db ;;
  let sync_record :=
    mk_sync_metadata self_athlete_id type status now None 0 0 None None in
  modify (fun w => set_db (set_sync_metadata (sync_metadata d ++ [sync_record]) (db w)) w) ;;
  db_operation SiteCreateRecord ;;
  ret (length (sync_metadata d)).

(** Assignment to attributes of the [sync_record] row. *)
Definition update_sync_record (sync_record : nat)
    (f : SyncMetadata -> SyncMetadata) : M unit :=
  modify (fun w =>
    set_db (set_sync_metadata
              (alter f sync_record (sync_metadata (db w))) (db w)) w).

Definition set_activities_synced (n : Z) (r : SyncMetadata) : SyncMetadata :=
  mk_sync_metadata (sync_athlete_id r) (sync_type r) (sync_status r) (started_at r)
    (completed_at r) n (streams_synced r) (last_activity_date r) (error_message r).
Definition set_streams_synced (n : Z) (r : SyncMetadata) : SyncMetadata :=
  mk_sync_metadata (sync_athlete_id r) (sync_type r) (sync_status r) (started_at r)
    (completed_at r) (activities_synced r) n (last_activity_date r) (error_message r).
Definition set_outcome (status : string) (error : option string) (completed : Z)
    (r : SyncMetadata) : SyncMetadata :=
  mk_sync_metadata (sync_athlete_id r) (sync_type r) status (started_at r)
    (Some completed) (activities_synced r) (streams_synced r)
    (last_activity_date r) error.

(** [sync_record.duration_seconds] *)
Definition duration_seconds (sync_record : nat) : M Z :=
  rows <- gets (fun w => sync_metadata (db w)) ;;
  match rows !! sync_record with
  | Some r => match completed_at r with
              | Some c => ret (c - started_at r)%Z
              | None => ret 0%Z
              end
  | None => ret 0%Z
  end.

Definition _get_last_successful_sync : M (option SyncMetadata) :=
  rows <- gets (fun w => sync_metadata (db w)) ;;
  ret (latest_completed
         (List.filter
            (fun r => (sync_athlete_id r =? self_athlete_id)%Z
                      && String.eqb (sync_status r) "success")
            rows)).

Definition _sync_athlete_profile : M Athlete :=
  response <- StravaClient.get_athlete ;;
  strava_athlete <- not_none response
    (mk_exn AttributeError "'NoneType' object has no attribute 'id'") ;;
  d <- gets db ;;
  let p := fun a => (athlete_id a =? sa_athlete_id strava_athlete)%Z in
  let fresh := mk_athlete (sa_athlete_id strava_athlete) "" None None None in
  let update := fun a =>
    mk_athlete (athlete_id a) (sa_username strava_athlete) (sa_weight strava_athlete)
      (ftp a) (max_heart_rate a) in
  let rows := upsert p fresh update (athletes d) in
  modify (fun w => set_db (set_athletes rows (db w)) w) ;;
  db_operation SiteProfile ;;
  ret (default (update fresh) (List.find p rows)).

Definition _sync_activity (strava_activity : StravaActivity) : M unit :=
  let p := fun a => (activity_id a =? sa_id strava_activity)%Z in
  let moving_time_v :=
    if truthy_int (sa_moving_time strava_activity)
    then sa_moving_time strava_activity else None in
  let average_heartrate_v :=
    if truthy_float (sa_average_heartrate strava_activity)
    then sa_average_heartrate strava_activity else None in
  let weighted_average_watts_v :=
    if truthy_float (sa_weighted_average_watts strava_activity)
    then Some (Qtrunc (default 0 (sa_weighted_average_watts strava_activity)))
    else None in
  let update := fun a =>
    mk_activity (activity_id a) (Some self_athlete_id)
      (sa_start_date strava_activity) moving_time_v weighted_average_watts_v
      average_heartrate_v (training_stress_score a) (intensity_factor a) in
  modify (fun w =>
    set_db (set_activities
              (upsert p (new_activity (sa_id strava_activity)) update
                 (activities (db w))) (db w)) w) ;;
  d <- gets db ;;
  match List.find (fun a => (athlete_id a =? self_athlete_id)%Z) (athletes d) with
  | None => ret tt
  | Some athlete =>
      let activity_dict : gmap string pyval :=
        {[ "moving_time" := opt_int_to_py moving_time_v;
           "weighted_average_watts" := opt_int_to_py weighted_average_watts_v;
           "average_heartrate" := opt_float_to_py average_heartrate_v ]} in
      let athlete_threshold_hr :=
        if truthy_int (max_heart_rate athlete)
        then Some (inject_Z (default 0%Z (max_heart_rate athlete)) * (95 # 100))
        else None in
      tss <- lift_result
               (calculate_activity_tss activity_dict (ftp athlete) athlete_threshold_hr) ;;
      let with_tss := fun a =>
        mk_activity (activity_id a) (activity_athlete_id a) (start_date a)
          (moving_time a) (weighted_average_watts a) (average_heartrate a)
          (Some tss)
          (if truthy_int weighted_average_watts_v && truthy_int (ftp athlete)
           then Some (TrainingMetrics.calculate_intensity_factor
                        (inject_Z (default 0%Z weighted_average_watts_v))
                        (default 0%Z (ftp athlete)))
           else intensity_factor a) in
      modify (fun w =>
        set_db (set_activities (update_first p with_tss (activities (db w))) (db w)) w)
  end.

(** The loop over [enumerate(activities)] shared by [_sync_all_activities]
    and [_sync_activities_after]; [progress i] is the callback made
    before activity [i]. *)
Fixpoint sync_activities_loop (progress : Z -> M unit)
    (i : Z) (activities : list StravaActivity) (synced : Z) : M Z :=
  match activities with
  | [] => ret synced
  | strava_activity :: rest =>
      progress i ;;
      _sync_activity strava_activity ;;
      sync_activities_loop progress (i + 1)%Z rest (synced + 1)%Z
  end.

Definition _sync_all_activities (progress_callback : option Callback) : M Z :=
  response <- StravaClient.get_activities None ;;
  activities <- not_none response
    (mk_exn TypeError "'NoneType' object is not iterable") ;;
  let total := Z.of_nat (length activities) in
  synced <- sync_activities_loop
    (fun i => if (i mod 10 =? 0)%Z
              then call_progress progress_callback "Syncing activities"
                     (10 + 70 * i / total)%Z 100
              else ret tt)
    0 activities 0 ;;
  db_operation SiteActivities ;;
  ret synced.

Definition _sync_activities_after (after_date : option Z)
    (progress_callback : option Callback) : M Z :=
  response <- StravaClient.get_activities after_date ;;
  activities <- not_none response
    (mk_exn TypeError "'NoneType' object is not iterable") ;;
  let total := Z.of_nat (length activities) in
  synced <- sync_activities_loop
    (fun i => if (0 <? total)%Z
              then call_progress progress_callback "Syncing activities"
                     (70 * i / total)%Z 100
              else ret tt)
    0 activities 0 ;;
  db_operation SiteActivities ;;
  ret synced.

(** The athlete's activities of [_calculate_training_loads], filtered by
    [start_date >= after_date] when a date is given, ordered by start. *)
Definition activities_for_loads (after_date : option Z) (d : DB) : list Activity :=
  merge_sort by_start_date
    (List.filter
       (fun a =>
          match activity_athlete_id a with
          | Some id => (id =? self_athlete_id)%Z
          | None => false
          end
          && match after_date with
             | Some t => (t <=? start_date a)%Z
             | None => true
             end)
       (activities d)).

(** The stored row the recursion is continued from: the athlete's row
    with the latest date. *)
Definition previous_load (d : DB) : option TrainingLoad :=
  latest_training_load
    (List.filter (fun r => (tl_athlete_id r =? self_athlete_id)%Z) (training_loads d)).

(** The [for day, daily_tss_value in sorted(daily_tss.items())] loop. *)
Fixpoint training_load_loop (items : list (Z * Q)) (current_ctl current_atl : Q)
    (rows : list TrainingLoad) : list TrainingLoad :=
  match items with
  | [] => rows
  | (day, daily_tss_value) :: rest =>
      let current_ctl := TrainingMetrics.calculate_ctl [daily_tss_value] current_ctl in
      let current_atl := TrainingMetrics.calculate_atl [daily_tss_value] current_atl in
      let current_tsb := TrainingMetrics.calculate_tsb current_ctl current_atl in
      let rows :=
        upsert
          (fun r => (tl_athlete_id r =? self_athlete_id)%Z && (tl_date r =? day)%Z)
          (new_training_load self_athlete_id day)
          (fun r => mk_training_load (tl_athlete_id r) (tl_date r)
                      daily_tss_value current_ctl current_atl current_tsb)
          rows in
      training_load_loop rest current_ctl current_atl rows
  end.

Definition _calculate_training_loads (after_date : option Z) : M unit :=
  d <- gets db ;;
  let activities := activities_for_loads after_date d in
  match activities with
  | [] => ret tt
  | _ =>
      let previous_ctl := match previous_load d with Some l => ctl l | None => 0 end in
      let previous_atl := match previous_load d with Some l => atl l | None => 0 end in
      let daily_tss := group_daily_tss activities ∅ in
      let rows :=
        training_load_loop (merge_sort by_day (map_to_list daily_tss))
          previous_ctl previous_atl (training_loads d) in
      modify (fun w => set_db (set_training_loads rows (db w)) w) ;;
      db_operation SiteTrainingLoads
  end.

Definition _sync_activity_streams (activity_id : Z) : M unit :=
  response <- StravaClient.get_activity_streams activity_id ;;
  streams_dict <- not_none response
    (mk_exn AttributeError "'NoneType' object has no attribute 'items'") ;;
  for_each streams_dict
    (fun '(type, data) =>
       modify (fun w =>
         set_db (set_activity_streams
           (upsert
              (fun s => (stream_activity_id s =? activity_id)%Z
                        && String.eqb (stream_type s) type)
              (mk_activity_stream activity_id type [] 0)
              (fun s => mk_activity_stream (stream_activity_id s) (stream_type s)
                          data (Z.of_nat (length data)))
              (activity_streams (db w))) (db w)) w)).

(** The loop of [_sync_recent_streams]: a failure for one activity is
    logged and skipped. *)
Fixpoint sync_streams_loop (activities : list Activity) (synced : Z) : M Z :=
  match activities with
  | [] => ret synced
  | activity :: rest =>
      ok <- try_except
              (_sync_activity_streams (activity_id activity) ;; ret true)
              (fun _ => ret false) ;;
      sync_streams_loop rest (if ok then synced + 1 else synced)%Z
  end.

Definition _sync_recent_streams (days : option Z) : M Z :=
  let days := default SYNC_STREAM_DATA_DAYS days in
  now <- utcnow ;;
  let cutoff_date := (now - days * 86400)%Z in
  db_operation SiteRecentActivities ;;
  d <- gets db ;;
  let activities :=
    take 50
      (List.filter
         (fun a =>
            match activity_athlete_id a with
            | Some id => (id =? self_athlete_id)%Z
            | None => false
            end
            && (cutoff_date <=? start_date a)%Z
            && negb (existsb (fun s => (stream_activity_id s =? activity_id a)%Z)
                       (activity_streams d)))
         (activities d)) in
  synced <- sync_streams_loop activities 0 ;;
  db_operation SiteStreams ;;
  ret synced.

(** The [except Exception as e] clause of both sync entry points. *)
Definition sync_failed (sync_record : nat) (e : exn) : M (gmap string pyval) :=
  now <- utcnow ;;
  update_sync_record sync_record (set_outcome "failed" (Some (str_exn e)) now) ;;
  db_operation SiteFailed ;;
  ret ({[ "status" := PStr "failed"; "error" := PStr (str_exn e) ]} : gmap string pyval).

(** The end of the [try] block of both sync entry points. *)
Definition sync_completed (progress_callback : option Callback)
    (sync_record : nat) (activities_synced streams_synced : Z)
    : M (gmap string pyval) :=
  now <- utcnow ;;
  update_sync_record sync_record (set_outcome "success" None now) ;;
  db_operation SiteComplete ;;
  call_progress progress_callback "Sync completed" 100 100 ;;
  duration <- duration_seconds sync_record ;;
  ret ({[ "status" := PStr "success";
          "activities_synced" := PInt activities_synced;
          "streams_synced" := PInt streams_synced;
          "duration_seconds" := PInt duration ]} : gmap string pyval).

Definition full_sync (progress_callback : option Callback) : M (gmap string pyval) :=
  db_operation SiteOpenSession ;;
  sync_record <- _create_sync_record "full" "in_progress" ;;
  try_finally
    (try_except
       (call_progress progress_callback "Syncing athlete profile" 0 100 ;;
        athlete <- _sync_athlete_profile ;;
        call_progress progress_callback "Syncing activities" 10 100 ;;
        activities_synced <- _sync_all_activities progress_callback ;;
        update_sync_record sync_record (set_activities_synced activities_synced) ;;
        call_progress progress_callback "Calculating training loads" 80 100 ;;
        _calculate_training_loads None ;;
        call_progress progress_callback "Syncing activity streams" 90 100 ;;
        streams_synced <- _sync_recent_streams None ;;
        update_sync_record sync_record (set_streams_synced streams_synced) ;;
        sync_completed progress_callback sync_record activities_synced streams_synced)
       (sync_failed sync_record))
    (db_operation SiteClose).

Definition incremental_sync (progress_callback : option Callback)
    : M (gmap string pyval) :=
  db_operation SiteOpenSession ;;
  sync_record <- _create_sync_record "incremental" "in_progress" ;;
  try_finally
    (try_except
       (last_sync <- _get_last_successful_sync ;;
        let after_date :=
          match last_sync with
          | Some s => last_activity_date s
          | None => None
          end in
        call_progress progress_callback "Fetching new activities" 0 100 ;;
        activities_synced <- _sync_activities_after after_date progress_callback ;;
        update_sync_record sync_record (set_activities_synced activities_synced) ;;
        streams_synced <-
          (if (0 <? activities_synced)%Z
           then
             call_progress progress_callback "Updating training loads" 80 100 ;;
             _calculate_training_loads after_date ;;
             call_progress progress_callback "Syncing activity streams" 90 100 ;;
             streams_synced <- _sync_recent_streams None ;;
             update_sync_record sync_record (set_streams_synced streams_synced) ;;
             ret streams_synced
           else ret 0%Z) ;;
        sync_completed progress_callback sync_record activities_synced streams_synced)
       (sync_failed sync_record))
    (db_operation SiteClose).

End Manager.

End SyncManager.



(** ** Concrete worlds for the examples *)

Definition unauthorized : exn := mk_exn AccessUnauthorized "Unauthorized".

Definition fresh_token_response : TokenResponse :=
  mk_token_response (Some 7%Z) "access-2" "refresh-2" 100000.

Definition empty_db : DB := mk_db [] [] [] [] [] [].

Definition example_client : ClientState :=
  mk_client (Some 7%Z) (Some (mk_token 7 "access-1" "refresh-1" 0)) 0 0 0 0.

(** Upstream that answers the calls as [outcomes] says, refreshes tokens
    without fail and has a database that never fails. *)
Definition example_upstream
    (outcomes : nat -> option exn) (remote : list StravaActivity) : Upstream :=
  mk_upstream outcomes (fun _ => Ok fresh_token_response)
    (mk_strava_athlete 7 "rider" (Some 70)) remote (fun _ => []) (fun _ => None).

Definition example_world (d : DB) : World :=
  mk_world 0 0 0 example_client d.

(** The first [n] calls are answered "unauthorized", the later ones succeed. *)
Definition unauthorized_first (n : nat) (call : nat) : option exn :=
  if (call <? n)%nat then Some unauthorized else None.

(** An hour-long activity without power or heart-rate data. *)
Definition ride (id start : Z) : StravaActivity :=
  mk_strava_activity id start (Some 3600%Z) None None.

(** Upstream that answers every call and never fails. *)
Definition calm_upstream (remote : list StravaActivity) : Upstream :=
  example_upstream (fun _ => None) remote.


(** ** Further reference definitions *)

(** Zones that continue one another: every zone ends where the next one
    starts, and none is turned around. *)
Fixpoint contiguous_zones (zones : list Zone) : Prop :=
  match zones with
  | [] => True
  | zone :: rest =>
      min_value zone <= max_value zone
      /\ match rest with
         | [] => True
         | next :: _ => max_value zone == min_value next
         end
      /\ contiguous_zones rest
  end.

(** [sum(zone_times.values())] *)
Definition zone_times_total (zone_times : gmap Z Z) : Z :=
  map_fold (fun _ t acc => (t + acc)%Z) 0%Z zone_times.

(** Errors that are retried after a sleep of [base] seconds, doubled at
    every attempt: 60 for [RateLimitExceeded], 5 for every error other than
    [AccessUnauthorized]. *)
Definition backs_off_with (base : Z) (k : exn_kind) : Prop :=
  (k = RateLimitExceeded /\ base = 60%Z)
  \/ (k <> RateLimitExceeded /\ k <> AccessUnauthorized /\ base = 5%Z).

(** ** Frames and triples for the monad *)

(** [m] leaves the part [f] of the world as it found it, whatever upstream
    does and whether it returns or raises. *)
Definition preserves {A X : Type} (f : World -> X) (m : M A) : Prop :=
  forall u w, f (snd (m u w)) = f w.

(** From a world in [P], [m] run against [u] returns [a] in a world in
    [Q a], or raises [e] in a world in [E e]. *)
Definition hoare {A : Type} (u : Upstream) (P : World -> Prop) (m : M A)
    (Q : A -> World -> Prop) (E : exn -> World -> Prop) : Prop :=
  forall w, P w ->
    match m u w with
    | (Ok a, w') => Q a w'
    | (Raise e, w') => E e w'
    end.

(** The tables the client never writes: all but [oauth_tokens]. *)
Definition tables (w : World)
    : list Athlete * list Activity * list TrainingLoad * list SyncMetadata
      * list ActivityStream :=
  (athletes (db w), activities (db w), training_loads (db w),
   sync_metadata (db w), activity_streams (db w)).


(** That record has been given the final [status] and a completion time. *)
Definition closed_record (old : list SyncMetadata) (athlete : Z) (type : string)
    (started : Z) (status : string) (w : World) : Prop :=
  exists row,
    sync_metadata (db w) = old ++ [row]
    /\ sync_athlete_id row = athlete /\ sync_type row = type /\ started_at row = started
    /\ sync_status row = status /\ completed_at row <> None.

(** The activities [remote] are in the table of [w'], each under its id for
    the athlete with its start and moving time, and the rows with other ids
    are those of [w]. *)
Definition activities_stored (athlete : Z) (remote : list StravaActivity)
    (w w' : World) : Prop :=
  (forall sa, In sa remote ->
     exists a,
       List.find (fun a => (activity_id a =? sa_id sa)%Z) (activities (db w')) = Some a
       /\ activity_athlete_id a = Some athlete
       /\ start_date a = sa_start_date sa
       /\ moving_time a
          = (if truthy_int (sa_moving_time sa) then sa_moving_time sa else None))
  /\ (forall id, ~ In id (map sa_id remote) ->
        List.find (fun a => (activity_id a =? id)%Z) (activities (db w'))
        = List.find (fun a => (activity_id a =? id)%Z) (activities (db w))).

(** * Properties *)

(** Division by a literal, rewritten as a product for [lra]. *)
Ltac qdiv_const :=
  unfold Qdiv in *;
  repeat match goal with
    | |- context [ / (Zpos ?n # 1) ] => change (/ (Zpos n # 1)) with (1 # n)
    | H : context [ / (Zpos ?n # 1) ] |- _ =>
        change (/ (Zpos n # 1)) with (1 # n) in H
    end.

(** ** Rounding *)

Lemma round_half_even_comp (x y : Q) :
  x == y -> round_half_even x = round_half_even y.
Proof.
  intros Hxy. unfold round_half_even.
  rewrite (Qfloor_comp _ _ Hxy).
  assert (Hc : Qcompare (x - inject_Z (Qfloor y)) (1 # 2)
               = Qcompare (y - inject_Z (Qfloor y)) (1 # 2)).
  { apply Qcompare_comp; [rewrite Hxy|]; reflexivity. }
  rewrite Hc. reflexivity.
Qed.

Lemma py_round_comp (x y : Q) (ndigits : nat) :
  x == y -> py_round x ndigits = py_round y ndigits.
Proof.
  intros Hxy. unfold py_round.
  set (scale := inject_Z (10 ^ Z.of_nat ndigits)).
  rewrite (round_half_even_comp (x * scale) (y * scale)); [reflexivity|].
  rewrite Hxy. reflexivity.
Qed.

Lemma round_half_even_inject_Z (z : Z) : round_half_even (inject_Z z) = z.
Proof.
  unfold round_half_even. rewrite Qfloor_Z.
  assert (Hc : Qcompare (inject_Z z - inject_Z z) (1 # 2) = Lt).
  { rewrite <- Qlt_alt. lra. }
  rewrite Hc. reflexivity.
Qed.

Lemma scale_pos (ndigits : nat) : 0 < inject_Z (10 ^ Z.of_nat ndigits).
Proof.
  replace 0 with (inject_Z 0) by reflexivity. rewrite <- Zlt_Qlt.
  apply Z.pow_pos_nonneg; lia.
Qed.

(** A value with at most [ndigits] decimals is left unchanged by [round]. *)
Lemma py_round_exact (x : Q) (ndigits : nat) (z : Z) :
  x * inject_Z (10 ^ Z.of_nat ndigits) == inject_Z z ->
  py_round x ndigits = Qred x.
Proof.
  intros Hz. unfold py_round.
  rewrite (round_half_even_comp _ _ Hz), round_half_even_inject_Z.
  apply Qred_complete. rewrite <- Hz.
  pose proof (scale_pos ndigits) as Hs. field. lra.
Qed.

(** The rounded value is within half a unit of the last digit. *)
Lemma round_half_even_bounds (x : Q) :
  x - (1 # 2) <= inject_Z (round_half_even x) <= x + (1 # 2).
Proof.
  unfold round_half_even.
  pose proof (Qfloor_le x) as Hlo. pose proof (Qlt_floor x) as Hhi.
  rewrite inject_Z_plus in Hhi. change (inject_Z 1) with 1 in Hhi.
  destruct (Qcompare (x - inject_Z (Qfloor x)) (1 # 2)) eqn:Hc.
  - apply Qeq_alt in Hc.
    destruct (Z.even (Qfloor x)); rewrite ?inject_Z_plus;
      change (inject_Z 1) with 1; lra.
  - apply Qlt_alt in Hc. lra.
  - apply Qgt_alt in Hc. rewrite inject_Z_plus. change (inject_Z 1) with 1. lra.
Qed.

(** An outcome of [Qcompare] as the order fact it stands for. *)
Ltac qcompare_prop H :=
  match type of H with
  | Qcompare _ _ = Eq => apply Qeq_alt in H
  | Qcompare _ _ = Lt => apply Qlt_alt in H
  | Qcompare _ _ = Gt => apply Qgt_alt in H
  end.

Lemma round_half_even_cases (x : Q) :
  round_half_even x = Qfloor x \/ round_half_even x = (Qfloor x + 1)%Z.
Proof.
  unfold round_half_even.
  destruct (Qcompare (x - inject_Z (Qfloor x)) (1 # 2));
    [destruct (Z.even (Qfloor x))|..]; auto.
Qed.

Lemma round_half_even_monotone (x y : Q) :
  x <= y -> (round_half_even x <= round_half_even y)%Z.
Proof.
  intros Hxy. pose proof (Qfloor_resp_le _ _ Hxy) as Hfloor.
  destruct (Z.eq_dec (Qfloor x) (Qfloor y)) as [Heq|Hne].
  - unfold round_half_even. rewrite <- Heq.
    destruct (Qcompare (x - inject_Z (Qfloor x)) (1 # 2)) eqn:Ex;
      destruct (Qcompare (y - inject_Z (Qfloor x)) (1 # 2)) eqn:Ey;
      qcompare_prop Ex; qcompare_prop Ey;
      try (exfalso; lra); destruct (Z.even (Qfloor x)); lia.
  - destruct (round_half_even_cases x) as [-> | ->];
      destruct (round_half_even_cases y) as [-> | ->]; lia.
Qed.

Lemma py_round_value (x : Q) (ndigits : nat) :
  py_round x ndigits
  == inject_Z (round_half_even (x * inject_Z (10 ^ Z.of_nat ndigits)))
     / inject_Z (10 ^ Z.of_nat ndigits).
Proof. unfold py_round. apply Qred_correct. Qed.

(** [round] is monotone. *)
Lemma py_round_monotone (x y : Q) (ndigits : nat) :
  x <= y -> py_round x ndigits <= py_round y ndigits.
Proof.
  intros Hxy. rewrite !py_round_value.
  pose proof (scale_pos ndigits) as Hs.
  set (s := inject_Z (10 ^ Z.of_nat ndigits)) in *. clearbody s.
  assert (Hr : inject_Z (round_half_even (x * s)) <= inject_Z (round_half_even (y * s))).
  { rewrite <- Zle_Qle. apply round_half_even_monotone.
    apply Qmult_le_compat_r; lra. }
  apply Qmult_le_compat_r; [exact Hr|].
  apply Qlt_le_weak, Qinv_lt_0_compat. exact Hs.
Qed.

Lemma py_round_zero (ndigits : nat) : py_round 0 ndigits = 0.
Proof.
  rewrite (py_round_exact 0 ndigits 0); [reflexivity|]. ring.
Qed.

Lemma py_round_nonneg (x : Q) (ndigits : nat) : 0 <= x -> 0 <= py_round x ndigits.
Proof.
  intros Hx. rewrite <- (py_round_zero ndigits) at 1. apply py_round_monotone. exact Hx.
Qed.

(** [round(x, 2)] is within 0.005 of [x], [round(x, 1)] within 0.05. *)
Lemma py_round_error_2 (x : Q) :
  x - (1 # 200) <= py_round x 2 <= x + (1 # 200).
Proof.
  rewrite py_round_value. change (inject_Z (10 ^ Z.of_nat 2)) with 100.
  pose proof (round_half_even_bounds (x * 100)) as [Hlo Hhi].
  set (r := inject_Z (round_half_even (x * 100))) in *.
  qdiv_const. lra.
Qed.

(** ** TSS guards (C5) *)




(** ** FTP estimation (C3) *)

(** C3 fails on the code: the windows of [estimate_ftp_from_activity]
    compare a duration in minutes with bounds written in seconds ([4 * 60],
    [18 * 60], ...), so a 20-, 5- or 60-minute effort falls in no window
    and gives [None], and the 0.95 factor is applied to a 20-hour one. *)
Theorem estimate_ftp_windows_misscaled :
  TrainingMetrics.estimate_ftp_from_activity 1200 200 200 = None
  /\ TrainingMetrics.estimate_ftp_from_activity 300 200 200 = None
  /\ TrainingMetrics.estimate_ftp_from_activity 3600 200 200 = None
  /\ TrainingMetrics.estimate_ftp_from_activity 72000 200 200 = Some 190%Z.
Proof. repeat split; reflexivity. Qed.

(** What the code does on the whole: the factor 0.95 is applied exactly
    when the duration in seconds lies in [64800, 79200]. *)
Lemma estimate_ftp_middle_window (duration_seconds power : Q) :
  0 < power ->
  18 * 3600 <= duration_seconds <= 22 * 3600 ->
  TrainingMetrics.estimate_ftp_from_activity duration_seconds power power
  = Some (round_half_even (power * (95 # 100))).
Proof.
  intros Hp [Hlo Hhi]. unfold TrainingMetrics.estimate_ftp_from_activity, Qlt_bool.
  assert (H0 : Qle_bool power 0 = false).
  { destruct (Qle_bool power 0) eqn:E; [|reflexivity].
    apply Qle_bool_iff in E. lra. }
  rewrite H0. simpl negb. cbv iota.
  assert (H1 : Qeq_bool power 0 = false).
  { destruct (Qeq_bool power 0) eqn:E; [|reflexivity].
    apply Qeq_bool_iff in E. lra. }
  rewrite H1.
  assert (H2 : Qle_bool (duration_seconds / 60) (6 * 60) = false).
  { destruct (Qle_bool (duration_seconds / 60) (6 * 60)) eqn:E; [|reflexivity].
    apply Qle_bool_iff in E. qdiv_const. lra. }
  rewrite H2, andb_false_r.
  assert (H3 : Qle_bool (18 * 60) (duration_seconds / 60) = true).
  { apply Qle_bool_iff. qdiv_const. lra. }
  assert (H4 : Qle_bool (duration_seconds / 60) (22 * 60) = true).
  { apply Qle_bool_iff. qdiv_const. lra. }
  rewrite H3, H4. reflexivity.
Qed.

(** ** CTL / ATL recursion (C8) *)

Lemma fold_left_repeat_S {A B : Type} (f : A -> B -> A) (b : B) (n : nat) (a : A) :
  fold_left f (repeat b (S n)) a = f (fold_left f (repeat b n) a) b.
Proof.
  revert a. induction n as [|n IH]; intros a; [reflexivity|].
  change (repeat b (S (S n))) with (b :: repeat b (S n)).
  cbn [fold_left]. rewrite IH. reflexivity.
Qed.

Lemma ctl_loop_repeat_S (T : Q) (n : nat) :
  TrainingMetrics.ctl_loop (repeat T (S n)) 0
  = TrainingMetrics.ctl_step (TrainingMetrics.ctl_loop (repeat T n) 0) T.
Proof. apply fold_left_repeat_S. Qed.

Lemma atl_loop_repeat_S (T : Q) (n : nat) :
  TrainingMetrics.atl_loop (repeat T (S n)) 0
  = TrainingMetrics.atl_step (TrainingMetrics.atl_loop (repeat T n) 0) T.
Proof. apply fold_left_repeat_S. Qed.

Lemma ctl_step_eq (c T : Q) :
  TrainingMetrics.ctl_step c T == c + (T - c) * (1 # 42).
Proof. reflexivity. Qed.

Lemma atl_step_eq (a T : Q) :
  TrainingMetrics.atl_step a T == a + (T - a) * (1 # 7).
Proof. reflexivity. Qed.

(** Under a constant positive input the running CTL stays below the input
    and the running ATL lies between the CTL and the input. *)
Lemma ctl_atl_constant_input_bounds (T : Q) (n : nat) :
  0 < T ->
  0 <= TrainingMetrics.ctl_loop (repeat T n) 0
  /\ TrainingMetrics.ctl_loop (repeat T n) 0 < T
  /\ TrainingMetrics.ctl_loop (repeat T n) 0 <= TrainingMetrics.atl_loop (repeat T n) 0
  /\ TrainingMetrics.atl_loop (repeat T n) 0 < T.
Proof.
  intros HT. induction n as [|n (Hc0 & HcT & Hca & HaT)].
  - cbn. lra.
  - rewrite ctl_loop_repeat_S, atl_loop_repeat_S.
    rewrite ctl_step_eq, atl_step_eq.
    set (c := TrainingMetrics.ctl_loop (repeat T n) 0) in *.
    set (a := TrainingMetrics.atl_loop (repeat T n) 0) in *.
    repeat split; lra.
Qed.

(** The running value can be computed on reduced fractions. *)
Lemma ctl_loop_reduced (l : list Q) (c c' : Q) :
  c == c' ->
  TrainingMetrics.ctl_loop l c
  == fold_left (fun x t => Qred (TrainingMetrics.ctl_step x t)) l c'.
Proof.
  revert c c'. induction l as [|t l IH]; intros c c' Hc; [exact Hc|].
  cbn [TrainingMetrics.ctl_loop fold_left]. apply IH.
  rewrite Qred_correct, !ctl_step_eq, Hc. reflexivity.
Qed.

(** The distance to the input shrinks by 41/42 (CTL) and by 6/7 (ATL)
    every day. *)
Lemma ctl_gap_closed_form (T : Q) (n : nat) :
  T - TrainingMetrics.ctl_loop (repeat T n) 0 == T * (41 # 42) ^ Z.of_nat n.
Proof.
  induction n as [|n IH].
  - change ((41 # 42) ^ Z.of_nat 0) with 1. cbn [repeat]. unfold TrainingMetrics.ctl_loop.
    cbn [fold_left]. ring.
  - rewrite ctl_loop_repeat_S, ctl_step_eq, Nat2Z.inj_succ, <- Z.add_1_r.
    rewrite Qpower_plus by discriminate.
    change ((41 # 42) ^ 1) with (41 # 42).
    rewrite Qmult_assoc, <- IH. ring.
Qed.

Lemma atl_gap_closed_form (T : Q) (n : nat) :
  T - TrainingMetrics.atl_loop (repeat T n) 0 == T * (6 # 7) ^ Z.of_nat n.
Proof.
  induction n as [|n IH].
  - change ((6 # 7) ^ Z.of_nat 0) with 1. cbn [repeat]. unfold TrainingMetrics.atl_loop.
    cbn [fold_left]. ring.
  - rewrite atl_loop_repeat_S, atl_step_eq, Nat2Z.inj_succ, <- Z.add_1_r.
    rewrite Qpower_plus by discriminate.
    change ((6 # 7) ^ 1) with (6 # 7).
    rewrite Qmult_assoc, <- IH. ring.
Qed.

Lemma atl_loop_reduced (l : list Q) (a a' : Q) :
  a == a' ->
  TrainingMetrics.atl_loop l a
  == fold_left (fun x t => Qred (TrainingMetrics.atl_step x t)) l a'.
Proof.
  revert a a'. induction l as [|t l IH]; intros a a' Ha; [exact Ha|].
  cbn [TrainingMetrics.atl_loop fold_left]. apply IH.
  rewrite Qred_correct, !atl_step_eq, Ha. reflexivity.
Qed.

(** Under a constant positive input both running values grow every day. *)
Lemma ctl_atl_constant_input_growth (T : Q) (n : nat) :
  0 < T ->
  TrainingMetrics.ctl_loop (repeat T n) 0 < TrainingMetrics.ctl_loop (repeat T (S n)) 0
  /\ TrainingMetrics.atl_loop (repeat T n) 0 < TrainingMetrics.atl_loop (repeat T (S n)) 0.
Proof.
  intros HT. destruct (ctl_atl_constant_input_bounds T n HT) as (Hc0 & HcT & Hca & HaT).
  rewrite ctl_loop_repeat_S, atl_loop_repeat_S, ctl_step_eq, atl_step_eq.
  set (c := TrainingMetrics.ctl_loop (repeat T n) 0) in *.
  set (a := TrainingMetrics.atl_loop (repeat T n) 0) in *.
  split; lra.
Qed.

(** C8, as amended: for a constant daily TSS [T > 0] applied [n] times from
    seed 0, the values [calculate_ctl] and [calculate_atl] return never
    decrease from one day to the next, lie between 0 and [round(T, 2)], the
    ATL never below the CTL, and (for [T] up to 10^6) are within one
    hundredth of [T * (1 - (41/42)^n)] and [T * (1 - (6/7)^n)], the values
    of the recursions, which tend to [T]; after 42 days at [T = 50]
    [calculate_ctl] returns 31.83, above 31.5. *)
Theorem ctl_atl_monotone_convergence (T : Q) (n : nat) (HT : 0 < T) :
  TrainingMetrics.calculate_ctl (repeat T n) 0
  <= TrainingMetrics.calculate_ctl (repeat T (S n)) 0
  /\ TrainingMetrics.calculate_atl (repeat T n) 0
     <= TrainingMetrics.calculate_atl (repeat T (S n)) 0
  /\ 0 <= TrainingMetrics.calculate_ctl (repeat T n) 0
  /\ TrainingMetrics.calculate_ctl (repeat T n) 0
     <= TrainingMetrics.calculate_atl (repeat T n) 0
  /\ TrainingMetrics.calculate_atl (repeat T n) 0 <= py_round T 2
  /\ (T <= 1000000 ->
      Qabs (TrainingMetrics.calculate_ctl (repeat T n) 0
            - T * (1 - (41 # 42) ^ Z.of_nat n)) <= 1 # 100
      /\ Qabs (TrainingMetrics.calculate_atl (repeat T n) 0
               - T * (1 - (6 # 7) ^ Z.of_nat n)) <= 1 # 100)
  /\ TrainingMetrics.calculate_ctl (repeat 50 42) 0 = 3183 # 100
  /\ (63 # 2) < TrainingMetrics.calculate_ctl (repeat 50 42) 0.
Proof.
  destruct (ctl_atl_constant_input_bounds T n HT) as (Hc0 & HcT & Hca & HaT).
  destruct (ctl_atl_constant_input_growth T n HT) as [Hcgrow Hagrow].
  pose proof (ctl_gap_closed_form T n) as Hcgap.
  pose proof (atl_gap_closed_form T n) as Hagap.
  assert (H42 : TrainingMetrics.calculate_ctl (repeat 50 42) 0 = 3183 # 100).
  { unfold TrainingMetrics.calculate_ctl.
    rewrite (py_round_comp _ _ 2 (ctl_loop_reduced (repeat 50 42) 0 0 (Qeq_refl 0))).
    vm_compute. reflexivity. }
  rewrite H42. clear H42.
  unfold TrainingMetrics.calculate_ctl, TrainingMetrics.calculate_atl.
  pose proof (py_round_error_2 (TrainingMetrics.ctl_loop (repeat T n) 0)) as [Hc1 Hc2].
  pose proof (py_round_error_2 (TrainingMetrics.atl_loop (repeat T n) 0)) as [Ha1 Ha2].
  set (c := TrainingMetrics.ctl_loop (repeat T n) 0) in *.
  set (a := TrainingMetrics.atl_loop (repeat T n) 0) in *.
  set (pc := (41 # 42) ^ Z.of_nat n) in *. set (pa := (6 # 7) ^ Z.of_nat n) in *.
  split; [apply py_round_monotone; lra|].
  split; [apply py_round_monotone; lra|].
  split; [apply py_round_nonneg; exact Hc0|].
  split; [apply py_round_monotone; exact Hca|].
  split; [apply py_round_monotone; lra|].
  split; [intros _; split; apply Qabs_Qle_condition; clearbody c a pc pa; split; lra|].
  split; reflexivity.
Qed.

Lemma ctl_atl_monotone_convergence_witness :
  TrainingMetrics.calculate_ctl (repeat 50 3) 0
  <= TrainingMetrics.calculate_ctl (repeat 50 4) 0
  /\ TrainingMetrics.calculate_atl (repeat 50 3) 0
     <= TrainingMetrics.calculate_atl (repeat 50 4) 0
  /\ 0 <= TrainingMetrics.calculate_ctl (repeat 50 3) 0
  /\ TrainingMetrics.calculate_ctl (repeat 50 3) 0
     <= TrainingMetrics.calculate_atl (repeat 50 3) 0
  /\ TrainingMetrics.calculate_atl (repeat 50 3) 0 <= py_round 50 2
  /\ Qabs (TrainingMetrics.calculate_ctl (repeat 50 3) 0
           - 50 * (1 - (41 # 42) ^ 3)) <= 1 # 100.
Proof.
  destruct (ctl_atl_monotone_convergence 50 3) as (H1 & H2 & H3 & H4 & H5 & H6 & _).
  - reflexivity.
  - destruct H6 as [H6 _]; [discriminate|].
    exact (conj H1 (conj H2 (conj H3 (conj H4 (conj H5 H6))))).
Defined.

(** The values returned are rounded to two places, so the increase is not
    strict and the bound is [round(T, 2)], not [T]: one day and two days at
    0.1 both give a CTL of 0.0, and ten days at 0.0099 give an ATL of 0.01. *)
Lemma ctl_rounded_not_strictly_increasing :
  TrainingMetrics.calculate_ctl (repeat (1 # 10) 1) 0 = 0
  /\ TrainingMetrics.calculate_ctl (repeat (1 # 10) 2) 0 = 0
  /\ ~ TrainingMetrics.calculate_ctl (repeat (1 # 10) 1) 0
       < TrainingMetrics.calculate_ctl (repeat (1 # 10) 2) 0
  /\ TrainingMetrics.calculate_atl (repeat (99 # 10000) 10) 0 = 1 # 100
  /\ ~ TrainingMetrics.calculate_atl (repeat (99 # 10000) 10) 0 <= 99 # 10000.
Proof.
  assert (Hatl : TrainingMetrics.calculate_atl (repeat (99 # 10000) 10) 0 = 1 # 100).
  { unfold TrainingMetrics.calculate_atl.
    rewrite (py_round_comp _ _ 2
               (atl_loop_reduced (repeat (99 # 10000) 10) 0 0 (Qeq_refl 0))).
    vm_compute. reflexivity. }
  split; [vm_compute; reflexivity|]. split; [vm_compute; reflexivity|]. split.
  { intros H. vm_compute in H. discriminate H. }
  split; [exact Hatl|]. rewrite Hatl. intros H. vm_compute in H. apply H. reflexivity.
Qed.

(** ** Time in zones (C6) *)

Lemma in_zone_half_open (zone : Zone) (hr : Q) :
  TrainingMetrics.in_zone zone hr = true <-> min_value zone <= hr /\ hr < max_value zone.
Proof.
  unfold TrainingMetrics.in_zone, Qlt_bool.
  rewrite andb_true_iff, negb_true_iff, Qle_bool_iff. split.
  - intros [Hlo Hhi]. split; [exact Hlo|].
    apply Qnot_le_lt. intros Hle. apply Qle_bool_iff in Hle. congruence.
  - intros [Hlo Hhi]. split; [exact Hlo|].
    destruct (Qle_bool (max_value zone) hr) eqn:E; [|reflexivity].
    apply Qle_bool_iff in E. lra.
Qed.

Lemma zone_loop_lookup_before
    (hr_data : list Q) (si : Z) (zones : list Zone) (i j : Z) (m : gmap Z Z) :
  (j < i)%Z ->
  TrainingMetrics.zone_loop hr_data si i zones m !! j = m !! j.
Proof.
  revert i m. induction zones as [|z zones IH]; intros i m Hj; [reflexivity|].
  cbn [TrainingMetrics.zone_loop]. rewrite IH by lia.
  apply lookup_insert_ne. lia.
Qed.

Lemma zone_loop_lookup
    (hr_data : list Q) (si : Z) (zones : list Zone) (i : Z) (m : gmap Z Z)
    (k : nat) (zone : Zone) :
  zones !! k = Some zone ->
  TrainingMetrics.zone_loop hr_data si i zones m !! (i + Z.of_nat k)%Z
  = Some (TrainingMetrics.count_in_zone zone hr_data * si)%Z.
Proof.
  revert i m k. induction zones as [|z zones IH]; intros i m k Hk; [discriminate|].
  cbn [TrainingMetrics.zone_loop]. destruct k as [|k].
  - injection Hk as ->. rewrite Z.add_0_r.
    rewrite zone_loop_lookup_before by lia. apply lookup_insert_eq.
  - replace (i + Z.of_nat (S k))%Z with ((i + 1) + Z.of_nat k)%Z by lia.
    apply IH. exact Hk.
Qed.

(** C6, as amended: with samples and zones present, the entry of the zone
    at position [k] (key [k + 1]) is the number of samples in its half-open
    interval [min, max) times the sampling interval; every zone is counted
    on its own, so a sample lying in several overlapping zones is counted
    in each of them. *)
Theorem time_in_zones_counts_each_zone
    (hr_data : list Q) (zones : list Zone) (sampling_interval : Z)
    (k : nat) (zone : Zone)
    (Hdata : hr_data <> []) (Hzone : zones !! k = Some zone) :
  TrainingMetrics.calculate_time_in_zones hr_data zones sampling_interval
    !! (Z.of_nat k + 1)%Z
  = Some (TrainingMetrics.count_in_zone zone hr_data * sampling_interval)%Z
  /\ (forall hr, TrainingMetrics.in_zone zone hr = true
                 <-> min_value zone <= hr /\ hr < max_value zone).
Proof.
  split; [|intros hr; apply in_zone_half_open].
  unfold TrainingMetrics.calculate_time_in_zones.
  destruct hr_data as [|h hr_data]; [contradiction|].
  destruct zones as [|z zones]; [discriminate|].
  rewrite Z.add_comm. apply zone_loop_lookup. exact Hzone.
Qed.

(** The specification's example: 119 counts toward zone 1, 120 toward
    zone 2. *)
Lemma time_in_zones_counts_each_zone_witness :
  TrainingMetrics.calculate_time_in_zones
    [119] [mk_zone 0 120; mk_zone 120 150; mk_zone 150 999] 1 !! 1%Z = Some 1%Z
  /\ TrainingMetrics.calculate_time_in_zones
       [120] [mk_zone 0 120; mk_zone 120 150; mk_zone 150 999] 1 !! 2%Z = Some 1%Z
  /\ TrainingMetrics.calculate_time_in_zones
       [120] [mk_zone 0 120; mk_zone 120 150; mk_zone 150 999] 1 !! 1%Z = Some 0%Z.
Proof.
  split; [|split].
  - apply (time_in_zones_counts_each_zone
             [119] [mk_zone 0 120; mk_zone 120 150; mk_zone 150 999] 1 0 (mk_zone 0 120));
      [discriminate|reflexivity].
  - apply (time_in_zones_counts_each_zone
             [120] [mk_zone 0 120; mk_zone 120 150; mk_zone 150 999] 1 1 (mk_zone 120 150));
      [discriminate|reflexivity].
  - apply (time_in_zones_counts_each_zone
             [120] [mk_zone 0 120; mk_zone 120 150; mk_zone 150 999] 1 0 (mk_zone 0 120));
      [discriminate|reflexivity].
Defined.

(** With overlapping bounds the code does not resolve a sample to the first
    matching zone: 120 lies in both [0, 150) and [100, 200) and is counted
    in zone 2 as well, where the first-match reading gives 0. *)
Lemma time_in_zones_overlap_counts_twice :
  TrainingMetrics.calculate_time_in_zones [120] [mk_zone 0 150; mk_zone 100 200] 1 !! 1%Z
  = Some 1%Z
  /\ TrainingMetrics.calculate_time_in_zones [120] [mk_zone 0 150; mk_zone 100 200] 1 !! 2%Z
     = Some 1%Z
  /\ spec_time_in_zone_first_match [120] [mk_zone 0 150; mk_zone 100 200] 1 2 = 0%Z
  /\ TrainingMetrics.calculate_time_in_zones [120] [mk_zone 0 150; mk_zone 100 200] 1 !! 2%Z
     <> Some (spec_time_in_zone_first_match [120] [mk_zone 0 150; mk_zone 100 200] 1 2).
Proof. repeat split; try reflexivity. vm_compute. discriminate. Qed.

(** ** Normalized Power (C7) *)



Lemma py_round_error_1 (x : Q) : Qabs (py_round x 1 - x) <= 1 # 20.
Proof.
  rewrite py_round_value. change (inject_Z (10 ^ Z.of_nat 1)) with 10.
  pose proof (round_half_even_bounds (x * 10)) as [Hlo Hhi].
  set (r := inject_Z (round_half_even (x * 10))) in *. clearbody r.
  apply Qabs_Qle_condition. revert Hlo Hhi. qdiv_const. intros Hlo Hhi. split; lra.
Qed.



(** ** Token refresh and retry (C4) *)

Lemma refresh_access_token_total (u : Upstream) (w : World) :
  exists (refreshed : bool) (w' : World),
    StravaClient._refresh_access_token u w = (Ok refreshed, w')
    /\ refresh_calls w' = S (refresh_calls w)
    /\ api_calls w' = api_calls w.
Proof.
  unfold StravaClient._refresh_access_token, bind, gets, modify, try_except, ret.
  cbn. destruct (_token (client w)) as [t|]; [|eauto].
  unfold upstream_refresh.
  destruct (refresh_response u (refresh_calls w)) as [resp|e]; [|eauto].
  unfold StravaClient._save_token.
  destruct (tr_athlete_id resp) as [id|]; [|cbn; eauto].
  destruct (id =? 0)%Z; [cbn; eauto|].
  unfold bind, modify, db_operation, ret. cbn.
  destruct (db_fault u SiteSaveToken); cbn; eauto.
Qed.

Lemma sleep_counters (s : Z) (u : Upstream) (w : World) (r : result unit) (w' : World) :
  sleep s u w = (r, w') ->
  api_calls w' = api_calls w /\ refresh_calls w' = refresh_calls w.
Proof.
  unfold sleep. destruct (s <? 0)%Z; intros [= <- <-]; split; reflexivity.
Qed.

(** The loop makes at most [remaining] calls and [remaining] refreshes. *)
Lemma retry_loop_counters {A : Type} (payload : Upstream -> A)
    (max_retries remaining : nat) (u : Upstream) (w : World)
    (res : result (option A)) (w' : World) :
  StravaClient.retry_loop (upstream_call payload) max_retries remaining u w = (res, w') ->
  (api_calls w <= api_calls w' <= api_calls w + remaining)%nat
  /\ (refresh_calls w <= refresh_calls w' <= refresh_calls w + remaining)%nat.
Proof.
  revert w. induction remaining as [|r IH]; intros w Hrun.
  - injection Hrun as <- <-. lia.
  - cbn [StravaClient.retry_loop] in Hrun. unfold try_except in Hrun.
    unfold bind at 1, upstream_call in Hrun.
    destruct (call_outcome u (api_calls w)) as [e|].
    2:{ injection Hrun as <- <-. cbn. lia. }
    set (w1 := set_api_calls (S (api_calls w)) w) in Hrun.
    assert (Hw1 : api_calls w1 = S (api_calls w) /\ refresh_calls w1 = refresh_calls w)
      by (split; reflexivity).
    assert (Hsleep : forall s,
      (sleep s ;; StravaClient.retry_loop (upstream_call payload) max_retries r) u w1
        = (res, w') ->
      (api_calls w <= api_calls w' <= api_calls w + S r)%nat
      /\ (refresh_calls w <= refresh_calls w' <= refresh_calls w + S r)%nat).
    { intros s Hs. unfold bind in Hs.
      destruct (sleep s u w1) as [[[]|e'] ws] eqn:Es;
        destruct (sleep_counters _ _ _ _ _ Es) as [Ha Hr].
      - apply IH in Hs. lia.
      - injection Hs as <- <-. lia. }
    assert (Hraise : (raise e : M (option A)) u w1 = (res, w') ->
      (api_calls w <= api_calls w' <= api_calls w + S r)%nat
      /\ (refresh_calls w <= refresh_calls w' <= refresh_calls w + S r)%nat).
    { intros [= <- <-]. lia. }
    destruct (kind e);
      try (destruct (_ <? _)%Z; [exact (Hsleep _ Hrun) | exact (Hraise Hrun)]).
    unfold bind in Hrun.
    destruct (refresh_access_token_total u w1) as (ok & w2 & Hrefresh & Hr2 & Ha2).
    rewrite Hrefresh in Hrun.
    destruct ok.
    + apply IH in Hrun. lia.
    + injection Hrun as <- <-. lia.
Qed.

Lemma check_rate_limit_counters (u : Upstream) (w : World) (r : result unit) (w' : World) :
  StravaClient._check_rate_limit u w = (r, w') ->
  api_calls w' = api_calls w /\ refresh_calls w' = refresh_calls w.
Proof.
  unfold StravaClient._check_rate_limit, bind, utcnow, gets, modify, ret, raise, sleep.
  cbn.
  repeat match goal with
         | |- context [if ?b then _ else _] => destruct b; cbn
         end; intros [= <- <-]; split; reflexivity.
Qed.

(** C4, as amended: an unauthorized response to a call made through
    [_make_request_with_retry] triggers one token refresh for that response;
    when the refresh fails the unauthorized error is raised to the caller at
    once, with no retry; when it succeeds the call is retried within the
    attempts that remain, a further unauthorized response being handled the
    same way.  In all, the wrapper makes at most [max_retries] calls and at
    most [max_retries] refreshes. *)
Theorem unauthorized_refresh_then_retry {A : Type} (payload : Upstream -> A)
    (max_retries remaining : nat) (u : Upstream) (w : World) (e : exn)
    (Hcall : call_outcome u (api_calls w) = Some e)
    (Hkind : kind e = AccessUnauthorized) :
  (exists (refreshed : bool) (w2 : World),
      StravaClient._refresh_access_token u (set_api_calls (S (api_calls w)) w)
      = (Ok refreshed, w2)
      /\ refresh_calls w2 = S (refresh_calls w)
      /\ api_calls w2 = S (api_calls w)
      /\ StravaClient.retry_loop (upstream_call payload) max_retries (S remaining) u w
         = if refreshed
           then StravaClient.retry_loop (upstream_call payload) max_retries remaining u w2
           else (Raise e, w2))
  /\ (forall (w0 : World) (res : result (option A)) (w' : World),
         StravaClient._make_request_with_retry (upstream_call payload) max_retries u w0
         = (res, w') ->
         (api_calls w' <= api_calls w0 + max_retries)%nat
         /\ (refresh_calls w' <= refresh_calls w0 + max_retries)%nat).
Proof.
  split.
  - destruct (refresh_access_token_total u (set_api_calls (S (api_calls w)) w))
      as (ok & w2 & Hrefresh & Hr2 & Ha2).
    exists ok, w2. split; [exact Hrefresh|]. split; [exact Hr2|]. split; [exact Ha2|].
    cbn [StravaClient.retry_loop]. unfold try_except.
    unfold bind at 1, upstream_call. rewrite Hcall, Hkind.
    unfold bind. rewrite Hrefresh. destruct ok; reflexivity.
  - intros w0 res w' Hrun. unfold StravaClient._make_request_with_retry, bind in Hrun.
    destruct (StravaClient._check_rate_limit u w0) as [[[]|e0] w1] eqn:Echeck;
      destruct (check_rate_limit_counters _ _ _ _ Echeck) as [Ha Hr].
    + apply retry_loop_counters in Hrun. lia.
    + injection Hrun as <- <-. lia.
Qed.

(** A first unauthorized response with a refresh that succeeds: the call
    is made again and its result returned, after one refresh. *)
Lemma unauthorized_refresh_then_retry_witness :
  StravaClient.retry_loop (upstream_call remote_athlete) 3 3
    (example_upstream (unauthorized_first 1) []) (example_world empty_db)
  = StravaClient.retry_loop (upstream_call remote_athlete) 3 2
      (example_upstream (unauthorized_first 1) [])
      (snd (StravaClient._refresh_access_token
              (example_upstream (unauthorized_first 1) [])
              (set_api_calls 1 (example_world empty_db)))).
Proof.
  destruct (unauthorized_refresh_then_retry remote_athlete 3 2
              (example_upstream (unauthorized_first 1) []) (example_world empty_db)
              unauthorized eq_refl eq_refl)
    as [(refreshed & w2 & Hrefresh & _ & _ & Hloop) _].
  rewrite Hloop.
  injection Hrefresh as <- <-. reflexivity.
Defined.

(** Two unauthorized responses in a row are not fatal: the token is
    refreshed twice and the third call's result is returned.  Three in a row
    end in three refreshes and a silent [None]. *)
Lemma unauthorized_twice_refreshes_twice :
  fst (StravaClient.get_athlete
         (example_upstream (unauthorized_first 2) []) (example_world empty_db))
  = Ok (Some (mk_strava_athlete 7 "rider" (Some 70)))
  /\ refresh_calls
       (snd (StravaClient.get_athlete
               (example_upstream (unauthorized_first 2) []) (example_world empty_db)))
     = 2%nat
  /\ fst (StravaClient.get_athlete
            (example_upstream (unauthorized_first 3) []) (example_world empty_db))
     = Ok None
  /\ refresh_calls
       (snd (StravaClient.get_athlete
               (example_upstream (unauthorized_first 3) []) (example_world empty_db)))
     = 3%nat.
Proof. repeat split; vm_compute; reflexivity. Qed.

(** ** Outcome of a sync call (C9) *)

Lemma bind_returns {A B : Type} (P : B -> Prop) (c : M A) (k : A -> M B) :
  (forall a u w r w', k a u w = (Ok r, w') -> P r) ->
  forall u w r w', (x <- c ;; k x) u w = (Ok r, w') -> P r.
Proof.
  intros Hk u w r w' Hrun. unfold bind in Hrun.
  destruct (c u w) as [[a|e] w1]; [eapply Hk; exact Hrun|discriminate].
Qed.








(** ** Seed of the training-load recursion (C1, C2) *)

(** With no stored row for the athlete the recursion starts from zero;
    otherwise it starts from the row with the latest date, whatever the
    date the recomputation begins at. *)
Lemma previous_load_none (self_athlete_id : Z) (d : DB) :
  training_loads d = [] -> SyncManager.previous_load self_athlete_id d = None.
Proof. intros H. unfold SyncManager.previous_load. rewrite H. reflexivity. Qed.

(** Whatever [after_date] is, the rows written are those of the loop
    started from the CTL and ATL of [previous_load], the stored row with
    the latest date. *)
Lemma calculate_training_loads_seed (self_athlete_id : Z) (after_date : option Z)
    (u : Upstream) (w : World) (a : Activity) (rest : list Activity) :
  SyncManager.activities_for_loads self_athlete_id after_date (db w) = a :: rest ->
  training_loads
    (db (snd (SyncManager._calculate_training_loads self_athlete_id after_date u w)))
  = SyncManager.training_load_loop self_athlete_id
      (merge_sort by_day (map_to_list (SyncManager.group_daily_tss (a :: rest) ∅)))
      (match SyncManager.previous_load self_athlete_id (db w) with
       | Some l => ctl l
       | None => 0
       end)
      (match SyncManager.previous_load self_athlete_id (db w) with
       | Some l => atl l
       | None => 0
       end)
      (training_loads (db w)).
Proof.
  intros Hacts. unfold SyncManager._calculate_training_loads.
  unfold bind at 1, gets at 1. rewrite Hacts.
  unfold bind, modify, db_operation.
  destruct (db_fault u SiteTrainingLoads); reflexivity.
Qed.

(** C2 fails on the code: a [full_sync] run on a database that already
    holds TrainingLoad rows (here: the same [full_sync] run a second time,
    upstream unchanged) seeds the recursion from the latest stored row, not
    from CTL = ATL = 0.  The first run gives CTL 1.19 and 2.35 for the two
    days; the second gives 3.48 and 4.59, the first day being computed from
    the stored CTL 2.35 of the second day. *)
Theorem full_sync_seeds_from_latest_stored_row :
  training_loads
    (db (snd (SyncManager.full_sync 7 None
                (calm_upstream [ride 1 0; ride 2 86400]) (example_world empty_db))))
  = [ mk_training_load 7 0 50 (119 # 100) (357 # 50) (-119 # 20);
      mk_training_load 7 1 50 (47 # 20) (663 # 50) (-1091 # 100) ]
  /\ training_loads
       (db (snd (SyncManager.full_sync 7 None
                   (calm_upstream [ride 1 0; ride 2 86400])
                   (snd (SyncManager.full_sync 7 None
                           (calm_upstream [ride 1 0; ride 2 86400])
                           (example_world empty_db))))))
     = [ mk_training_load 7 0 50 (87 # 25) (1851 # 100) (-1503 # 100);
         mk_training_load 7 1 50 (459 # 100) (2301 # 100) (-921 # 50) ]
  /\ TrainingMetrics.calculate_ctl [50] 0 = 119 # 100
  /\ TrainingMetrics.calculate_ctl [50] (47 # 20) = 87 # 25.
Proof. repeat split; vm_compute; reflexivity. Qed.

(** C1 fails on the code.  First scenario: a [full_sync] over one activity,
    then a second activity appears upstream and [incremental_sync] runs.
    No sync ever sets [last_activity_date], so the bound is [None], every
    activity is fetched again and the whole series is recomputed from the
    latest stored row: CTL 2.35 and 3.48, where a [full_sync] over both
    activities gives 1.19 and 2.35.  Second scenario: the checkpoint is set
    to the start of the last synced activity (day 1) and a new activity of
    day 2 is stored; the recomputation from the checkpoint is seeded from
    the row of day 1 itself, not from the row of day 0 before it, and gives
    3.48 for day 1, where the full recomputation gives 2.35. *)
Theorem incremental_sync_differs_from_full_sync :
  training_loads
    (db (snd (SyncManager.full_sync 7 None
                (calm_upstream [ride 1 0; ride 2 86400]) (example_world empty_db))))
  = [ mk_training_load 7 0 50 (119 # 100) (357 # 50) (-119 # 20);
      mk_training_load 7 1 50 (47 # 20) (663 # 50) (-1091 # 100) ]
  /\ training_loads
       (db (snd (SyncManager.incremental_sync 7 None
                   (calm_upstream [ride 1 0; ride 2 86400])
                   (snd (SyncManager.full_sync 7 None
                           (calm_upstream [ride 1 0]) (example_world empty_db))))))
     = [ mk_training_load 7 0 50 (47 # 20) (663 # 50) (-1091 # 100);
         mk_training_load 7 1 50 (87 # 25) (1851 # 100) (-1503 # 100) ]
  /\ training_loads
       (db (snd ((SyncManager._sync_activity 7 (ride 3 172800) ;;
                  SyncManager._calculate_training_loads 7 (Some 86400%Z))
                   (calm_upstream [ride 1 0; ride 2 86400; ride 3 172800])
                   (snd (SyncManager.full_sync 7 None
                           (calm_upstream [ride 1 0; ride 2 86400])
                           (example_world empty_db))))))
     = [ mk_training_load 7 0 50 (119 # 100) (357 # 50) (-119 # 20);
         mk_training_load 7 1 50 (87 # 25) (1851 # 100) (-1503 # 100);
         mk_training_load 7 2 50 (459 # 100) (2301 # 100) (-921 # 50) ]
  /\ training_loads
       (db (snd (SyncManager.full_sync 7 None
                   (calm_upstream [ride 1 0; ride 2 86400; ride 3 172800])
                   (example_world empty_db))))
     = [ mk_training_load 7 0 50 (119 # 100) (357 # 50) (-119 # 20);
         mk_training_load 7 1 50 (47 # 20) (663 # 50) (-1091 # 100);
         mk_training_load 7 2 50 (87 # 25) (1851 # 100) (-1503 # 100) ].
Proof. repeat split; vm_compute; reflexivity. Qed.

(** ** The duration-based TSS estimate (C10) *)

Lemma find_app_none {A : Type} (p : A -> bool) (l1 l2 : list A) :
  List.find p l1 = None -> List.find p (l1 ++ l2) = List.find p l2.
Proof.
  induction l1 as [|x l1 IH]; [reflexivity|]. cbn.
  destruct (p x); [discriminate|exact IH].
Qed.

Lemma find_update_first {A : Type} (p : A -> bool) (f : A -> A) (rows : list A) (x : A) :
  List.find p rows = Some x -> p (f x) = true ->
  List.find p (update_first p f rows) = Some (f x).
Proof.
  intros Hfind Hp. induction rows as [|r rows IH]; [discriminate|].
  cbn in *. destruct (p r) eqn:Er.
  - injection Hfind as ->. cbn. rewrite Hp. reflexivity.
  - cbn. rewrite Er. apply IH. exact Hfind.
Qed.

(** After an upsert the row with the key is the updated one. *)
Lemma find_upsert {A : Type} (p : A -> bool) (fresh : A) (f : A -> A) (rows : list A) :
  p (f fresh) = true -> (forall x, p x = true -> p (f x) = true) ->
  exists x, List.find p (upsert p fresh f rows) = Some (f x)
            /\ (List.find p rows = Some x \/ (List.find p rows = None /\ x = fresh)).
Proof.
  intros Hfresh Hkeep. unfold upsert. destruct (List.find p rows) as [x|] eqn:Efind.
  - exists x. split; [|left; reflexivity].
    apply find_update_first; [exact Efind|].
    apply Hkeep. apply (List.find_some _ _ Efind).
  - exists fresh. split; [|right; split; reflexivity].
    rewrite find_app_none by exact Efind. cbn. rewrite Hfresh. reflexivity.
Qed.

Lemma find_update_first_other {A : Type} (p q : A -> bool) (f : A -> A) (rows : list A) :
  (forall r, q r = true -> p r = false /\ p (f r) = false) ->
  List.find p (update_first q f rows) = List.find p rows.
Proof.
  intros Hother. induction rows as [|r rows IH]; [reflexivity|].
  cbn. destruct (q r) eqn:Eq.
  - destruct (Hother r Eq) as [Hr Hfr]. cbn. rewrite Hr, Hfr. reflexivity.
  - cbn. rewrite IH. reflexivity.
Qed.

(** An upsert under another key leaves the row of this key alone. *)
Lemma find_upsert_other {A : Type} (p q : A -> bool) (fresh : A) (f : A -> A)
    (rows : list A) :
  (forall r, q r = true -> p r = false /\ p (f r) = false) ->
  p (f fresh) = false ->
  List.find p (upsert q fresh f rows) = List.find p rows.
Proof.
  intros Hother Hfresh. unfold upsert. destruct (List.find q rows).
  - apply find_update_first_other. exact Hother.
  - induction rows as [|r rows IH]; cbn.
    + rewrite Hfresh. reflexivity.
    + destruct (p r); [reflexivity|exact IH].
Qed.













(** * Further properties of the three modules *)

(** ** Training stress and intensity *)

Lemma inject_Z_nonzero (z : Z) : z <> 0%Z -> ~ inject_Z z == 0.
Proof.
  intros Hz Heq. apply Hz. unfold Qeq in Heq. cbn in Heq. lia.
Qed.

(** X1.  An effort held at the threshold scores 100 TSS per hour, from
    power as from heart rate, and has intensity factor 1, whatever the
    (non-zero) threshold is: one hour gives exactly 100, and a duration of
    up to 10^9 seconds gives its hundredfold in hours, [duration / 36], to
    within 0.06 (the result is rounded to one place). *)
Theorem threshold_effort_scores_100_per_hour
    (duration_seconds threshold_hr : Q) (ftp : Z) (normalized : bool)
    (Hftp : ftp <> 0%Z) (Hthr : ~ threshold_hr == 0)
    (Hduration : 0 <= duration_seconds <= 1000000000) :
  TrainingMetrics.calculate_tss_from_power 3600 (inject_Z ftp) ftp = 100
  /\ TrainingMetrics.calculate_tss_from_hr 3600 threshold_hr threshold_hr normalized = 100
  /\ TrainingMetrics.calculate_intensity_factor (inject_Z ftp) ftp = 1
  /\ Qabs (TrainingMetrics.calculate_tss_from_power duration_seconds (inject_Z ftp) ftp
           - duration_seconds / 36) <= 6 # 100
  /\ Qabs (TrainingMetrics.calculate_tss_from_hr duration_seconds threshold_hr
             threshold_hr normalized
           - duration_seconds / 36) <= 6 # 100.
Proof.
  pose proof (inject_Z_nonzero ftp Hftp) as Hq.
  assert (Hpower : forall d,
    TrainingMetrics.calculate_tss_from_power d (inject_Z ftp) ftp = py_round (d / 36) 1).
  { intros d. unfold TrainingMetrics.calculate_tss_from_power.
    destruct (Z.eqb_spec ftp 0); [contradiction|].
    apply py_round_comp. field. exact Hq. }
  assert (Hhr : forall d,
    TrainingMetrics.calculate_tss_from_hr d threshold_hr threshold_hr normalized
    = py_round (d / 36) 1).
  { intros d. unfold TrainingMetrics.calculate_tss_from_hr.
    destruct (Qeq_bool threshold_hr 0) eqn:E.
    - apply Qeq_bool_iff in E. contradiction.
    - apply py_round_comp. field. exact Hthr. }
  assert (Hnear : Qabs (py_round (duration_seconds / 36) 1 - duration_seconds / 36)
                  <= 6 # 100).
  { eapply Qle_trans; [apply py_round_error_1|]. discriminate. }
  split; [rewrite Hpower; reflexivity|]. split; [rewrite Hhr; reflexivity|].
  split.
  { unfold TrainingMetrics.calculate_intensity_factor.
    destruct (Z.eqb_spec ftp 0); [contradiction|].
    rewrite (py_round_comp _ 1 3); [reflexivity|]. field. exact Hq. }
  rewrite Hpower, Hhr. split; exact Hnear.
Qed.

Lemma threshold_effort_scores_100_per_hour_witness :
  TrainingMetrics.calculate_tss_from_power 3600 250 250 = 100
  /\ TrainingMetrics.calculate_tss_from_hr 3600 171 171 false = 100
  /\ Qabs (TrainingMetrics.calculate_tss_from_power 981 250 250 - 981 / 36) <= 6 # 100.
Proof.
  destruct (threshold_effort_scores_100_per_hour 981 171 250 false)
    as (Hp & Hh & _ & Hnear & _).
  - discriminate.
  - intros H. discriminate H.
  - split; discriminate.
  - split; [exact Hp|]. split; [exact Hh|exact Hnear].
Defined.

(** X2.  For a non-negative duration the TSS is never negative, whatever
    the power or heart rate and the threshold (zero and negative
    thresholds included). *)
Theorem tss_never_negative
    (duration_seconds value threshold_hr : Q) (ftp : Z) (normalized : bool)
    (Hduration : 0 <= duration_seconds) :
  0 <= TrainingMetrics.calculate_tss_from_power duration_seconds value ftp
  /\ 0 <= TrainingMetrics.calculate_tss_from_hr duration_seconds value threshold_hr normalized.
Proof.
  split.
  - unfold TrainingMetrics.calculate_tss_from_power.
    destruct (Z.eqb_spec ftp 0) as [|Hftp]; [lra|].
    apply py_round_nonneg.
    pose proof (inject_Z_nonzero ftp Hftp) as Hq.
    assert (Heq : duration_seconds / 3600 * value * (value / inject_Z ftp)
                  / inject_Z ftp * 100
                  == duration_seconds * (100 # 3600) * (value / inject_Z ftp) ^ 2)
      by (field; exact Hq).
    rewrite Heq. pose proof (Qsqr_nonneg (value / inject_Z ftp)) as Hsq.
    set (sq := (value / inject_Z ftp) ^ 2) in *. clearbody sq.
    apply Qmult_le_0_compat; [|exact Hsq]. lra.
  - unfold TrainingMetrics.calculate_tss_from_hr.
    destruct (Qeq_bool threshold_hr 0) eqn:E; [lra|].
    apply py_round_nonneg.
    assert (Hthr : ~ threshold_hr == 0).
    { intros H. apply Qeq_bool_iff in H. congruence. }
    assert (Heq : duration_seconds / 3600 * (value / threshold_hr)
                  * (value / threshold_hr) * 100
                  == duration_seconds * (100 # 3600) * (value / threshold_hr) ^ 2)
      by (field; exact Hthr).
    rewrite Heq. pose proof (Qsqr_nonneg (value / threshold_hr)) as Hsq.
    set (sq := (value / threshold_hr) ^ 2) in *. clearbody sq.
    apply Qmult_le_0_compat; [|exact Hsq]. lra.
Qed.

Lemma tss_never_negative_witness :
  0 <= TrainingMetrics.calculate_tss_from_power 3600 200 (-100)
  /\ 0 <= TrainingMetrics.calculate_tss_from_hr 3600 (-150) 171 false.
Proof.
  split.
  - apply (tss_never_negative 3600 200 171 (-100) false). lra.
  - apply (tss_never_negative 3600 (-150) 171 250 false). lra.
Defined.

(** ** The CTL and ATL recursion on arbitrary series *)

Lemma ctl_step_between (lo hi c t : Q) :
  lo <= c <= hi -> lo <= t <= hi -> lo <= TrainingMetrics.ctl_step c t <= hi.
Proof. intros Hc Ht. rewrite ctl_step_eq. lra. Qed.

Lemma atl_step_between (lo hi c t : Q) :
  lo <= c <= hi -> lo <= t <= hi -> lo <= TrainingMetrics.atl_step c t <= hi.
Proof. intros Hc Ht. rewrite atl_step_eq. lra. Qed.

Lemma ctl_loop_between (lo hi : Q) (l : list Q) (c : Q) :
  Forall (fun t => lo <= t <= hi) l -> lo <= c <= hi ->
  lo <= TrainingMetrics.ctl_loop l c <= hi.
Proof.
  intros Hl. revert c. induction Hl as [|t l Ht Hl IH]; intros c Hc; [exact Hc|].
  cbn [TrainingMetrics.ctl_loop fold_left]. apply IH. apply ctl_step_between; assumption.
Qed.

Lemma atl_loop_between (lo hi : Q) (l : list Q) (c : Q) :
  Forall (fun t => lo <= t <= hi) l -> lo <= c <= hi ->
  lo <= TrainingMetrics.atl_loop l c <= hi.
Proof.
  intros Hl. revert c. induction Hl as [|t l Ht Hl IH]; intros c Hc; [exact Hc|].
  cbn [TrainingMetrics.atl_loop fold_left]. apply IH. apply atl_step_between; assumption.
Qed.

(** X3.  CTL and ATL are averages: when the seed and every daily TSS lie
    between [lo] and [hi], so do the running CTL and ATL, and the values
    [calculate_ctl] and [calculate_atl] return lie between [round(lo, 2)]
    and [round(hi, 2)].  In particular they are never negative for a
    non-negative seed and non-negative daily TSS. *)
Theorem ctl_atl_stay_between_bounds
    (lo hi : Q) (daily_tss_values : list Q) (previous : Q)
    (Hvalues : Forall (fun t => lo <= t <= hi) daily_tss_values)
    (Hprevious : lo <= previous <= hi) :
  lo <= TrainingMetrics.ctl_loop daily_tss_values previous <= hi
  /\ lo <= TrainingMetrics.atl_loop daily_tss_values previous <= hi
  /\ py_round lo 2 <= TrainingMetrics.calculate_ctl daily_tss_values previous
     <= py_round hi 2
  /\ py_round lo 2 <= TrainingMetrics.calculate_atl daily_tss_values previous
     <= py_round hi 2
  /\ (0 <= lo -> 0 <= TrainingMetrics.calculate_ctl daily_tss_values previous
                 /\ 0 <= TrainingMetrics.calculate_atl daily_tss_values previous).
Proof.
  pose proof (ctl_loop_between lo hi _ _ Hvalues Hprevious) as [Hc1 Hc2].
  pose proof (atl_loop_between lo hi _ _ Hvalues Hprevious) as [Ha1 Ha2].
  unfold TrainingMetrics.calculate_ctl, TrainingMetrics.calculate_atl.
  repeat split; try assumption; try (apply py_round_monotone; assumption);
    intros; apply py_round_nonneg; lra.
Qed.

Lemma ctl_atl_stay_between_bounds_witness :
  0 <= TrainingMetrics.calculate_ctl [50; 0; 120] 30 <= 120.
Proof.
  destruct (ctl_atl_stay_between_bounds 0 120 [50; 0; 120] 30) as (_ & _ & H & _).
  - repeat constructor; cbn; lra.
  - lra.
  - exact H.
Defined.

(** One day of the recursion as the sync manager runs it: the value is
    rounded to two decimals before the next day starts from it. *)
Lemma daily_ctl_drift_step (c x v : Q) :
  Qabs (c - x) <= 21 # 100 ->
  Qabs (TrainingMetrics.calculate_ctl [v] c - TrainingMetrics.ctl_step x v) <= 21 # 100.
Proof.
  intros Hcx. apply Qabs_Qle_condition in Hcx as [Hlo Hhi].
  unfold TrainingMetrics.calculate_ctl, TrainingMetrics.ctl_loop. cbn [fold_left].
  pose proof (py_round_error_2 (TrainingMetrics.ctl_step c v)) as [Hr1 Hr2].
  set (r := py_round (TrainingMetrics.ctl_step c v) 2) in *. clearbody r.
  rewrite ctl_step_eq in *. apply Qabs_Qle_condition. split; lra.
Qed.

Lemma daily_atl_drift_step (c x v : Q) :
  Qabs (c - x) <= 7 # 200 ->
  Qabs (TrainingMetrics.calculate_atl [v] c - TrainingMetrics.atl_step x v) <= 7 # 200.
Proof.
  intros Hcx. apply Qabs_Qle_condition in Hcx as [Hlo Hhi].
  unfold TrainingMetrics.calculate_atl, TrainingMetrics.atl_loop. cbn [fold_left].
  pose proof (py_round_error_2 (TrainingMetrics.atl_step c v)) as [Hr1 Hr2].
  set (r := py_round (TrainingMetrics.atl_step c v) 2) in *. clearbody r.
  rewrite atl_step_eq in *. apply Qabs_Qle_condition. split; lra.
Qed.

Lemma daily_ctl_drift (l : list Q) (c x : Q) :
  Qabs (c - x) <= 21 # 100 ->
  Qabs (fold_left (fun c v => TrainingMetrics.calculate_ctl [v] c) l c
        - TrainingMetrics.ctl_loop l x) <= 21 # 100.
Proof.
  revert c x. induction l as [|v l IH]; intros c x Hcx; [exact Hcx|].
  cbn [fold_left TrainingMetrics.ctl_loop]. apply IH. apply daily_ctl_drift_step. exact Hcx.
Qed.

Lemma daily_atl_drift (l : list Q) (c x : Q) :
  Qabs (c - x) <= 7 # 200 ->
  Qabs (fold_left (fun c v => TrainingMetrics.calculate_atl [v] c) l c
        - TrainingMetrics.atl_loop l x) <= 7 # 200.
Proof.
  revert c x. induction l as [|v l IH]; intros c x Hcx; [exact Hcx|].
  cbn [fold_left TrainingMetrics.atl_loop]. apply IH. apply daily_atl_drift_step. exact Hcx.
Qed.

Lemma training_load_loop_app (self_athlete_id : Z) (items1 items2 : list (Z * Q))
    (c a : Q) (rows : list TrainingLoad) :
  SyncManager.training_load_loop self_athlete_id (items1 ++ items2) c a rows
  = SyncManager.training_load_loop self_athlete_id items2
      (fold_left (fun c v => TrainingMetrics.calculate_ctl [v] c) (map snd items1) c)
      (fold_left (fun a v => TrainingMetrics.calculate_atl [v] a) (map snd items1) a)
      (SyncManager.training_load_loop self_athlete_id items1 c a rows).
Proof.
  revert c a rows. induction items1 as [|[d v] items1 IH]; intros c a rows; [reflexivity|].
  cbn [app SyncManager.training_load_loop map snd fold_left]. apply IH.
Qed.

(** X4.  Rounding every day does not let the stored values drift: the CTL
    stored for the last day of a recomputation is within 0.21, and the ATL
    within 0.035, of the unrounded recursion over the same days and from the
    same seed. *)
Theorem stored_ctl_atl_near_unrounded_recursion
    (self_athlete_id : Z) (items : list (Z * Q)) (day : Z) (v : Q)
    (previous_ctl previous_atl : Q) (rows : list TrainingLoad) :
  exists row,
    List.find (fun r => (tl_athlete_id r =? self_athlete_id)%Z && (tl_date r =? day)%Z)
      (SyncManager.training_load_loop self_athlete_id (items ++ [(day, v)])
         previous_ctl previous_atl rows) = Some row
    /\ Qabs (ctl row - TrainingMetrics.ctl_loop (map snd items ++ [v]) previous_ctl)
       <= 21 # 100
    /\ Qabs (atl row - TrainingMetrics.atl_loop (map snd items ++ [v]) previous_atl)
       <= 7 # 200.
Proof.
  rewrite training_load_loop_app. cbn [SyncManager.training_load_loop].
  edestruct (find_upsert
               (fun r => (tl_athlete_id r =? self_athlete_id)%Z && (tl_date r =? day)%Z)
               (SyncManager.new_training_load self_athlete_id day)) as (x & Hx & _);
    [| |eexists; split; [exact Hx|]].
  - cbn. rewrite !Z.eqb_refl. reflexivity.
  - intros r Hr. exact Hr.
  - cbn [ctl atl]. split.
    + pose proof (daily_ctl_drift (map snd items ++ [v]) previous_ctl previous_ctl) as H.
      rewrite fold_left_app in H. cbn [fold_left] in H. apply H.
      apply Qabs_Qle_condition. split; lra.
    + pose proof (daily_atl_drift (map snd items ++ [v]) previous_atl previous_atl) as H.
      rewrite fold_left_app in H. cbn [fold_left] in H. apply H.
      apply Qabs_Qle_condition. split; lra.
Qed.

(** ** Time in zones: keys and totals *)

Lemma zone_loop_lookup_after
    (hr_data : list Q) (si : Z) (zones : list Zone) (i j : Z) (m : gmap Z Z) :
  (i + Z.of_nat (length zones) <= j)%Z ->
  TrainingMetrics.zone_loop hr_data si i zones m !! j = m !! j.
Proof.
  revert i m. induction zones as [|z zones IH]; intros i m Hj; [reflexivity|].
  cbn [TrainingMetrics.zone_loop]. cbn [length] in Hj. rewrite IH by lia.
  apply lookup_insert_ne. lia.
Qed.

(** X5.  The dictionary of [calculate_time_in_zones] is empty when there
    are no samples or no zones; otherwise it has exactly one entry per
    zone, under the keys 1 to [len(zones)]. *)
Theorem time_in_zones_keys
    (hr_data : list Q) (zones : list Zone) (sampling_interval : Z) (i : Z) :
  is_Some (TrainingMetrics.calculate_time_in_zones hr_data zones sampling_interval !! i)
  <-> hr_data <> [] /\ (1 <= i <= Z.of_nat (length zones))%Z.
Proof.
  unfold TrainingMetrics.calculate_time_in_zones.
  destruct hr_data as [|h hr_data].
  { rewrite lookup_empty. split; [intros [x Hx]; discriminate|intros [H _]; contradiction]. }
  destruct zones as [|z zones].
  { rewrite lookup_empty. cbn [length]. split; [intros [x Hx]; discriminate|lia]. }
  set (zs := z :: zones). split.
  - intros Hsome. split; [discriminate|].
    destruct (Z_lt_le_dec i 1) as [Hlt|Hge].
    { rewrite zone_loop_lookup_before in Hsome by lia.
      rewrite lookup_empty in Hsome. destruct Hsome; discriminate. }
    destruct (Z_lt_le_dec (Z.of_nat (length zs)) i) as [Hgt|Hle]; [|lia].
    rewrite zone_loop_lookup_after in Hsome by lia.
    rewrite lookup_empty in Hsome. destruct Hsome; discriminate.
  - intros [_ Hi].
    destruct (lookup_lt_is_Some_2 zs (Z.to_nat (i - 1))) as [zone Hzone]; [lia|].
    replace i with (1 + Z.of_nat (Z.to_nat (i - 1)))%Z by lia.
    rewrite (zone_loop_lookup _ _ _ _ _ _ _ Hzone). eauto.
Qed.

Lemma count_in_zone_nil (zone : Zone) : TrainingMetrics.count_in_zone zone [] = 0%Z.
Proof. reflexivity. Qed.

Lemma count_in_zone_cons (zone : Zone) (hr : Q) (hr_data : list Q) :
  TrainingMetrics.count_in_zone zone (hr :: hr_data)
  = ((if TrainingMetrics.in_zone zone hr then 1 else 0)
     + TrainingMetrics.count_in_zone zone hr_data)%Z.
Proof.
  unfold TrainingMetrics.count_in_zone. rewrite filter_cons.
  destruct (decide (TrainingMetrics.in_zone zone hr = true)) as [->|Hn].
  - cbn [length]. lia.
  - destruct (TrainingMetrics.in_zone zone hr); [contradiction|]. lia.
Qed.

(** Two adjoining intervals count what their union counts. *)
Lemma count_in_zone_split (lo mid mid' hi : Q) (hr_data : list Q) :
  lo <= mid -> mid == mid' -> mid' <= hi ->
  (TrainingMetrics.count_in_zone (mk_zone lo mid) hr_data
   + TrainingMetrics.count_in_zone (mk_zone mid' hi) hr_data
   = TrainingMetrics.count_in_zone (mk_zone lo hi) hr_data)%Z.
Proof.
  intros H1 H2 H3. induction hr_data as [|hr hr_data IH]; [reflexivity|].
  rewrite !count_in_zone_cons.
  assert (Hcase :
    ((if TrainingMetrics.in_zone (mk_zone lo mid) hr then 1 else 0)
     + (if TrainingMetrics.in_zone (mk_zone mid' hi) hr then 1 else 0)
     = (if TrainingMetrics.in_zone (mk_zone lo hi) hr then 1 else 0))%Z).
  { destruct (TrainingMetrics.in_zone (mk_zone lo mid) hr) eqn:E1;
      destruct (TrainingMetrics.in_zone (mk_zone mid' hi) hr) eqn:E2;
      destruct (TrainingMetrics.in_zone (mk_zone lo hi) hr) eqn:E3;
      try reflexivity; exfalso;
      repeat match goal with
             | H : TrainingMetrics.in_zone _ _ = true |- _ =>
                 apply in_zone_half_open in H; cbn [min_value max_value] in H
             | H : TrainingMetrics.in_zone ?z ?x = false |- _ =>
                 assert (~ (min_value z <= x /\ x < max_value z))
                   by (rewrite <- in_zone_half_open; congruence);
                 clear H
             end;
      cbn [min_value max_value] in *;
      destruct (Qlt_le_dec hr mid); destruct (Qlt_le_dec hr lo);
      destruct (Qlt_le_dec hr hi); intuition lra. }
  lia.
Qed.

Lemma zone_times_total_insert (m : gmap Z Z) (i x : Z) :
  m !! i = None -> zone_times_total (<[i := x]> m) = (x + zone_times_total m)%Z.
Proof.
  intros Hi. unfold zone_times_total.
  apply (map_fold_insert_L (fun (_ : Z) (t acc : Z) => (t + acc)%Z)); [|exact Hi].
  intros; lia.
Qed.

Lemma zone_loop_total
    (hr_data : list Q) (si : Z) (zones : list Zone) (i : Z) (m : gmap Z Z) :
  (forall j, (i <= j)%Z -> m !! j = None) ->
  zone_times_total (TrainingMetrics.zone_loop hr_data si i zones m)
  = (zone_times_total m
     + fold_right Z.add 0%Z
         (map (fun zone => TrainingMetrics.count_in_zone zone hr_data * si) zones))%Z.
Proof.
  revert i m. induction zones as [|z zones IH]; intros i m Hfree.
  - cbn. lia.
  - cbn [TrainingMetrics.zone_loop map fold_right]. rewrite IH.
    + rewrite zone_times_total_insert by (apply Hfree; lia). lia.
    + intros j Hj. rewrite lookup_insert_ne by lia. apply Hfree. lia.
Qed.

Lemma last_cons_default {A : Type} (x d : A) (l : list A) :
  List.last (x :: l) d = List.last l x.
Proof.
  revert x d. induction l as [|y l IH]; intros x d; [reflexivity|].
  change (List.last (x :: y :: l) d) with (List.last (y :: l) d).
  rewrite (IH y d), (IH y x). reflexivity.
Qed.

Lemma contiguous_zones_count (hr_data : list Q) (zones : list Zone) (first : Zone) :
  contiguous_zones (first :: zones) ->
  min_value first <= max_value (List.last zones first)
  /\ fold_right Z.add 0%Z
       (map (fun zone => TrainingMetrics.count_in_zone zone hr_data) (first :: zones))
     = TrainingMetrics.count_in_zone
         (mk_zone (min_value first) (max_value (List.last zones first))) hr_data.
Proof.
  revert first. induction zones as [|next zones IH]; intros first Hc.
  - destruct Hc as (Hle & _ & _). split; [exact Hle|].
    cbn [List.last map fold_right]. destruct first as [lo hi]. cbn [min_value max_value]. lia.
  - destruct Hc as (Hle & Hadj & Hrest).
    destruct (IH next Hrest) as [Hle' Hsum].
    assert (Hlast : List.last (next :: zones) first = List.last zones next).
    { apply last_cons_default. }
    rewrite Hlast. split; [rewrite Hadj in Hle; lra|].
    change (map ?f (first :: next :: zones)) with (f first :: map f (next :: zones)).
    cbn [fold_right]. rewrite Hsum.
    rewrite <- (count_in_zone_split (min_value first) (max_value first) (min_value next)
                  (max_value (List.last zones next)) hr_data Hle Hadj Hle').
    destruct first as [lo hi]. reflexivity.
Qed.

Lemma fold_right_scale (si : Z) (counts : list Z) :
  fold_right Z.add 0%Z (map (fun c => (c * si)%Z) counts)
  = (fold_right Z.add 0%Z counts * si)%Z.
Proof. induction counts as [|c counts IH]; cbn; [reflexivity|rewrite IH; lia]. Qed.

(** X6.  When the zones continue one another (each ends where the next
    starts), the times of [calculate_time_in_zones] add up to the time spent
    between the lowest and the highest bound: every such sample is counted
    once, samples outside count for nothing. *)
Theorem time_in_contiguous_zones_total
    (hr_data : list Q) (first : Zone) (zones : list Zone) (sampling_interval : Z)
    (Hsamples : hr_data <> [])
    (Hzones : contiguous_zones (first :: zones)) :
  zone_times_total
    (TrainingMetrics.calculate_time_in_zones hr_data (first :: zones) sampling_interval)
  = (TrainingMetrics.count_in_zone
       (mk_zone (min_value first) (max_value (List.last zones first))) hr_data
     * sampling_interval)%Z.
Proof.
  unfold TrainingMetrics.calculate_time_in_zones.
  destruct hr_data as [|h hr_data]; [contradiction|].
  rewrite zone_loop_total by (intros; apply lookup_empty).
  destruct (contiguous_zones_count (h :: hr_data) zones first Hzones) as [_ <-].
  rewrite <- fold_right_scale, map_map.
  unfold zone_times_total. rewrite map_fold_empty. lia.
Qed.

Lemma time_in_contiguous_zones_total_witness :
  zone_times_total
    (TrainingMetrics.calculate_time_in_zones
       [90%Q; 120%Q; 150%Q; 179%Q; 180%Q; 200%Q]
       [mk_zone 100 140; mk_zone 140 160; mk_zone 160 180] 5)
  = (TrainingMetrics.count_in_zone (mk_zone 100 180) [90%Q; 120%Q; 150%Q; 179%Q; 180%Q; 200%Q] * 5)%Z.
Proof.
  apply (time_in_contiguous_zones_total
           [90%Q; 120%Q; 150%Q; 179%Q; 180%Q; 200%Q] (mk_zone 100 140)
           [mk_zone 140 160; mk_zone 160 180] 5).
  - discriminate.
  - cbn. repeat split; lra.
Defined.

(** ** The client's rate-limit bookkeeping *)

(** X7.  [_check_rate_limit] never lets the counters pass the limits: when
    it returns, at most 100 requests are recorded in the 15-minute window
    and at most 1000 in the day, and the clock has not gone back.  When it
    raises, the error is [RateLimitExceeded], and it does so only with the
    daily limit reached in a daily window not older than a day. *)
Theorem check_rate_limit_enforces_limits (u : Upstream) (w : World)
    (Hclock : (_window_15min_start (client w) <= now w)%Z) :
  match StravaClient._check_rate_limit u w with
  | (Ok _, w') =>
      (_request_count_15min (client w') <= StravaClient.STRAVA_RATE_LIMIT_15MIN)%Z
      /\ (_request_count_daily (client w') <= StravaClient.STRAVA_RATE_LIMIT_DAILY)%Z
      /\ (now w <= now w')%Z
  | (Raise e, _) =>
      kind e = RateLimitExceeded
      /\ (StravaClient.STRAVA_RATE_LIMIT_DAILY <= _request_count_daily (client w))%Z
      /\ (now w - _window_daily_start (client w) <= 86400)%Z
  end.
Proof.
  destruct w as [t calls refreshes [id tok c15 cd s15 sd] d]. cbn in Hclock.
  unfold StravaClient._check_rate_limit, StravaClient.STRAVA_RATE_LIMIT_15MIN,
    StravaClient.STRAVA_RATE_LIMIT_DAILY, bind, utcnow, gets, modify, ret, raise, sleep.
  cbn.
  destruct (Z.ltb_spec 900 (t - s15)) as [H15|H15]; cbn;
    destruct (Z.ltb_spec 86400 (t - sd)) as [Hd|Hd]; cbn;
    try (destruct (Z.leb_spec 100 c15) as [Hc15|Hc15]; cbn;
         [rewrite (Z.mod_small (t - s15) 86400) by lia;
          destruct (Z.ltb_spec (900 - (t - s15) + 1) 0) as [Hneg|Hneg]; [lia|]; cbn|]);
    try (destruct (Z.leb_spec 1000 cd) as [Hcd|Hcd]; cbn);
    repeat split; lia.
Qed.

Lemma check_rate_limit_enforces_limits_witness :
  match StravaClient._check_rate_limit (calm_upstream [])
          (mk_world 1000 0 0 (mk_client (Some 7%Z) None 100 999 400 0) empty_db) with
  | (Ok _, w') =>
      (_request_count_15min (client w') <= StravaClient.STRAVA_RATE_LIMIT_15MIN)%Z
      /\ (_request_count_daily (client w') <= StravaClient.STRAVA_RATE_LIMIT_DAILY)%Z
      /\ (1000 <= now w')%Z
  | (Raise e, _) =>
      kind e = RateLimitExceeded
      /\ (StravaClient.STRAVA_RATE_LIMIT_DAILY <= 999)%Z
      /\ (1000 - 0 <= 86400)%Z
  end.
Proof.
  apply (check_rate_limit_enforces_limits (calm_upstream [])
           (mk_world 1000 0 0 (mk_client (Some 7%Z) None 100 999 400 0) empty_db)).
  cbn. lia.
Defined.



(** ** Retries and back-off *)

Lemma retry_loop_backs_off {A : Type} (payload : Upstream -> A) (base : Z)
    (max_retries remaining : nat) (u : Upstream) (w : World) :
  (0 < remaining <= max_retries)%nat ->
  (forall k, (k < remaining)%nat ->
     exists e, call_outcome u (api_calls w + k) = Some e /\ backs_off_with base (kind e)) ->
  exists e,
    call_outcome u (api_calls w + remaining - 1) = Some e
    /\ StravaClient.retry_loop (upstream_call payload) max_retries remaining u w
       = (Raise e,
          set_now (now w + base * (2 ^ (Z.of_nat max_retries - 1)
                                   - 2 ^ Z.of_nat (max_retries - remaining)))%Z
            (set_api_calls (api_calls w + remaining) w)).
Proof.
  revert w. induction remaining as [|r IH]; intros w [Hpos Hle] Hall; [lia|].
  destruct (Hall 0%nat ltac:(lia)) as (e & He & Hkind).
  rewrite Nat.add_0_r in He.
  cbn [StravaClient.retry_loop]. unfold try_except.
  unfold bind at 1, upstream_call. rewrite He.
  set (w1 := set_api_calls (S (api_calls w)) w).
  set (attempt := Z.of_nat (max_retries - S r)).
  enough (Hcore : exists e',
    call_outcome u (api_calls w + S r - 1) = Some e'
    /\ (if (attempt <? Z.of_nat max_retries - 1)%Z
        then sleep (2 ^ attempt * base) ;;
             StravaClient.retry_loop (upstream_call payload) max_retries r
        else raise e) u w1
       = (Raise e',
          set_now (now w + base * (2 ^ (Z.of_nat max_retries - 1) - 2 ^ attempt))%Z
            (set_api_calls (api_calls w + S r) w))).
  { destruct Hkind as [[Hk ->]|(Hk1 & Hk2 & ->)]; destruct (kind e);
      try congruence; exact Hcore. }
  assert (Hbase : (0 <= base)%Z) by (destruct Hkind as [[_ ->]|(_ & _ & ->)]; lia).
  destruct r as [|r].
  - exists e. split; [rewrite <- He; f_equal; lia|].
    destruct (Z.ltb_spec attempt (Z.of_nat max_retries - 1)) as [Hlt|Hge];
      [subst attempt; lia|].
    unfold raise. f_equal. subst w1 attempt. destruct w as [t calls refreshes c d].
    unfold set_now, set_api_calls. cbn.
    replace (Z.of_nat (max_retries - 1)) with (Z.of_nat max_retries - 1)%Z by lia.
    f_equal; lia.
  - destruct (Z.ltb_spec attempt (Z.of_nat max_retries - 1)) as [Hlt|Hge];
      [|subst attempt; lia].
    unfold bind, sleep.
    assert (Hnonneg : (0 <= 2 ^ attempt * base)%Z)
      by (apply Z.mul_nonneg_nonneg; [apply Z.pow_nonneg; lia|exact Hbase]).
    destruct (Z.ltb_spec (2 ^ attempt * base) 0) as [Hneg|_]; [lia|].
    unfold modify.
    set (w2 := set_now (now w1 + 2 ^ attempt * base)%Z w1).
    destruct (IH w2) as (e' & He' & Hloop).
    { lia. }
    { intros k Hk. destruct (Hall (S k) ltac:(lia)) as (ek & Hek & Hkk).
      exists ek. split; [|exact Hkk]. rewrite <- Hek. f_equal. subst w2 w1. cbn. lia. }
    exists e'. split.
    { rewrite <- He'. f_equal. subst w2 w1. cbn. lia. }
    rewrite Hloop. f_equal. subst w2 w1 attempt.
    destruct w as [t calls refreshes c d]. unfold set_now, set_api_calls. cbn.
    replace (Z.of_nat (max_retries - S r)) with (Z.of_nat (max_retries - S (S r)) + 1)%Z
      by lia.
    rewrite Z.pow_add_r by lia. f_equal; lia.
Qed.

(** X9.  When every call fails with an error that is retried after a sleep
    ([RateLimitExceeded], base 60 s; any error but [AccessUnauthorized],
    base 5 s), the retry loop makes exactly [max_retries] calls, sleeps
    [base], [2 * base], [4 * base], ... between them,
    [base * (2 ^ (max_retries - 1) - 1)] seconds in all, and re-raises the
    error of the last call; nothing else of the state changes. *)
Theorem failing_calls_back_off_exponentially {A : Type} (payload : Upstream -> A)
    (base : Z) (max_retries : nat) (u : Upstream) (w : World)
    (Hretries : (0 < max_retries)%nat)
    (Hall : forall k, (k < max_retries)%nat ->
       exists e, call_outcome u (api_calls w + k) = Some e
                 /\ backs_off_with base (kind e)) :
  exists e,
    call_outcome u (api_calls w + max_retries - 1) = Some e
    /\ StravaClient.retry_loop (upstream_call payload) max_retries max_retries u w
       = (Raise e,
          set_now (now w + base * (2 ^ (Z.of_nat max_retries - 1) - 1))%Z
            (set_api_calls (api_calls w + max_retries) w)).
Proof.
  destruct (retry_loop_backs_off payload base max_retries max_retries u w
              ltac:(lia) Hall) as (e & He & Hloop).
  exists e. split; [exact He|]. rewrite Hloop.
  rewrite Nat.sub_diag. reflexivity.
Qed.

Lemma failing_calls_back_off_exponentially_witness :
  exists e,
    call_outcome
      (example_upstream (fun _ => Some (mk_exn RateLimitExceeded "Too many requests")) [])
      (0 + 3 - 1) = Some e
    /\ StravaClient.retry_loop (upstream_call remote_athlete) 3 3
         (example_upstream (fun _ => Some (mk_exn RateLimitExceeded "Too many requests")) [])
         (example_world empty_db)
       = (Raise e,
          set_now (0 + 60 * (2 ^ (Z.of_nat 3 - 1) - 1))%Z
            (set_api_calls (0 + 3) (example_world empty_db))).
Proof.
  apply (failing_calls_back_off_exponentially remote_athlete 60 3
           (example_upstream (fun _ => Some (mk_exn RateLimitExceeded "Too many requests")) [])
           (example_world empty_db)).
  - lia.
  - intros k _. eexists. split; [reflexivity|]. left. split; reflexivity.
Defined.

Lemma upstream_call_eq {A : Type} (payload : Upstream -> A) (u : Upstream) (w : World) :
  upstream_call payload u w
  = match call_outcome u (api_calls w) with
    | Some e => (Raise e, set_api_calls (S (api_calls w)) w)
    | None => (Ok (payload u), set_api_calls (S (api_calls w)) w)
    end.
Proof. reflexivity. Qed.

Lemma retry_loop_outcome {A : Type} (payload : Upstream -> A)
    (max_retries remaining : nat) (u : Upstream) (w : World) :
  (remaining <= max_retries)%nat ->
  match StravaClient.retry_loop (upstream_call payload) max_retries remaining u w with
  | (Ok (Some a), w') =>
      a = payload u
      /\ (api_calls w < api_calls w')%nat
      /\ call_outcome u (pred (api_calls w')) = None
  | (Ok None, w') =>
      api_calls w' = (api_calls w + remaining)%nat
      /\ (remaining = 0%nat
          \/ exists e, call_outcome u (pred (api_calls w')) = Some e
                       /\ kind e = AccessUnauthorized)
  | (Raise e, w') =>
      (api_calls w < api_calls w')%nat
      /\ call_outcome u (pred (api_calls w')) = Some e
  end.
Proof.
  revert w. induction remaining as [|r IH]; intros w Hle.
  { cbn. split; [lia|left; reflexivity]. }
  cbn [StravaClient.retry_loop]. unfold try_except.
  unfold bind at 1. rewrite upstream_call_eq.
  destruct (call_outcome u (api_calls w)) as [e|] eqn:He.
  2:{ cbn. rewrite He. repeat split. lia. }
  set (w1 := set_api_calls (S (api_calls w)) w).
  set (attempt := Z.of_nat (max_retries - S r)).
  assert (Hraise :
    match (raise e : M (option A)) u w1 with
    | (Ok (Some a), w') =>
        a = payload u /\ (api_calls w < api_calls w')%nat
        /\ call_outcome u (pred (api_calls w')) = None
    | (Ok None, w') =>
        api_calls w' = (api_calls w + S r)%nat
        /\ (S r = 0%nat
            \/ exists e, call_outcome u (pred (api_calls w')) = Some e
                         /\ kind e = AccessUnauthorized)
    | (Raise e, w') =>
        (api_calls w < api_calls w')%nat /\ call_outcome u (pred (api_calls w')) = Some e
    end).
  { cbn. split; [lia|exact He]. }
  assert (Hsleep : forall base : Z, (0 <= base)%Z ->
    match (if (attempt <? Z.of_nat max_retries - 1)%Z
           then sleep (2 ^ attempt * base) ;;
                StravaClient.retry_loop (upstream_call payload) max_retries r
           else raise e) u w1 with
    | (Ok (Some a), w') =>
        a = payload u /\ (api_calls w < api_calls w')%nat
        /\ call_outcome u (pred (api_calls w')) = None
    | (Ok None, w') =>
        api_calls w' = (api_calls w + S r)%nat
        /\ (S r = 0%nat
            \/ exists e, call_outcome u (pred (api_calls w')) = Some e
                         /\ kind e = AccessUnauthorized)
    | (Raise e, w') =>
        (api_calls w < api_calls w')%nat /\ call_outcome u (pred (api_calls w')) = Some e
    end).
  { intros base Hbase.
    destruct (Z.ltb_spec attempt (Z.of_nat max_retries - 1)) as [Hlt|Hge]; [|exact Hraise].
    unfold bind, sleep.
    assert (Hnonneg : (0 <= 2 ^ attempt * base)%Z)
      by (apply Z.mul_nonneg_nonneg; [apply Z.pow_nonneg; lia|exact Hbase]).
    destruct (Z.ltb_spec (2 ^ attempt * base) 0) as [Hneg|_]; [lia|].
    unfold modify.
    set (w2 := set_now (now w1 + 2 ^ attempt * base)%Z w1).
    assert (Hr : r <> 0%nat) by (subst attempt; lia).
    specialize (IH w2 ltac:(lia)).
    replace (api_calls w2) with (S (api_calls w)) in IH by reflexivity.
    destruct (StravaClient.retry_loop (upstream_call payload) max_retries r u w2)
      as [[[a|]|e'] w'].
    - destruct IH as (Ha & Hcalls & Hlast). split; [exact Ha|split; [lia|exact Hlast]].
    - destruct IH as (Hcalls & [Hzero|Hlast]); [contradiction|].
      split; [lia|right; exact Hlast].
    - destruct IH as (Hcalls & Hlast). split; [lia|exact Hlast]. }
  destruct (kind e) eqn:Hkind;
    try (apply (Hsleep 60%Z); lia); try (apply (Hsleep 5%Z); lia).
  unfold bind.
  destruct (refresh_access_token_total u w1) as (ok & w2 & Hrefresh & _ & Hcalls2).
  rewrite Hrefresh.
  assert (Hw2 : api_calls w2 = S (api_calls w)) by (rewrite Hcalls2; reflexivity).
  destruct ok.
  - specialize (IH w2 ltac:(lia)). rewrite Hw2 in IH.
    destruct (StravaClient.retry_loop (upstream_call payload) max_retries r u w2)
      as [[[a|]|e'] w']; cbv beta iota.
    + destruct IH as (Ha & Hcalls & Hlast). split; [exact Ha|split; [lia|exact Hlast]].
    + destruct IH as (Hcalls & [Hzero|Hlast]).
      * split; [lia|]. right. exists e. subst r.
        rewrite Hcalls, Nat.add_0_r. cbn. split; [exact He|exact Hkind].
      * split; [lia|right; exact Hlast].
    + destruct IH as (Hcalls & Hlast). split; [lia|exact Hlast].
  - cbn. rewrite Hw2. cbn. split; [lia|exact He].
Qed.

(** X10.  What [_make_request_with_retry] hands back comes from the last
    call it made.  A value is the payload of that call, which succeeded.
    The silent [None] means that all [max_retries] calls were made and the
    last one was answered "unauthorized" (or that [max_retries] is 0).  An
    exception is the error of the last call, unless the rate-limit check
    raised before any call was made. *)
Theorem request_outcome_is_last_call {A : Type} (payload : Upstream -> A)
    (max_retries : nat) (u : Upstream) (w : World) :
  match StravaClient._make_request_with_retry (upstream_call payload) max_retries u w with
  | (Ok (Some a), w') =>
      a = payload u
      /\ (api_calls w < api_calls w')%nat
      /\ call_outcome u (pred (api_calls w')) = None
  | (Ok None, w') =>
      api_calls w' = (api_calls w + max_retries)%nat
      /\ (max_retries = 0%nat
          \/ exists e, call_outcome u (pred (api_calls w')) = Some e
                       /\ kind e = AccessUnauthorized)
  | (Raise e, w') =>
      api_calls w' = api_calls w
      \/ call_outcome u (pred (api_calls w')) = Some e
  end.
Proof.
  unfold StravaClient._make_request_with_retry, bind.
  destruct (StravaClient._check_rate_limit u w) as [[[]|e0] w1] eqn:Echeck;
    destruct (check_rate_limit_counters _ _ _ _ Echeck) as [Hcalls _].
  2:{ left. exact Hcalls. }
  pose proof (retry_loop_outcome payload max_retries max_retries u w1 (le_n _)) as Hloop.
  rewrite Hcalls in Hloop.
  destruct (StravaClient.retry_loop (upstream_call payload) max_retries max_retries u w1)
    as [[[a|]|e'] w'].
  - exact Hloop.
  - exact Hloop.
  - right. apply Hloop.
Qed.

(** ** Token refresh *)


(** ** Frame rules *)

Lemma preserves_ret {A X : Type} (f : World -> X) (a : A) : preserves f (ret a).
Proof. intros u w. reflexivity. Qed.

Lemma preserves_raise {A X : Type} (f : World -> X) (e : exn) :
  preserves f (raise e : M A).
Proof. intros u w. reflexivity. Qed.

Lemma preserves_gets {A X : Type} (f : World -> X) (g : World -> A) :
  preserves f (gets g).
Proof. intros u w. reflexivity. Qed.

Lemma preserves_modify {X : Type} (f : World -> X) (g : World -> World) :
  (forall w, f (g w) = f w) -> preserves f (modify g).
Proof. intros H u w. apply H. Qed.

Lemma preserves_bind {A B X : Type} (f : World -> X) (c : M A) (k : A -> M B) :
  preserves f c -> (forall a, preserves f (k a)) -> preserves f (bind c k).
Proof.
  intros Hc Hk u w. unfold bind. specialize (Hc u w).
  destruct (c u w) as [[a|e] w1]; cbn in Hc |- *; [|exact Hc].
  rewrite (Hk a u w1). exact Hc.
Qed.

Lemma preserves_try_except {A X : Type} (f : World -> X) (body : M A)
    (handler : exn -> M A) :
  preserves f body -> (forall e, preserves f (handler e)) ->
  preserves f (try_except body handler).
Proof.
  intros Hb Hh u w. unfold try_except. specialize (Hb u w).
  destruct (body u w) as [[a|e] w1]; cbn in Hb |- *; [exact Hb|].
  rewrite (Hh e u w1). exact Hb.
Qed.

Lemma preserves_for_each {A X : Type} (f : World -> X) (xs : list A)
    (body : A -> M unit) :
  (forall x, preserves f (body x)) -> preserves f (for_each xs body).
Proof.
  intros Hb. induction xs as [|x xs IH]; cbn [for_each].
  - apply preserves_ret.
  - apply preserves_bind; [apply Hb|intros _; exact IH].
Qed.

Lemma preserves_db_operation {X : Type} (f : World -> X) (site : db_site) :
  preserves f (db_operation site).
Proof. intros u w. unfold db_operation. destruct (db_fault u site); reflexivity. Qed.

Lemma preserves_lift_result {A X : Type} (f : World -> X) (r : result A) :
  preserves f (SyncManager.lift_result r).
Proof. intros u w. reflexivity. Qed.

Lemma preserves_not_none {A X : Type} (f : World -> X) (o : option A) (e : exn) :
  preserves f (SyncManager.not_none o e).
Proof. destruct o; [apply preserves_ret|apply preserves_raise]. Qed.

Lemma preserves_call_progress {X : Type} (f : World -> X)
    (progress_callback : option SyncManager.Callback) (status : string) (current total : Z) :
  preserves f (SyncManager.call_progress progress_callback status current total).
Proof.
  unfold SyncManager.call_progress. destruct progress_callback as [cb|].
  - destruct (cb status current total); [apply preserves_raise|apply preserves_ret].
  - apply preserves_ret.
Qed.

Lemma preserves_weaken {A X Y : Type} (f : World -> X) (g : World -> Y) (m : M A) :
  (forall w w', f w' = f w -> g w' = g w) -> preserves f m -> preserves g m.
Proof. intros H Hm u w. apply H, Hm. Qed.

(** Steps through a computation made of the combinators above. *)
Ltac frame_step :=
  lazymatch goal with
  | |- preserves _ (bind _ _) => apply preserves_bind; [|intros ?]
  | |- preserves _ (ret _) => apply preserves_ret
  | |- preserves _ (raise _) => apply preserves_raise
  | |- preserves _ (gets _) => apply preserves_gets
  | |- preserves _ utcnow => apply preserves_gets
  | |- preserves _ (try_except _ _) => apply preserves_try_except; [|intros ?]
  | |- preserves _ (db_operation _) => apply preserves_db_operation
  | |- preserves _ (SyncManager.lift_result _) => apply preserves_lift_result
  | |- preserves _ (SyncManager.not_none _ _) => apply preserves_not_none
  | |- preserves _ (SyncManager.call_progress _ _ _ _) => apply preserves_call_progress
  | |- preserves _ (modify _) => apply preserves_modify; intros ?; reflexivity
  | |- preserves _ (if ?b then _ else _) => destruct b
  | |- preserves _ (match ?o with Some _ => _ | None => _ end) => destruct o
  end.

Lemma preserves_sleep {X : Type} (f : World -> X) (seconds : Z) :
  (forall t w, f (set_now t w) = f w) -> preserves f (sleep seconds).
Proof.
  intros H. unfold sleep. destruct (seconds <? 0)%Z; [apply preserves_raise|].
  apply preserves_modify. intros w. apply H.
Qed.

Lemma preserves_upstream_call {A X : Type} (f : World -> X) (payload : Upstream -> A) :
  (forall n w, f (set_api_calls n w) = f w) -> preserves f (upstream_call payload).
Proof.
  intros H u w. unfold upstream_call. destruct (call_outcome u (api_calls w)); apply H.
Qed.

(** The client writes no table but [oauth_tokens]. *)
Lemma save_token_tables (response : TokenResponse) :
  preserves tables (StravaClient._save_token response).
Proof.
  unfold StravaClient._save_token.
  destruct (tr_athlete_id response) as [id|]; [|apply preserves_raise].
  destruct (id =? 0)%Z; repeat frame_step.
Qed.

Lemma refresh_access_token_tables : preserves tables StravaClient._refresh_access_token.
Proof.
  unfold StravaClient._refresh_access_token.
  repeat frame_step.
  - intros u w. reflexivity.
  - apply save_token_tables.
Qed.

Lemma check_rate_limit_tables : preserves tables StravaClient._check_rate_limit.
Proof.
  unfold StravaClient._check_rate_limit.
  repeat first [frame_step | apply preserves_sleep; intros; reflexivity].
Qed.

Lemma retry_loop_tables {A : Type} (payload : Upstream -> A) (max_retries remaining : nat) :
  preserves tables (StravaClient.retry_loop (upstream_call payload) max_retries remaining).
Proof.
  induction remaining as [|r IH]; cbn [StravaClient.retry_loop]; [apply preserves_ret|].
  apply preserves_try_except.
  - repeat first [frame_step | apply preserves_upstream_call; intros; reflexivity].
  - intros e.
    destruct (kind e);
      repeat first [exact IH | apply refresh_access_token_tables
                   | apply preserves_sleep; intros; reflexivity | frame_step].
Qed.

Lemma make_request_tables {A : Type} (payload : Upstream -> A) (max_retries : nat) :
  preserves tables (StravaClient._make_request_with_retry (upstream_call payload) max_retries).
Proof.
  unfold StravaClient._make_request_with_retry.
  apply preserves_bind; [apply check_rate_limit_tables|intros _; apply retry_loop_tables].
Qed.

Lemma client_request_preserves {A X : Type} (f : World -> X)
    (payload : Upstream -> A) (max_retries : nat) :
  (forall w w', tables w' = tables w -> f w' = f w) ->
  preserves f (StravaClient._make_request_with_retry (upstream_call payload) max_retries).
Proof. intros H. apply (preserves_weaken tables f _ H), make_request_tables. Qed.

Lemma tables_sync_metadata (w w' : World) :
  tables w' = tables w -> sync_metadata (db w') = sync_metadata (db w).
Proof. unfold tables. intros [= _ _ _ H _]. exact H. Qed.

Lemma tables_training_loads (w w' : World) :
  tables w' = tables w -> training_loads (db w') = training_loads (db w).
Proof. unfold tables. intros [= _ _ H _ _]. exact H. Qed.

Lemma tables_activities (w w' : World) :
  tables w' = tables w -> activities (db w') = activities (db w).
Proof. unfold tables. intros [= _ H _ _ _]. exact H. Qed.

Lemma tables_athletes (w w' : World) :
  tables w' = tables w -> athletes (db w') = athletes (db w).
Proof. unfold tables. intros [= H _ _ _ _]. exact H. Qed.

Lemma tables_activity_streams (w w' : World) :
  tables w' = tables w -> activity_streams (db w') = activity_streams (db w).
Proof. unfold tables. intros [= _ _ _ _ H]. exact H. Qed.

(** Extends [frame_step] with the client's requests, for a part of the
    world that is made of tables. *)
Ltac frame_sync tables_part :=
  repeat first
    [ frame_step
    | apply client_request_preserves; exact tables_part ].

Section SyncFrames.
Variable self_athlete_id : Z.

Lemma sync_athlete_profile_sync_metadata :
  preserves (fun w => sync_metadata (db w)) SyncManager._sync_athlete_profile.
Proof.
  unfold SyncManager._sync_athlete_profile, StravaClient.get_athlete.
  frame_sync tables_sync_metadata.
Qed.

Lemma sync_activity_sync_metadata (strava_activity : StravaActivity) :
  preserves (fun w => sync_metadata (db w))
    (SyncManager._sync_activity self_athlete_id strava_activity).
Proof. unfold SyncManager._sync_activity. frame_sync tables_sync_metadata. Qed.

Lemma sync_activity_training_loads (strava_activity : StravaActivity) :
  preserves (fun w => training_loads (db w))
    (SyncManager._sync_activity self_athlete_id strava_activity).
Proof. unfold SyncManager._sync_activity. frame_sync tables_training_loads. Qed.

Lemma sync_activities_loop_preserves {X : Type} (f : World -> X)
    (progress : Z -> M unit) (i : Z) (remote : list StravaActivity) (synced : Z) :
  (forall i, preserves f (progress i)) ->
  (forall a, preserves f (SyncManager._sync_activity self_athlete_id a)) ->
  preserves f (SyncManager.sync_activities_loop self_athlete_id progress i remote synced).
Proof.
  intros Hp Ha. revert i synced.
  induction remote as [|a remote IH]; intros i synced; cbn [SyncManager.sync_activities_loop].
  - apply preserves_ret.
  - apply preserves_bind; [apply Hp|intros _].
    apply preserves_bind; [apply Ha|intros _]. apply IH.
Qed.

Lemma sync_all_activities_sync_metadata (progress_callback : option SyncManager.Callback) :
  preserves (fun w => sync_metadata (db w))
    (SyncManager._sync_all_activities self_athlete_id progress_callback).
Proof.
  unfold SyncManager._sync_all_activities, StravaClient.get_activities.
  frame_sync tables_sync_metadata.
  apply sync_activities_loop_preserves.
  - intros i. frame_sync tables_sync_metadata.
  - apply sync_activity_sync_metadata.
Qed.

Lemma sync_activities_after_sync_metadata (after_date : option Z)
    (progress_callback : option SyncManager.Callback) :
  preserves (fun w => sync_metadata (db w))
    (SyncManager._sync_activities_after self_athlete_id after_date progress_callback).
Proof.
  unfold SyncManager._sync_activities_after, StravaClient.get_activities.
  frame_sync tables_sync_metadata.
  apply sync_activities_loop_preserves.
  - intros i. frame_sync tables_sync_metadata.
  - apply sync_activity_sync_metadata.
Qed.

Lemma sync_activities_after_training_loads (after_date : option Z)
    (progress_callback : option SyncManager.Callback) :
  preserves (fun w => training_loads (db w))
    (SyncManager._sync_activities_after self_athlete_id after_date progress_callback).
Proof.
  unfold SyncManager._sync_activities_after, StravaClient.get_activities.
  frame_sync tables_training_loads.
  apply sync_activities_loop_preserves.
  - intros i. frame_sync tables_training_loads.
  - apply sync_activity_training_loads.
Qed.

Lemma calculate_training_loads_sync_metadata (after_date : option Z) :
  preserves (fun w => sync_metadata (db w))
    (SyncManager._calculate_training_loads self_athlete_id after_date).
Proof.
  unfold SyncManager._calculate_training_loads.
  apply preserves_bind; [apply preserves_gets|intros d].
  destruct (SyncManager.activities_for_loads self_athlete_id after_date d);
    frame_sync tables_sync_metadata.
Qed.

Lemma sync_activity_streams_preserves {X : Type} (f : World -> X) (activity_id : Z) :
  (forall w w', tables w' = tables w -> f w' = f w) ->
  (forall l w, f (set_db (set_activity_streams l (db w)) w) = f w) ->
  preserves f (SyncManager._sync_activity_streams activity_id).
Proof.
  intros Htables Hstreams.
  unfold SyncManager._sync_activity_streams, StravaClient.get_activity_streams.
  apply preserves_bind; [apply client_request_preserves; exact Htables|intros response].
  apply preserves_bind; [apply preserves_not_none|intros streams_dict].
  apply preserves_for_each. intros [type data].
  apply preserves_modify. intros w. apply Hstreams.
Qed.

Lemma sync_streams_loop_preserves {X : Type} (f : World -> X)
    (stored : list Activity) (synced : Z) :
  (forall w w', tables w' = tables w -> f w' = f w) ->
  (forall l w, f (set_db (set_activity_streams l (db w)) w) = f w) ->
  preserves f (SyncManager.sync_streams_loop stored synced).
Proof.
  intros Htables Hstreams. revert synced.
  induction stored as [|a stored IH]; intros synced; cbn [SyncManager.sync_streams_loop].
  - apply preserves_ret.
  - apply preserves_bind; [|intros ok; apply IH].
    apply preserves_try_except; [|intros _; apply preserves_ret].
    apply preserves_bind; [|intros _; apply preserves_ret].
    apply sync_activity_streams_preserves; assumption.
Qed.

Lemma sync_recent_streams_preserves {X : Type} (f : World -> X) (days : option Z) :
  (forall w w', tables w' = tables w -> f w' = f w) ->
  (forall l w, f (set_db (set_activity_streams l (db w)) w) = f w) ->
  preserves f (SyncManager._sync_recent_streams self_athlete_id days).
Proof.
  intros Htables Hstreams. unfold SyncManager._sync_recent_streams.
  apply preserves_bind; [apply preserves_gets|intros t].
  apply preserves_bind; [apply preserves_db_operation|intros _].
  apply preserves_bind; [apply preserves_gets|intros d].
  apply preserves_bind; [apply sync_streams_loop_preserves; assumption|intros synced].
  apply preserves_bind; [apply preserves_db_operation|intros _; apply preserves_ret].
Qed.

End SyncFrames.

(** ** Triples *)

Lemma hoare_conseq {A : Type} (u : Upstream) (P P' : World -> Prop) (m : M A)
    (Q Q' : A -> World -> Prop) (E E' : exn -> World -> Prop) :
  (forall w, P' w -> P w) -> (forall a w, Q a w -> Q' a w) ->
  (forall e w, E e w -> E' e w) ->
  hoare u P m Q E -> hoare u P' m Q' E'.
Proof.
  intros HP HQ HE Hm w Hw. specialize (Hm w (HP w Hw)).
  destruct (m u w) as [[a|e] w']; auto.
Qed.

Lemma hoare_bind {A B : Type} (u : Upstream) (P : World -> Prop) (c : M A)
    (k : A -> M B) (R : A -> World -> Prop) (Q : B -> World -> Prop)
    (E : exn -> World -> Prop) :
  hoare u P c R E -> (forall a, hoare u (R a) (k a) Q E) -> hoare u P (bind c k) Q E.
Proof.
  intros Hc Hk w Hw. unfold bind. specialize (Hc w Hw).
  destruct (c u w) as [[a|e] w1]; [exact (Hk a w1 Hc)|exact Hc].
Qed.

Lemma hoare_try_except {A : Type} (u : Upstream) (P : World -> Prop) (body : M A)
    (handler : exn -> M A) (Q : A -> World -> Prop) (E1 E : exn -> World -> Prop) :
  hoare u P body Q E1 -> (forall e, hoare u (E1 e) (handler e) Q E) ->
  hoare u P (try_except body handler) Q E.
Proof.
  intros Hb Hh w Hw. unfold try_except. specialize (Hb w Hw).
  destruct (body u w) as [[a|e] w1]; [exact Hb|exact (Hh e w1 Hb)].
Qed.

Lemma hoare_try_finally {A : Type} (u : Upstream) (P : World -> Prop) (body : M A)
    (cleanup : M unit) (Q1 Q : A -> World -> Prop) (E1 E : exn -> World -> Prop) :
  hoare u P body Q1 E1 ->
  (forall a, hoare u (Q1 a) cleanup (fun _ => Q a) E) ->
  (forall e, hoare u (E1 e) cleanup (fun _ => E e) E) ->
  hoare u P (try_finally body cleanup) Q E.
Proof.
  intros Hb Hok Hraise w Hw. unfold try_finally. specialize (Hb w Hw).
  destruct (body u w) as [[a|e] w1].
  - specialize (Hok a w1 Hb). destruct (cleanup u w1) as [[[]|e'] w2]; exact Hok.
  - specialize (Hraise e w1 Hb). destruct (cleanup u w1) as [[[]|e'] w2]; exact Hraise.
Qed.

(** A step that leaves the part [f] alone keeps every assertion about it. *)
Lemma hoare_frame {A X : Type} (u : Upstream) (f : World -> X) (I : World -> Prop)
    (m : M A) :
  (forall w w', f w' = f w -> I w -> I w') ->
  preserves f m -> hoare u I m (fun _ => I) (fun _ => I).
Proof.
  intros HI Hm w Hw. specialize (Hm u w).
  destruct (m u w) as [[a|e] w']; cbn in Hm; exact (HI w w' Hm Hw).
Qed.

(** ** The record of a sync *)

Lemma duration_seconds_returns (sync_record : nat) (u : Upstream) (w : World) :
  exists z, SyncManager.duration_seconds sync_record u w = (Ok z, w).
Proof.
  unfold SyncManager.duration_seconds, bind, gets.
  destruct (sync_metadata (db w) !! sync_record) as [r|]; [destruct (completed_at r)|];
    eexists; reflexivity.
Qed.

Section SyncRecord.
Variables (self_athlete_id : Z) (u : Upstream).
Variables (old : list SyncMetadata) (type : string) (started : Z).


Lemma closed_record_frame (status : string) (w w' : World) :
  sync_metadata (db w') = sync_metadata (db w) ->
  (closed_record old self_athlete_id type started) status w -> (closed_record old self_athlete_id type started) status w'.
Proof.
  intros Heq (row & Hrows & Hid). exists row. split; [congruence|exact Hid].
Qed.








End SyncRecord.





(** ** Re-syncing an activity *)

Lemma update_first_ext {A : Type} (p : A -> bool) (f g : A -> A) (rows : list A) :
  (forall x, p x = true -> f x = g x) -> update_first p f rows = update_first p g rows.
Proof.
  intros H. induction rows as [|r rows IH]; [reflexivity|]. cbn.
  destruct (p r) eqn:Hr; [rewrite (H r Hr); reflexivity|rewrite IH; reflexivity].
Qed.

Lemma update_first_compose {A : Type} (p : A -> bool) (f g : A -> A) (rows : list A) :
  (forall x, p x = true -> p (f x) = true) ->
  update_first p g (update_first p f rows) = update_first p (fun x => g (f x)) rows.
Proof.
  intros H. induction rows as [|r rows IH]; [reflexivity|]. cbn.
  destruct (p r) eqn:Hr; cbn.
  - rewrite (H r Hr). reflexivity.
  - rewrite Hr, IH. reflexivity.
Qed.

Lemma update_first_app_none {A : Type} (p : A -> bool) (f : A -> A) (l1 l2 : list A) :
  List.find p l1 = None -> update_first p f (l1 ++ l2) = l1 ++ update_first p f l2.
Proof.
  induction l1 as [|r l1 IH]; [reflexivity|]. cbn.
  destruct (p r); [discriminate|]. intros H. rewrite (IH H). reflexivity.
Qed.

(** An upsert is an update of the table extended, when needed, with the
    fresh row. *)
Lemma upsert_update_first {A : Type} (p : A -> bool) (fresh : A) (f : A -> A)
    (rows : list A) :
  p fresh = true ->
  upsert p fresh f rows
  = update_first p f
      (match List.find p rows with Some _ => rows | None => rows ++ [fresh] end).
Proof.
  intros Hfresh. unfold upsert. destruct (List.find p rows) eqn:Hfind; [reflexivity|].
  rewrite update_first_app_none by exact Hfind. cbn. rewrite Hfresh. reflexivity.
Qed.

Lemma find_update_first_some {A : Type} (p : A -> bool) (f : A -> A) (rows : list A) :
  (forall x, p x = true -> p (f x) = true) ->
  List.find p rows <> None -> List.find p (update_first p f rows) <> None.
Proof.
  intros H. induction rows as [|r rows IH]; [auto|]. cbn.
  destruct (p r) eqn:Hr; cbn.
  - rewrite (H r Hr). discriminate.
  - rewrite Hr. exact IH.
Qed.

Lemma find_extended_some {A : Type} (p : A -> bool) (fresh : A) (rows : list A) :
  p fresh = true ->
  List.find p (match List.find p rows with Some _ => rows | None => rows ++ [fresh] end)
  <> None.
Proof.
  intros Hfresh. destruct (List.find p rows) eqn:Hfind; [congruence|].
  rewrite find_app_none by exact Hfind. cbn. rewrite Hfresh. discriminate.
Qed.

(** Upserting with [f] and updating with [g], done twice, is the same as
    done once when [g ∘ f] absorbs a second application. *)
Lemma upsert_update_again {A : Type} (p : A -> bool) (fresh : A) (f g : A -> A)
    (rows : list A) :
  p fresh = true ->
  (forall x, p x = true -> p (f x) = true) ->
  (forall x, p x = true -> p (g x) = true) ->
  (forall x, p x = true -> g (f (g (f x))) = g (f x)) ->
  update_first p g (upsert p fresh f (update_first p g (upsert p fresh f rows)))
  = update_first p g (upsert p fresh f rows).
Proof.
  intros Hfresh Hf Hg Habsorb.
  rewrite (upsert_update_first p fresh f rows Hfresh).
  set (extended := match List.find p rows with Some _ => rows | None => rows ++ [fresh] end).
  assert (Hsome : List.find p (update_first p g (update_first p f extended)) <> None).
  { apply find_update_first_some; [exact Hg|].
    apply find_update_first_some; [exact Hf|].
    apply find_extended_some, Hfresh. }
  unfold upsert at 1.
  destruct (List.find p (update_first p g (update_first p f extended))); [|congruence].
  rewrite !update_first_compose; auto.
  apply update_first_ext. exact Habsorb.
Qed.

Lemma upsert_again {A : Type} (p : A -> bool) (fresh : A) (f : A -> A) (rows : list A) :
  p fresh = true ->
  (forall x, p x = true -> p (f x) = true) ->
  (forall x, p x = true -> f (f x) = f x) ->
  upsert p fresh f (upsert p fresh f rows) = upsert p fresh f rows.
Proof.
  intros Hfresh Hf Hidem.
  rewrite (upsert_update_first p fresh f rows Hfresh).
  set (extended := match List.find p rows with Some _ => rows | None => rows ++ [fresh] end).
  assert (Hsome : List.find p (update_first p f extended) <> None).
  { apply find_update_first_some; [exact Hf|]. apply find_extended_some, Hfresh. }
  unfold upsert.
  destruct (List.find p (update_first p f extended)); [|congruence].
  rewrite update_first_compose by exact Hf.
  apply update_first_ext. exact Hidem.
Qed.

Lemma update_first_length {A : Type} (p : A -> bool) (f : A -> A) (rows : list A) :
  length (update_first p f rows) = length rows.
Proof.
  induction rows as [|r rows IH]; [reflexivity|].
  cbn [update_first]. destruct (p r); cbn [length]; [reflexivity|]. rewrite IH. reflexivity.
Qed.

(** Syncing an activity whose row is stored adds no row. *)
Lemma sync_stored_activity_length (self_athlete_id : Z)
    (strava_activity : StravaActivity) (u : Upstream) (w : World) :
  List.find (fun a => (activity_id a =? sa_id strava_activity)%Z) (activities (db w))
  <> None ->
  length (activities (db (snd (SyncManager._sync_activity self_athlete_id
                                 strava_activity u w))))
  = length (activities (db w)).
Proof.
  intros Hstored. unfold SyncManager._sync_activity.
  set (p := fun a => (activity_id a =? sa_id strava_activity)%Z) in *.
  destruct w as [t n r c [aths acts loads meta streams toks]].
  unfold bind, modify, gets, ret, SyncManager.lift_result, upsert.
  cbv beta iota delta [db set_db athletes set_activities activities now api_calls
       refresh_calls client training_loads sync_metadata activity_streams oauth_tokens]
    in *.
  destruct (find p acts) as [stored|]; [|congruence].
  destruct (find _ aths) as [athlete|]; cbv beta iota.
  2:{ cbn [snd]. apply update_first_length. }
  match goal with
  | |- context [calculate_activity_tss ?d ?f ?t] =>
      destruct (calculate_activity_tss d f t) as [tss|e]
  end; cbv beta iota; cbn [snd]; rewrite ?update_first_length; reflexivity.
Qed.

(** X13.  Syncing again an activity whose row is stored changes nothing:
    the row is found and given, in the columns kept here, the values the
    first sync gave it, and no row is added. *)
Theorem sync_activity_idempotent (self_athlete_id : Z)
    (strava_activity : StravaActivity) (u : Upstream) (w : World)
    (Hstored : List.find (fun a => (activity_id a =? sa_id strava_activity)%Z)
                 (activities (db w)) <> None) :
  (SyncManager._sync_activity self_athlete_id strava_activity ;;
   SyncManager._sync_activity self_athlete_id strava_activity) u w
  = SyncManager._sync_activity self_athlete_id strava_activity u w
  /\ length (activities (db (snd (SyncManager._sync_activity self_athlete_id
                                    strava_activity u w))))
     = length (activities (db w)).
Proof.
  split; [|apply sync_stored_activity_length; exact Hstored]. clear Hstored.
  unfold SyncManager._sync_activity.
  set (p := fun a => (activity_id a =? sa_id strava_activity)%Z).
  set (fresh := SyncManager.new_activity (sa_id strava_activity)).
  match goal with
  | |- context [upsert p fresh ?f] => set (update := f)
  end.
  destruct w as [t n r c [aths acts loads meta streams toks]].
  unfold bind, modify, gets, ret, SyncManager.lift_result.
  cbv beta iota delta [db set_db athletes set_activities activities now api_calls
       refresh_calls client training_loads sync_metadata activity_streams oauth_tokens].
  destruct (find _ aths) as [athlete|] eqn:Hfind; cbv beta iota; rewrite ?Hfind.
  2:{ do 3 f_equal. apply upsert_again.
      - apply Z.eqb_refl.
      - intros x Hx. exact Hx.
      - intros x _. reflexivity. }
  match goal with
  | |- context [calculate_activity_tss ?d ?f ?t] =>
      destruct (calculate_activity_tss d f t) as [tss|e] eqn:Htss
  end.
  2: reflexivity.
  cbv beta iota. rewrite ?Hfind. cbv beta iota. rewrite ?Htss.
  match goal with
  | |- context [update_first p ?f] => set (with_tss := f)
  end.
  do 3 f_equal. apply upsert_update_again.
  - apply Z.eqb_refl.
  - intros x Hx. exact Hx.
  - intros x Hx. exact Hx.
  - intros x _. subst with_tss update. cbv beta.
    cbn [activity_id activity_athlete_id start_date moving_time weighted_average_watts
         average_heartrate training_stress_score intensity_factor].
    f_equal.
    destruct (truthy_int _ && truthy_int (ftp athlete)); reflexivity.
Qed.

(** A ride synced into a table that holds its row, for an athlete who has
    set no thresholds. *)
Lemma sync_activity_idempotent_witness :
  (SyncManager._sync_activity 7 (ride 1 0) ;; SyncManager._sync_activity 7 (ride 1 0))
    (calm_upstream [ride 1 0])
    (example_world (set_activities [SyncManager.new_activity 1] empty_db))
  = SyncManager._sync_activity 7 (ride 1 0) (calm_upstream [ride 1 0])
      (example_world (set_activities [SyncManager.new_activity 1] empty_db))
  /\ length (activities (db (snd (SyncManager._sync_activity 7 (ride 1 0)
                                    (calm_upstream [ride 1 0])
                                    (example_world
                                       (set_activities [SyncManager.new_activity 1]
                                          empty_db))))))
     = length (activities (db (example_world
                                 (set_activities [SyncManager.new_activity 1] empty_db)))).
Proof.
  apply (sync_activity_idempotent 7 (ride 1 0) (calm_upstream [ride 1 0])
           (example_world (set_activities [SyncManager.new_activity 1] empty_db))).
  vm_compute. discriminate.
Defined.

(** ** Activities stored by a sync *)

Lemma make_request_payload {A : Type} (payload : Upstream -> A) (max_retries : nat)
    (u : Upstream) (w : World) (a : A) (w' : World) :
  StravaClient._make_request_with_retry (upstream_call payload) max_retries u w
  = (Ok (Some a), w') ->
  a = payload u.
Proof.
  unfold StravaClient._make_request_with_retry, bind.
  destruct (StravaClient._check_rate_limit u w) as [[[]|e0] w1]; [|discriminate].
  intros Hrun.
  pose proof (retry_loop_outcome payload max_retries max_retries u w1 (le_n _)) as Hloop.
  rewrite Hrun in Hloop. apply Hloop.
Qed.

(** What one [_sync_activity] leaves in the table, whether or not the TSS
    could be computed: the row of the activity, with the athlete and the
    upstream values, and every other row as it was. *)
Lemma sync_activity_effect (self_athlete_id : Z) (strava_activity : StravaActivity)
    (u : Upstream) (w : World) :
  (exists a,
      List.find (fun a => (activity_id a =? sa_id strava_activity)%Z)
        (activities (db (snd (SyncManager._sync_activity self_athlete_id
                                strava_activity u w)))) = Some a
      /\ activity_athlete_id a = Some self_athlete_id
      /\ start_date a = sa_start_date strava_activity
      /\ moving_time a
         = (if truthy_int (sa_moving_time strava_activity)
            then sa_moving_time strava_activity else None))
  /\ (forall id, id <> sa_id strava_activity ->
        List.find (fun a => (activity_id a =? id)%Z)
          (activities (db (snd (SyncManager._sync_activity self_athlete_id
                                  strava_activity u w))))
        = List.find (fun a => (activity_id a =? id)%Z) (activities (db w))).
Proof.
  unfold SyncManager._sync_activity.
  set (p := fun a => (activity_id a =? sa_id strava_activity)%Z).
  set (fresh := SyncManager.new_activity (sa_id strava_activity)).
  match goal with
  | |- context [upsert p fresh ?f] => set (update := f)
  end.
  destruct (find_upsert p fresh update (activities (db w))) as (x & Hx & _).
  { apply Z.eqb_refl. }
  { intros r Hr. exact Hr. }
  assert (Hother : forall id, id <> sa_id strava_activity ->
    List.find (fun a => (activity_id a =? id)%Z)
      (upsert p fresh update (activities (db w)))
    = List.find (fun a => (activity_id a =? id)%Z) (activities (db w))).
  { intros id Hid. apply find_upsert_other.
    - intros r Hr. unfold p in Hr. apply Z.eqb_eq in Hr. cbn.
      rewrite Hr. split; apply Z.eqb_neq; congruence.
    - cbn. apply Z.eqb_neq. congruence. }
  destruct w as [t n r c [aths acts loads meta streams toks]].
  unfold bind, modify, gets, ret, SyncManager.lift_result.
  cbv beta iota delta [db set_db athletes set_activities activities now api_calls
       refresh_calls client training_loads sync_metadata activity_streams oauth_tokens
       snd] in Hx, Hother |- *.
  destruct (find _ aths) as [athlete|]; cbv beta iota.
  2:{ split; [|exact Hother]. exists (update x). split; [exact Hx|]. repeat split. }
  match goal with
  | |- context [calculate_activity_tss ?d ?f ?t] =>
      destruct (calculate_activity_tss d f t) as [tss|e]
  end; cbv beta iota.
  2:{ split; [|exact Hother]. exists (update x). split; [exact Hx|]. repeat split. }
  match goal with
  | |- context [update_first p ?f] => set (with_tss := f)
  end.
  split.
  - exists (with_tss (update x)). split; [|repeat split].
    apply find_update_first; [exact Hx|]. apply (List.find_some _ _ Hx).
  - intros id Hid. rewrite <- (Hother id Hid).
    apply find_update_first_other. intros a Ha. unfold p in Ha. apply Z.eqb_eq in Ha.
    cbn. rewrite Ha. split; apply Z.eqb_neq; congruence.
Qed.

Lemma sync_activities_loop_stores (self_athlete_id : Z) (progress : Z -> M unit)
    (u : Upstream) (remote : list StravaActivity) :
  (forall i, preserves (fun w => activities (db w)) (progress i)) ->
  NoDup (map sa_id remote) ->
  forall (i synced : Z) (w : World) (n : Z) (w' : World),
    SyncManager.sync_activities_loop self_athlete_id progress i remote synced u w
    = (Ok n, w') ->
    n = (synced + Z.of_nat (length remote))%Z
    /\ activities_stored self_athlete_id remote w w'.
Proof.
  intros Hprogress. induction remote as [|sa remote IH]; intros Hnodup i synced w n w' Hrun.
  - injection Hrun as <- <-. cbn. split; [lia|]. split; [intros sa []|reflexivity].
  - cbn [SyncManager.sync_activities_loop] in Hrun. unfold bind at 1 in Hrun.
    pose proof (Hprogress i u w) as Hkeep.
    destruct (progress i u w) as [[[]|e] w1]; [|discriminate]. cbn in Hkeep.
    unfold bind at 1 in Hrun.
    destruct (sync_activity_effect self_athlete_id sa u w1) as [Hrow Hothers].
    destruct (SyncManager._sync_activity self_athlete_id sa u w1) as [[[]|e] w2];
      [|discriminate].
    cbn [snd] in Hrow, Hothers.
    cbn [map] in Hnodup. apply NoDup_cons in Hnodup as [Hfresh Hnodup].
    destruct (IH Hnodup _ _ _ _ _ Hrun) as (Hn & Hrows & Hrest).
    split; [cbn [length]; lia|]. split.
    + intros sa' [<-|Hin]; [|exact (Hrows sa' Hin)].
      destruct Hrow as (a & Ha & Hfields). exists a. split; [|exact Hfields].
      rewrite Hrest; [exact Ha|]. rewrite <- list_elem_of_In. exact Hfresh.
    + intros id Hid. cbn [map] in Hid.
      rewrite Hrest by (intros Hin; apply Hid; right; exact Hin).
      rewrite Hothers by (intros ->; apply Hid; left; reflexivity).
      rewrite Hkeep. reflexivity.
Qed.

Lemma fetched_activities_stored (self_athlete_id : Z)
    (progress : list StravaActivity -> Z -> M unit)
    (after : option Z) (u : Upstream) (w : World) (n : Z) (w' : World) :
  (forall l i, preserves (fun w => activities (db w)) (progress l i)) ->
  NoDup (map sa_id (remote_activities u)) ->
  (response <- StravaClient.get_activities after ;;
   fetched <- SyncManager.not_none response
     (mk_exn TypeError "'NoneType' object is not iterable") ;;
   synced <- SyncManager.sync_activities_loop self_athlete_id (progress fetched)
               0 fetched 0 ;;
   db_operation SiteActivities ;;
   ret synced) u w = (Ok n, w') ->
  let fetched :=
    match after with
    | None => remote_activities u
    | Some t => filter (fun a => (t < sa_start_date a)%Z) (remote_activities u)
    end in
  n = Z.of_nat (length fetched) /\ activities_stored self_athlete_id fetched w w'.
Proof.
  intros Hprogress Hids Hrun fetched.
  unfold bind at 1 in Hrun. unfold StravaClient.get_activities in Hrun.
  match type of Hrun with
  | context [StravaClient._make_request_with_retry (upstream_call ?payload) 3 u w] =>
      pose proof (client_request_preserves (fun w => activities (db w)) payload 3
                    tables_activities u w) as Hkeep;
      pose proof (make_request_payload payload 3 u w) as Hpayload;
      destruct (StravaClient._make_request_with_retry (upstream_call payload) 3 u w)
        as [[[l|]|e] w1]; try discriminate
  end.
  cbn [snd] in Hkeep. specialize (Hpayload l w1 eq_refl).
  assert (Hl : l = fetched)
    by (rewrite Hpayload; subst fetched; destruct after; reflexivity).
  clear Hpayload. subst l.
  assert (Hnodup : NoDup (map sa_id fetched)).
  { subst fetched. destruct after as [t|]; [|exact Hids].
    apply (sublist_NoDup _ _ Hids). apply fmap_sublist, sublist_filter. }
  unfold bind at 1 in Hrun. cbn [SyncManager.not_none ret] in Hrun.
  unfold bind at 1 in Hrun.
  destruct (SyncManager.sync_activities_loop self_athlete_id (progress fetched)
              0 fetched 0 u w1) as [[m|e] w2] eqn:Hloop; [|discriminate].
  destruct (sync_activities_loop_stores self_athlete_id (progress fetched) u fetched
              (Hprogress fetched) Hnodup _ _ _ _ _ Hloop) as (Hm & Hrows & Hrest).
  unfold bind, db_operation, ret in Hrun.
  destruct (db_fault u SiteActivities); [discriminate|]. injection Hrun as <- <-.
  split; [lia|]. split; [exact Hrows|].
  intros id Hid. rewrite (Hrest id Hid), Hkeep. reflexivity.
Qed.

(** X14.  When [_sync_all_activities] returns, it returns the number of
    activities upstream has and, their ids being distinct, every one of
    them is stored under its id for this athlete with its start and its
    moving time, while the rows with other ids are as they were.
    [_sync_activities_after] does the same for the activities that started
    after the date. *)
Theorem synced_activities_are_stored
    (self_athlete_id : Z) (progress_callback : option SyncManager.Callback)
    (u : Upstream) (Hids : NoDup (map sa_id (remote_activities u))) :
  (forall w n w',
      SyncManager._sync_all_activities self_athlete_id progress_callback u w = (Ok n, w') ->
      n = Z.of_nat (length (remote_activities u))
      /\ activities_stored self_athlete_id (remote_activities u) w w')
  /\ (forall after_date w n w',
         SyncManager._sync_activities_after self_athlete_id (Some after_date)
           progress_callback u w = (Ok n, w') ->
         n = Z.of_nat
               (length (filter (fun a => (after_date < sa_start_date a)%Z)
                          (remote_activities u)))
         /\ activities_stored self_athlete_id
              (filter (fun a => (after_date < sa_start_date a)%Z)
                 (remote_activities u)) w w').
Proof.
  split.
  - intros w n w' Hrun.
    apply (fetched_activities_stored self_athlete_id
             (fun fetched i =>
                if (i mod 10 =? 0)%Z
                then SyncManager.call_progress progress_callback "Syncing activities"
                       (10 + 70 * i / Z.of_nat (length fetched))%Z 100
                else ret tt)
             None u w n w'); [|exact Hids|exact Hrun].
    intros l i. destruct (i mod 10 =? 0)%Z;
      [apply preserves_call_progress|apply preserves_ret].
  - intros after_date w n w' Hrun.
    apply (fetched_activities_stored self_athlete_id
             (fun fetched i =>
                if (0 <? Z.of_nat (length fetched))%Z
                then SyncManager.call_progress progress_callback "Syncing activities"
                       (70 * i / Z.of_nat (length fetched))%Z 100
                else ret tt)
             (Some after_date) u w n w'); [|exact Hids|exact Hrun].
    intros l i. destruct (0 <? Z.of_nat (length l))%Z;
      [apply preserves_call_progress|apply preserves_ret].
Qed.

Lemma synced_activities_are_stored_witness :
  exists a,
    List.find (fun a => (activity_id a =? 2)%Z)
      (activities
         (db (snd (SyncManager._sync_all_activities 7 None
                     (calm_upstream [ride 1 0; ride 2 86400]) (example_world empty_db)))))
    = Some a
    /\ activity_athlete_id a = Some 7%Z
    /\ start_date a = 86400%Z
    /\ moving_time a = Some 3600%Z.
Proof.
  assert (Hids : NoDup (map sa_id (remote_activities (calm_upstream [ride 1 0; ride 2 86400])))).
  { cbn. repeat constructor; cbn; rewrite ?list_elem_of_In; cbn; intuition discriminate. }
  destruct (synced_activities_are_stored 7 None (calm_upstream [ride 1 0; ride 2 86400]) Hids)
    as [Hall _].
  destruct (SyncManager._sync_all_activities 7 None
              (calm_upstream [ride 1 0; ride 2 86400]) (example_world empty_db))
    as [[n|e] w'] eqn:Hrun; [|vm_compute in Hrun; discriminate].
  destruct (Hall _ _ _ Hrun) as (_ & Hrows & _).
  destruct (Hrows (ride 2 86400)) as (a & Ha & Hathlete & Hstart & Hmoving).
  { right. left. reflexivity. }
  exists a. auto.
Defined.

(** ** Rows written by the training-load calculation *)

Lemma Forall_update_first {A : Type} (P : A -> Prop) (p : A -> bool) (f : A -> A)
    (rows : list A) :
  (forall x, p x = true -> P (f x)) -> Forall P rows -> Forall P (update_first p f rows).
Proof.
  intros Hf. induction 1 as [|r rows Hr Hrows IH]; [constructor|]. cbn.
  destruct (p r) eqn:Hp; constructor; auto.
Qed.

Lemma Forall_upsert {A : Type} (P : A -> Prop) (p : A -> bool) (fresh : A) (f : A -> A)
    (rows : list A) :
  (forall x, P (f x)) -> Forall P rows -> Forall P (upsert p fresh f rows).
Proof.
  intros Hf Hrows. unfold upsert. destruct (List.find p rows).
  - apply Forall_update_first; auto.
  - apply Forall_app. split; [exact Hrows|]. constructor; [apply Hf|constructor].
Qed.

Lemma filter_update_first {A : Type} (q p : A -> bool) (f : A -> A) (rows : list A) :
  (forall x, p x = true -> q x = false /\ q (f x) = false) ->
  List.filter q (update_first p f rows) = List.filter q rows.
Proof.
  intros H. induction rows as [|r rows IH]; [reflexivity|]. cbn.
  destruct (p r) eqn:Hp; cbn.
  - destruct (H r Hp) as [-> ->]. reflexivity.
  - rewrite IH. reflexivity.
Qed.

Lemma filter_upsert {A : Type} (q p : A -> bool) (fresh : A) (f : A -> A)
    (rows : list A) :
  (forall x, p x = true -> q x = false /\ q (f x) = false) ->
  q (f fresh) = false ->
  List.filter q (upsert p fresh f rows) = List.filter q rows.
Proof.
  intros H Hfresh. unfold upsert. destruct (List.find p rows).
  - apply filter_update_first, H.
  - rewrite List.filter_app. cbn. rewrite Hfresh. apply app_nil_r.
Qed.

Lemma training_load_loop_invariant (self_athlete_id : Z) (items : list (Z * Q))
    (c a : Q) (rows : list TrainingLoad) :
  Forall (fun r => tsb r = TrainingMetrics.calculate_tsb (ctl r) (atl r)) rows ->
  Forall (fun r => tsb r = TrainingMetrics.calculate_tsb (ctl r) (atl r))
    (SyncManager.training_load_loop self_athlete_id items c a rows)
  /\ List.filter (fun r => negb (tl_athlete_id r =? self_athlete_id)%Z)
       (SyncManager.training_load_loop self_athlete_id items c a rows)
     = List.filter (fun r => negb (tl_athlete_id r =? self_athlete_id)%Z) rows.
Proof.
  revert c a rows. induction items as [|[day v] items IH]; intros c a rows Hrows.
  { split; [exact Hrows|reflexivity]. }
  cbn [SyncManager.training_load_loop].
  match goal with
  | |- context [SyncManager.training_load_loop _ items ?c' ?a' ?rows'] =>
      destruct (IH c' a' rows') as [Hinv Hothers]
  end.
  { apply Forall_upsert; [|exact Hrows]. intros x. reflexivity. }
  split; [exact Hinv|]. rewrite Hothers.
  apply filter_upsert.
  - intros x Hx. apply andb_true_iff in Hx as [Hx _]. cbn. rewrite Hx. auto.
  - cbn. rewrite Z.eqb_refl. reflexivity.
Qed.

Lemma calculate_training_loads_writes (self_athlete_id : Z) (after_date : option Z)
    (u : Upstream) (w : World) :
  training_loads
    (db (snd (SyncManager._calculate_training_loads self_athlete_id after_date u w)))
  = training_loads (db w)
  \/ exists items c a,
       training_loads
         (db (snd (SyncManager._calculate_training_loads self_athlete_id after_date u w)))
       = SyncManager.training_load_loop self_athlete_id items c a (training_loads (db w)).
Proof.
  unfold SyncManager._calculate_training_loads, bind, gets.
  destruct (SyncManager.activities_for_loads self_athlete_id after_date (db w))
    as [|a0 acts]; [left; reflexivity|].
  right. unfold modify, db_operation.
  destruct (db_fault u SiteTrainingLoads); cbn; eauto.
Qed.

(** X15.  [_calculate_training_loads] writes rows of its own athlete only,
    and on every row it writes the form is the fitness minus the fatigue,
    rounded to two places: a table whose rows have
    [tsb = round(ctl - atl, 2)] still has after the call, whether the commit
    succeeds or not, and the rows of other athletes are the same, in the
    same order. *)
Theorem training_loads_keep_form_and_other_athletes
    (self_athlete_id : Z) (after_date : option Z) (u : Upstream) (w : World)
    (Hform : Forall (fun r => tsb r = TrainingMetrics.calculate_tsb (ctl r) (atl r))
               (training_loads (db w))) :
  Forall (fun r => tsb r = TrainingMetrics.calculate_tsb (ctl r) (atl r))
    (training_loads
       (db (snd (SyncManager._calculate_training_loads self_athlete_id after_date u w))))
  /\ List.filter (fun r => negb (tl_athlete_id r =? self_athlete_id)%Z)
       (training_loads
          (db (snd (SyncManager._calculate_training_loads self_athlete_id after_date u w))))
     = List.filter (fun r => negb (tl_athlete_id r =? self_athlete_id)%Z)
         (training_loads (db w)).
Proof.
  destruct (calculate_training_loads_writes self_athlete_id after_date u w)
    as [->|(items & c & a & ->)].
  - split; [exact Hform|reflexivity].
  - apply training_load_loop_invariant. exact Hform.
Qed.

Lemma training_loads_keep_form_and_other_athletes_witness :
  Forall (fun r => tsb r = TrainingMetrics.calculate_tsb (ctl r) (atl r))
    (training_loads
       (db (snd (SyncManager._calculate_training_loads 7 None (calm_upstream [])
                   (example_world
                      (mk_db [] [mk_activity 1 (Some 7%Z) 0 (Some 3600%Z) None None
                                   (Some 50) None]
                         [mk_training_load 8 0 10 1 2 (-1)] [] [] []))))))
  /\ List.filter (fun r => negb (tl_athlete_id r =? 7)%Z)
       (training_loads
          (db (snd (SyncManager._calculate_training_loads 7 None (calm_upstream [])
                      (example_world
                         (mk_db [] [mk_activity 1 (Some 7%Z) 0 (Some 3600%Z) None None
                                      (Some 50) None]
                            [mk_training_load 8 0 10 1 2 (-1)] [] [] []))))))
     = [mk_training_load 8 0 10 1 2 (-1)].
Proof.
  apply (training_loads_keep_form_and_other_athletes 7 None (calm_upstream [])
           (example_world
              (mk_db [] [mk_activity 1 (Some 7%Z) 0 (Some 3600%Z) None None (Some 50) None]
                 [mk_training_load 8 0 10 1 2 (-1)] [] [] []))).
  repeat constructor.
Defined.

(** ** Streams *)




(** ** The athlete's profile *)

(** X17.  Syncing the profile keeps the FTP and the maximal heart rate set
    in the application and replaces the weight: when [_sync_athlete_profile]
    returns, the row of the upstream athlete carries the upstream username
    and the upstream weight (whatever weight was stored), and the FTP and
    the maximal heart rate it had before (none for a new row); it is the row
    returned, and the rows of other athletes are as they were. *)
Theorem profile_sync_keeps_ftp_and_max_heart_rate
    (u : Upstream) (w : World) (athlete : Athlete) (w' : World)
    (Hrun : SyncManager._sync_athlete_profile u w = (Ok athlete, w')) :
  List.find (fun a => (athlete_id a =? sa_athlete_id (remote_athlete u))%Z)
    (athletes (db w')) = Some athlete
  /\ athlete_id athlete = sa_athlete_id (remote_athlete u)
  /\ athlete_username athlete = sa_username (remote_athlete u)
  /\ athlete_weight athlete = sa_weight (remote_athlete u)
  /\ match List.find (fun a => (athlete_id a =? sa_athlete_id (remote_athlete u))%Z)
             (athletes (db w)) with
     | Some old => ftp athlete = ftp old /\ max_heart_rate athlete = max_heart_rate old
     | None => ftp athlete = None /\ max_heart_rate athlete = None
     end
  /\ (forall id, id <> sa_athlete_id (remote_athlete u) ->
        List.find (fun a => (athlete_id a =? id)%Z) (athletes (db w'))
        = List.find (fun a => (athlete_id a =? id)%Z) (athletes (db w))).
Proof.
  unfold SyncManager._sync_athlete_profile, StravaClient.get_athlete in Hrun.
  unfold bind at 1 in Hrun.
  pose proof (client_request_preserves (fun w => athletes (db w)) remote_athlete 3
                tables_athletes u w) as Hkeep.
  pose proof (make_request_payload remote_athlete 3 u w) as Hpayload.
  destruct (StravaClient._make_request_with_retry (upstream_call remote_athlete) 3 u w)
    as [[[strava_athlete|]|e] w1]; try discriminate.
  cbn [snd] in Hkeep. specialize (Hpayload _ _ eq_refl). subst strava_athlete.
  rewrite <- Hkeep.
  unfold bind, SyncManager.not_none, ret, gets, modify, db_operation in Hrun.
  destruct (db_fault u SiteProfile); [discriminate|].
  injection Hrun as <- <-.
  cbn [db set_db athletes set_athletes].
  match goal with
  | |- context [upsert ?q ?fresh ?f] =>
      set (p := q) in *; set (new := fresh); set (update := f)
  end.
  destruct (find_upsert p new update (athletes (db w1))) as (x & Hx & Hwhere).
  { apply Z.eqb_refl. }
  { intros r Hr. exact Hr. }
  rewrite Hx. cbn [default].
  split; [reflexivity|]. split.
  { pose proof (List.find_some _ _ Hx) as [_ Hid]. apply Z.eqb_eq in Hid. exact Hid. }
  split; [reflexivity|]. split; [reflexivity|]. split.
  { destruct Hwhere as [->|[-> ->]]; split; reflexivity. }
  intros id Hid. apply find_upsert_other.
  - intros r Hr. unfold p in Hr. apply Z.eqb_eq in Hr. cbn. rewrite Hr.
    split; apply Z.eqb_neq; congruence.
  - cbn. apply Z.eqb_neq. congruence.
Qed.

Lemma profile_sync_keeps_ftp_and_max_heart_rate_witness :
  exists athlete,
    fst (SyncManager._sync_athlete_profile (calm_upstream [])
           (example_world (mk_db [mk_athlete 7 "old-name" (Some 72) (Some 250%Z) (Some 185%Z)]
                             [] [] [] [] [])))
    = Ok athlete
    /\ athlete_username athlete = "rider"
    /\ athlete_weight athlete = Some 70
    /\ ftp athlete = Some 250%Z /\ max_heart_rate athlete = Some 185%Z.
Proof.
  destruct (SyncManager._sync_athlete_profile (calm_upstream [])
              (example_world (mk_db [mk_athlete 7 "old-name" (Some 72) (Some 250%Z) (Some 185%Z)]
                                [] [] [] [] [])))
    as [[athlete|e] w'] eqn:Hrun; [|vm_compute in Hrun; discriminate].
  destruct (profile_sync_keeps_ftp_and_max_heart_rate _ _ _ _ Hrun)
    as (_ & _ & Hname & Hweight & Hkept & _).
  exists athlete. split; [reflexivity|]. split; [exact Hname|].
  split; [exact Hweight|]. exact Hkept.
Defined.

(** ** A successful full sync *)

Lemma sync_all_activities_stores (self_athlete_id : Z)
    (progress_callback : option SyncManager.Callback) (u : Upstream)
    (w : World) (n : Z) (w' : World) :
  NoDup (map sa_id (remote_activities u)) ->
  SyncManager._sync_all_activities self_athlete_id progress_callback u w = (Ok n, w') ->
  n = Z.of_nat (length (remote_activities u))
  /\ activities_stored self_athlete_id (remote_activities u) w w'.
Proof.
  intros Hids Hrun.
  apply (fetched_activities_stored self_athlete_id
           (fun fetched i =>
              if (i mod 10 =? 0)%Z
              then SyncManager.call_progress progress_callback "Syncing activities"
                     (10 + 70 * i / Z.of_nat (length fetched))%Z 100
              else ret tt)
           None u w n w'); [|exact Hids|exact Hrun].
  intros l i. destruct (i mod 10 =? 0)%Z;
    [apply preserves_call_progress|apply preserves_ret].
Qed.

Lemma activities_stored_frame (athlete : Z) (remote : list StravaActivity)
    (w0 w w' : World) :
  activities (db w') = activities (db w) ->
  activities_stored athlete remote w0 w -> activities_stored athlete remote w0 w'.
Proof. unfold activities_stored. intros ->. auto. Qed.

Lemma activities_stored_start (athlete : Z) (remote : list StravaActivity)
    (w0 w w' : World) :
  activities (db w0) = activities (db w) ->
  activities_stored athlete remote w0 w' -> activities_stored athlete remote w w'.
Proof. unfold activities_stored. intros ->. auto. Qed.

Lemma sync_athlete_profile_activities :
  preserves (fun w => activities (db w)) SyncManager._sync_athlete_profile.
Proof.
  unfold SyncManager._sync_athlete_profile, StravaClient.get_athlete.
  frame_sync tables_activities.
Qed.

Lemma calculate_training_loads_activities (self_athlete_id : Z) (after_date : option Z) :
  preserves (fun w => activities (db w))
    (SyncManager._calculate_training_loads self_athlete_id after_date).
Proof.
  unfold SyncManager._calculate_training_loads.
  apply preserves_bind; [apply preserves_gets|intros d].
  destruct (SyncManager.activities_for_loads self_athlete_id after_date d);
    frame_sync tables_activities.
Qed.

Lemma update_sync_record_activities (sync_record : nat)
    (f : SyncMetadata -> SyncMetadata) :
  preserves (fun w => activities (db w)) (SyncManager.update_sync_record sync_record f).
Proof. unfold SyncManager.update_sync_record. frame_step. Qed.

Lemma duration_seconds_preserves {X : Type} (f : World -> X) (sync_record : nat) :
  preserves f (SyncManager.duration_seconds sync_record).
Proof.
  intros u w. destruct (duration_seconds_returns sync_record u w) as [z ->]. reflexivity.
Qed.

Lemma sync_completed_count (progress_callback : option SyncManager.Callback)
    (sync_record : nat) (activities_synced streams_synced : Z)
    (u : Upstream) (w : World) (r : gmap string pyval) (w' : World) :
  SyncManager.sync_completed progress_callback sync_record
    activities_synced streams_synced u w = (Ok r, w') ->
  r !! "activities_synced" = Some (PInt activities_synced).
Proof.
  unfold SyncManager.sync_completed. revert u w r w'.
  repeat (apply (bind_returns
                   (fun r : gmap string pyval =>
                      r !! "activities_synced" = Some (PInt activities_synced)));
          intros ?).
  intros u w r w' [= <- _]. reflexivity.
Qed.

(** The dictionary of a completed sync reports the count it was given. *)
Lemma sync_completed_reports (progress_callback : option SyncManager.Callback)
    (sync_record : nat) (activities_synced streams_synced : Z) (u : Upstream)
    (I : World -> Prop) :
  (forall w w', activities (db w') = activities (db w) -> I w -> I w') ->
  hoare u I
    (SyncManager.sync_completed progress_callback sync_record
       activities_synced streams_synced)
    (fun r w => I w /\ r !! "activities_synced" = Some (PInt activities_synced))
    (fun _ _ => True).
Proof.
  intros HI w Hw.
  assert (Hkeep : preserves (fun w => activities (db w))
                    (SyncManager.sync_completed progress_callback sync_record
                       activities_synced streams_synced)).
  { unfold SyncManager.sync_completed.
    repeat first [ apply update_sync_record_activities
                 | apply duration_seconds_preserves
                 | frame_step ]. }
  specialize (Hkeep u w).
  destruct (SyncManager.sync_completed progress_callback sync_record
              activities_synced streams_synced u w) as [[r|e] w'] eqn:Hrun; [|exact Logic.I].
  cbn [snd] in Hkeep. split; [exact (HI _ _ Hkeep Hw)|].
  exact (sync_completed_count _ _ _ _ _ _ _ _ Hrun).
Qed.

(** X18.  A full sync that reports "success" has stored every activity
    upstream has (their ids being distinct): each is in the table under its
    id, for this athlete, with its start and moving time, the rows with
    other ids are those from before the call, and the dictionary reports
    their number as [activities_synced]. *)
Theorem successful_full_sync_stores_every_activity
    (self_athlete_id : Z) (progress_callback : option SyncManager.Callback)
    (u : Upstream) (w : World) (r : gmap string pyval) (w' : World)
    (Hids : NoDup (map sa_id (remote_activities u)))
    (Hrun : SyncManager.full_sync self_athlete_id progress_callback u w = (Ok r, w'))
    (Hsuccess : r !! "status" = Some (PStr "success")) :
  activities_stored self_athlete_id (remote_activities u) w w'
  /\ r !! "activities_synced"
     = Some (PInt (Z.of_nat (length (remote_activities u)))).
Proof.
  unfold SyncManager.full_sync in Hrun. unfold bind at 1 in Hrun.
  unfold db_operation at 1 in Hrun.
  destruct (db_fault u SiteOpenSession); [discriminate|].
  unfold bind at 1 in Hrun.
  assert (Hrecord : preserves (fun w => activities (db w))
                      (SyncManager._create_sync_record self_athlete_id "full"
                         "in_progress")).
  { unfold SyncManager._create_sync_record. repeat frame_step. }
  specialize (Hrecord u w).
  destruct (SyncManager._create_sync_record self_athlete_id "full" "in_progress" u w)
    as [[sync_record|e] w1]; [|discriminate].
  cbn [snd] in Hrecord.
  set (remote := remote_activities u) in *.
  set (stored := fun w0 => activities_stored self_athlete_id remote w w0).
  set (goal := fun (r : gmap string pyval) (w0 : World) =>
                 r !! "status" = Some (PStr "success") ->
                 stored w0
                 /\ r !! "activities_synced" = Some (PInt (Z.of_nat (length remote)))).
  match type of Hrun with
  | try_finally (try_except ?body ?handler) ?cleanup u w1 = _ =>
      assert (Hbody : hoare u (fun w0 => activities (db w0) = activities (db w)) body
                        (fun r w0 =>
                           stored w0
                           /\ r !! "activities_synced"
                              = Some (PInt (Z.of_nat (length remote))))
                        (fun _ _ => True));
      [|assert (Hall : hoare u (fun w0 => activities (db w0) = activities (db w))
                         (try_finally (try_except body handler) cleanup)
                         goal (fun _ _ => True))]
  end.
  - (* the [try] block *)
    assert (Hstart : forall w0 w0' : World,
              activities (db w0') = activities (db w0) ->
              activities (db w0) = activities (db w) ->
              activities (db w0') = activities (db w)) by (intros; congruence).
    assert (Hstored : forall w0 w0' : World,
              activities (db w0') = activities (db w0) -> stored w0 -> stored w0')
      by (intros w0 w0' Heq; apply activities_stored_frame; exact Heq).
    assert (Hweak0 : forall (A : Type) (m : M A),
              preserves (fun w => activities (db w)) m ->
              hoare u (fun w0 => activities (db w0) = activities (db w)) m
                (fun _ w0 => activities (db w0) = activities (db w))
                (fun _ _ => True)).
    { intros A m Hm. eapply hoare_conseq; [| | |apply (hoare_frame u _ _ _ Hstart Hm)];
        auto. }
    eapply hoare_bind; [apply Hweak0, preserves_call_progress|]. intros ?; cbv beta.
    eapply hoare_bind; [apply Hweak0, sync_athlete_profile_activities|]. intros athlete; cbv beta.
    eapply hoare_bind; [apply Hweak0, preserves_call_progress|]. intros ?; cbv beta.
    apply (hoare_bind u _ _ _
             (fun n w0 => n = Z.of_nat (length remote) /\ stored w0)).
    { intros w0 Hw0.
      destruct (SyncManager._sync_all_activities self_athlete_id progress_callback u w0)
        as [[n|e] w2] eqn:Hsync; [|exact Logic.I].
      destruct (sync_all_activities_stores _ _ _ _ _ _ Hids Hsync) as [Hn Hrows].
      split; [exact Hn|]. exact (activities_stored_start _ _ _ _ _ Hw0 Hrows). }
    intros n.
    apply (hoare_conseq u (fun w0 => n = Z.of_nat (length remote) /\ stored w0)
             (fun w0 => n = Z.of_nat (length remote) /\ stored w0) _
             (fun r w0 => (n = Z.of_nat (length remote) /\ stored w0)
                          /\ r !! "activities_synced" = Some (PInt n))
             _ (fun _ _ => True) _); [auto| |auto|].
    { intros r0 w0 [[-> Hs] Hr]. auto. }
    assert (Hinv : forall w0 w0' : World,
              activities (db w0') = activities (db w0) ->
              n = Z.of_nat (length remote) /\ stored w0 ->
              n = Z.of_nat (length remote) /\ stored w0')
      by (intros w0 w0' Heq [Hn Hs]; split; [exact Hn|exact (Hstored _ _ Heq Hs)]).
    assert (Hweak : forall (A : Type) (m : M A),
              preserves (fun w => activities (db w)) m ->
              hoare u (fun w0 => n = Z.of_nat (length remote) /\ stored w0) m
                (fun _ w0 => n = Z.of_nat (length remote) /\ stored w0)
                (fun _ _ => True)).
    { intros A m Hm. eapply hoare_conseq; [| | |apply (hoare_frame u _ _ _ Hinv Hm)]; auto. }
    eapply hoare_bind; [apply Hweak, update_sync_record_activities|]. intros ?; cbv beta.
    eapply hoare_bind; [apply Hweak, preserves_call_progress|]. intros ?; cbv beta.
    eapply hoare_bind; [apply Hweak, calculate_training_loads_activities|]. intros ?; cbv beta.
    eapply hoare_bind; [apply Hweak, preserves_call_progress|]. intros ?; cbv beta.
    eapply hoare_bind;
      [apply Hweak, sync_recent_streams_preserves;
       [exact tables_activities|intros; reflexivity]|].
    intros streams; cbv beta.
    eapply hoare_bind; [apply Hweak, update_sync_record_activities|]. intros ?; cbv beta.
    apply sync_completed_reports. exact Hinv.
  - (* handler and [finally] *)
    apply (hoare_try_finally u _ _ _ goal goal (fun _ _ => True) (fun _ _ => True)).
    + apply (hoare_try_except u _ _ _ _ (fun _ _ => True)).
      * eapply hoare_conseq; [| | |exact Hbody]; [auto| |auto].
        intros r0 w0 Hr0 _. exact Hr0.
      * intros e w0 _. unfold SyncManager.sync_failed, bind, utcnow, gets,
          SyncManager.update_sync_record, modify, db_operation, ret.
        destruct (db_fault u SiteFailed); [exact Logic.I|].
        intros Hstatus. discriminate.
    + intros r0 w0 Hw0. unfold db_operation.
      destruct (db_fault u SiteClose); [exact Logic.I|exact Hw0].
    + intros e w0 _. unfold db_operation.
      destruct (db_fault u SiteClose); exact Logic.I.
  - specialize (Hall w1 Hrecord). rewrite Hrun in Hall. exact (Hall Hsuccess).
Qed.

Lemma successful_full_sync_stores_every_activity_witness :
  activities_stored 7 [ride 1 0; ride 2 86400] (example_world empty_db)
    (snd (SyncManager.full_sync 7 None (calm_upstream [ride 1 0; ride 2 86400])
            (example_world empty_db)))
  /\ fst (SyncManager.full_sync 7 None (calm_upstream [ride 1 0; ride 2 86400])
            (example_world empty_db)) = Ok {[ "status" := PStr "success";
                       "activities_synced" := PInt 2;
                       "streams_synced" := PInt 2;
                       "duration_seconds" := PInt 0 ]}.
Proof.
  assert (Hids : NoDup (map sa_id (remote_activities
                                     (calm_upstream [ride 1 0; ride 2 86400])))).
  { cbn. repeat constructor; cbn; rewrite ?list_elem_of_In; cbn; intuition discriminate. }
  assert (Hfst : fst (SyncManager.full_sync 7 None
                         (calm_upstream [ride 1 0; ride 2 86400]) (example_world empty_db))
                 = Ok {[ "status" := PStr "success";
                         "activities_synced" := PInt 2;
                         "streams_synced" := PInt 2;
                         "duration_seconds" := PInt 0 ]})
    by (vm_compute; reflexivity).
  destruct (SyncManager.full_sync 7 None (calm_upstream [ride 1 0; ride 2 86400])
              (example_world empty_db)) as [[r|e] w'] eqn:Hrun;
    cbn [fst] in Hfst; [|discriminate].
  injection Hfst as ->.
  destruct (successful_full_sync_stores_every_activity 7 None _ _ _ w' Hids Hrun)
    as [Hstored _].
  { vm_compute. reflexivity. }
  split; [exact Hstored|reflexivity].
Defined.

(** ** The date an incremental sync starts from *)

Lemma Forall_alter_keeps {A : Type} (P : A -> Prop) (f : A -> A) (i : nat) (l : list A) :
  (forall x, P x -> P (f x)) -> Forall P l -> Forall P (alter f i l).
Proof.
  intros Hf Hl. revert i. induction Hl as [|x l Hx Hl IH]; intros i; [constructor|].
  destruct i as [|i]; cbn; constructor; auto.
Qed.

Section NoLastActivityDate.
Variables (self_athlete_id : Z) (u : Upstream).

Lemma undated_frame {A : Type} (m : M A) :
  preserves (fun w => sync_metadata (db w)) m ->
  hoare u (fun w => Forall (fun r => last_activity_date r = None) (sync_metadata (db w)))
    m
    (fun _ w => Forall (fun r => last_activity_date r = None) (sync_metadata (db w)))
    (fun _ w => Forall (fun r => last_activity_date r = None) (sync_metadata (db w))).
Proof. apply hoare_frame. intros w w' ->. auto. Qed.

Lemma undated_update (sync_record : nat) (f : SyncMetadata -> SyncMetadata) :
  (forall r, last_activity_date (f r) = last_activity_date r) ->
  hoare u (fun w => Forall (fun r => last_activity_date r = None) (sync_metadata (db w)))
    (SyncManager.update_sync_record sync_record f)
    (fun _ w => Forall (fun r => last_activity_date r = None) (sync_metadata (db w)))
    (fun _ w => Forall (fun r => last_activity_date r = None) (sync_metadata (db w))).
Proof.
  intros Hf w Hw. cbn. apply Forall_alter_keeps; [|exact Hw].
  intros r Hr. rewrite Hf. exact Hr.
Qed.

Lemma undated_create (type status : string) :
  hoare u (fun w => Forall (fun r => last_activity_date r = None) (sync_metadata (db w)))
    (SyncManager._create_sync_record self_athlete_id type status)
    (fun _ w => Forall (fun r => last_activity_date r = None) (sync_metadata (db w)))
    (fun _ w => Forall (fun r => last_activity_date r = None) (sync_metadata (db w))).
Proof.
  intros w Hw.
  unfold SyncManager._create_sync_record, bind, utcnow, gets, modify, db_operation, ret.
  cbn.
  assert (Hnew : Forall (fun r => last_activity_date r = None)
                   (sync_metadata (db w)
                    ++ [mk_sync_metadata self_athlete_id type status (now w)
                          None 0 0 None None])).
  { apply Forall_app. split; [exact Hw|]. constructor; [reflexivity|constructor]. }
  destruct (db_fault u SiteCreateRecord); exact Hnew.
Qed.

End NoLastActivityDate.

(** One step of a sync under the invariant that no record has a last
    activity date. *)
Ltac undated_step :=
  lazymatch goal with
  | |- hoare _ _ (bind _ _) _ _ => eapply hoare_bind; [|intros ?; cbv beta]
  | |- hoare _ _ (try_finally _ _) _ _ =>
      eapply hoare_try_finally; [|intros ?; cbv beta|intros ?; cbv beta]
  | |- hoare _ _ (try_except _ _) _ _ =>
      eapply hoare_try_except; [|intros ?; cbv beta]
  | |- hoare _ _ (SyncManager._create_sync_record _ _ _) _ _ => apply undated_create
  | |- hoare _ _ (SyncManager.update_sync_record _ _) _ _ =>
      apply undated_update; intros ?; reflexivity
  | |- hoare _ _ (if ?b then _ else _) _ _ => destruct b
  | |- hoare _ _ (SyncManager.sync_completed _ _ _ _) _ _ =>
      unfold SyncManager.sync_completed
  | |- hoare _ _ (SyncManager.sync_failed _ _) _ _ =>
      unfold SyncManager.sync_failed
  | |- hoare _ _ _ _ _ =>
      apply undated_frame;
      first [ apply preserves_call_progress
            | apply preserves_db_operation
            | apply preserves_ret
            | apply preserves_gets
            | apply duration_seconds_preserves
            | apply sync_athlete_profile_sync_metadata
            | apply sync_all_activities_sync_metadata
            | apply sync_activities_after_sync_metadata
            | apply calculate_training_loads_sync_metadata
            | apply sync_recent_streams_preserves;
              [exact tables_sync_metadata|intros; reflexivity]
            | unfold SyncManager._get_last_successful_sync; repeat frame_step ]
  end.

(** X19.  No sync ever records the date of the last activity: if no row of
    [sync_metadata] has a [last_activity_date], none has one after
    [full_sync] or [incremental_sync], however the call ends. *)
Theorem no_sync_records_last_activity_date
    (self_athlete_id : Z) (progress_callback : option SyncManager.Callback)
    (u : Upstream) (w : World)
    (Hundated : Forall (fun r => last_activity_date r = None) (sync_metadata (db w))) :
  Forall (fun r => last_activity_date r = None)
    (sync_metadata (db (snd (SyncManager.full_sync self_athlete_id progress_callback u w))))
  /\ Forall (fun r => last_activity_date r = None)
       (sync_metadata
          (db (snd (SyncManager.incremental_sync self_athlete_id progress_callback u w)))).
Proof.
  split.
  - assert (Hrun : hoare u
      (fun w => Forall (fun r => last_activity_date r = None) (sync_metadata (db w)))
      (SyncManager.full_sync self_athlete_id progress_callback)
      (fun _ w => Forall (fun r => last_activity_date r = None) (sync_metadata (db w)))
      (fun _ w => Forall (fun r => last_activity_date r = None) (sync_metadata (db w)))).
    { unfold SyncManager.full_sync. repeat undated_step. }
    specialize (Hrun w Hundated).
    destruct (SyncManager.full_sync self_athlete_id progress_callback u w) as [[r|e] w'];
      exact Hrun.
  - assert (Hrun : hoare u
      (fun w => Forall (fun r => last_activity_date r = None) (sync_metadata (db w)))
      (SyncManager.incremental_sync self_athlete_id progress_callback)
      (fun _ w => Forall (fun r => last_activity_date r = None) (sync_metadata (db w)))
      (fun _ w => Forall (fun r => last_activity_date r = None) (sync_metadata (db w)))).
    { unfold SyncManager.incremental_sync. repeat undated_step. }
    specialize (Hrun w Hundated).
    destruct (SyncManager.incremental_sync self_athlete_id progress_callback u w)
      as [[r|e] w']; exact Hrun.
Qed.

Lemma no_sync_records_last_activity_date_witness :
  Forall (fun r => last_activity_date r = None)
    (sync_metadata
       (db (snd (SyncManager.full_sync 7 None (calm_upstream [ride 1 0])
                   (example_world empty_db)))))
  /\ Forall (fun r => last_activity_date r = None)
       (sync_metadata
          (db (snd (SyncManager.incremental_sync 7 None (calm_upstream [ride 1 0])
                      (example_world empty_db))))).
Proof.
  apply (no_sync_records_last_activity_date 7 None (calm_upstream [ride 1 0])
           (example_world empty_db)).
  constructor.
Defined.

Lemma latest_completed_In (rows : list SyncMetadata) (r : SyncMetadata) :
  SyncManager.latest_completed rows = Some r -> In r rows.
Proof.
  unfold SyncManager.latest_completed.
  assert (Hgen : forall (best : option SyncMetadata),
            fold_left
              (fun best row =>
                 match best with
                 | None => Some row
                 | Some b =>
                     if (default 0%Z (completed_at b) <? default 0%Z (completed_at row))%Z
                     then Some row else Some b
                 end) rows best = Some r ->
            best = Some r \/ In r rows).
  { induction rows as [|row rows IH]; intros best Hfold; [left; exact Hfold|].
    cbn [fold_left] in Hfold. apply IH in Hfold as [Hbest|Hin]; [|right; right; exact Hin].
    destruct best as [b|].
    - destruct (_ <? _)%Z; injection Hbest as <-; [right; left; reflexivity|left; reflexivity].
    - injection Hbest as <-. right; left; reflexivity. }
  intros Hfold. destruct (Hgen None Hfold) as [Hnone|Hin]; [discriminate|exact Hin].
Qed.

(** With no dated record, the date an incremental sync starts from is
    [None]. *)
Lemma last_successful_sync_undated (self_athlete_id : Z) (u : Upstream) (w : World) :
  Forall (fun r => last_activity_date r = None) (sync_metadata (db w)) ->
  exists last,
    SyncManager._get_last_successful_sync self_athlete_id u w = (Ok last, w)
    /\ match last with Some s => last_activity_date s | None => None end = None.
Proof.
  intros Hundated. unfold SyncManager._get_last_successful_sync, bind, gets, ret.
  eexists. split; [reflexivity|].
  destruct (SyncManager.latest_completed _) as [s|] eqn:Hlatest; [|reflexivity].
  apply latest_completed_In in Hlatest. apply List.filter_In in Hlatest as [Hin _].
  rewrite Forall_forall in Hundated. apply Hundated. apply list_elem_of_In. exact Hin.
Qed.

Lemma sync_activities_after_none_stores (self_athlete_id : Z)
    (progress_callback : option SyncManager.Callback) (u : Upstream)
    (w : World) (n : Z) (w' : World) :
  NoDup (map sa_id (remote_activities u)) ->
  SyncManager._sync_activities_after self_athlete_id None progress_callback u w
  = (Ok n, w') ->
  n = Z.of_nat (length (remote_activities u))
  /\ activities_stored self_athlete_id (remote_activities u) w w'.
Proof.
  intros Hids Hrun.
  apply (fetched_activities_stored self_athlete_id
           (fun fetched i =>
              if (0 <? Z.of_nat (length fetched))%Z
              then SyncManager.call_progress progress_callback "Syncing activities"
                     (70 * i / Z.of_nat (length fetched))%Z 100
              else ret tt)
           None u w n w'); [|exact Hids|exact Hrun].
  intros l i. destruct (0 <? Z.of_nat (length l))%Z;
    [apply preserves_call_progress|apply preserves_ret].
Qed.

(** X20.  As long as no record has a last activity date, and the code never
    writes one, an incremental sync starts from no date: it asks upstream
    for all activities, not for the new ones.  When it reports "success",
    every activity upstream has is stored (their ids being distinct) and
    [activities_synced] is their number, as after a full sync. *)
Theorem incremental_sync_fetches_all_activities
    (self_athlete_id : Z) (progress_callback : option SyncManager.Callback)
    (u : Upstream) (w : World) (r : gmap string pyval) (w' : World)
    (Hundated : Forall (fun r => last_activity_date r = None) (sync_metadata (db w)))
    (Hids : NoDup (map sa_id (remote_activities u)))
    (Hrun : SyncManager.incremental_sync self_athlete_id progress_callback u w = (Ok r, w'))
    (Hsuccess : r !! "status" = Some (PStr "success")) :
  activities_stored self_athlete_id (remote_activities u) w w'
  /\ r !! "activities_synced"
     = Some (PInt (Z.of_nat (length (remote_activities u)))).
Proof.
  unfold SyncManager.incremental_sync in Hrun. unfold bind at 1 in Hrun.
  unfold db_operation at 1 in Hrun.
  destruct (db_fault u SiteOpenSession); [discriminate|].
  unfold bind at 1 in Hrun.
  assert (Hrecord : preserves (fun w => activities (db w))
                      (SyncManager._create_sync_record self_athlete_id "incremental"
                         "in_progress")).
  { unfold SyncManager._create_sync_record. repeat frame_step. }
  specialize (Hrecord u w).
  pose proof (undated_create self_athlete_id u "incremental" "in_progress" w Hundated)
    as Hundated1.
  destruct (SyncManager._create_sync_record self_athlete_id "incremental" "in_progress"
              u w) as [[sync_record|e] w1]; [|discriminate].
  cbn [snd] in Hrecord.
  set (remote := remote_activities u) in *.
  set (stored := fun w0 => activities_stored self_athlete_id remote w w0).
  set (goal := fun (r : gmap string pyval) (w0 : World) =>
                 r !! "status" = Some (PStr "success") ->
                 stored w0
                 /\ r !! "activities_synced" = Some (PInt (Z.of_nat (length remote)))).
  set (start := fun w0 =>
                  activities (db w0) = activities (db w)
                  /\ Forall (fun r => last_activity_date r = None) (sync_metadata (db w0))).
  match type of Hrun with
  | try_finally (try_except ?body ?handler) ?cleanup u w1 = _ =>
      assert (Hbody : hoare u start body
                        (fun r w0 =>
                           stored w0
                           /\ r !! "activities_synced"
                              = Some (PInt (Z.of_nat (length remote))))
                        (fun _ _ => True));
      [|assert (Hall : hoare u start
                         (try_finally (try_except body handler) cleanup)
                         goal (fun _ _ => True))]
  end.
  - (* the [try] block *)
    assert (Hstored : forall w0 w0' : World,
              activities (db w0') = activities (db w0) -> stored w0 -> stored w0')
      by (intros w0 w0' Heq; apply activities_stored_frame; exact Heq).
    apply (hoare_bind u _ _ _
             (fun last w0 =>
                activities (db w0) = activities (db w)
                /\ match last with Some s => last_activity_date s | None => None end
                   = None)).
    { intros w0 [Hacts Hund].
      destruct (last_successful_sync_undated self_athlete_id u w0 Hund)
        as (last & -> & Hlast). split; [exact Hacts|exact Hlast]. }
    intros last. cbv zeta.
    destruct (match last with Some s => last_activity_date s | None => None end)
      as [t|] eqn:Hafter.
    { intros w0 [_ Hcontra]. discriminate. }
    apply (hoare_conseq u (fun w0 => activities (db w0) = activities (db w))
             _ _ (fun r w0 =>
                    stored w0
                    /\ r !! "activities_synced" = Some (PInt (Z.of_nat (length remote))))
             _ (fun _ _ => True) _); [intros w0 [Hw0 _]; exact Hw0|auto|auto|].
    assert (Hstart : forall w0 w0' : World,
              activities (db w0') = activities (db w0) ->
              activities (db w0) = activities (db w) ->
              activities (db w0') = activities (db w)) by (intros; congruence).
    assert (Hweak0 : forall (A : Type) (m : M A),
              preserves (fun w => activities (db w)) m ->
              hoare u (fun w0 => activities (db w0) = activities (db w)) m
                (fun _ w0 => activities (db w0) = activities (db w))
                (fun _ _ => True)).
    { intros A m Hm. eapply hoare_conseq; [| | |apply (hoare_frame u _ _ _ Hstart Hm)];
        auto. }
    eapply hoare_bind; [apply Hweak0, preserves_call_progress|]. intros ?; cbv beta.
    apply (hoare_bind u _ _ _
             (fun n w0 => n = Z.of_nat (length remote) /\ stored w0)).
    { intros w0 Hw0.
      destruct (SyncManager._sync_activities_after self_athlete_id None
                  progress_callback u w0) as [[n|e] w2] eqn:Hsync; [|exact Logic.I].
      destruct (sync_activities_after_none_stores _ _ _ _ _ _ Hids Hsync) as [Hn Hrows].
      split; [exact Hn|]. exact (activities_stored_start _ _ _ _ _ Hw0 Hrows). }
    intros n.
    apply (hoare_conseq u (fun w0 => n = Z.of_nat (length remote) /\ stored w0)
             (fun w0 => n = Z.of_nat (length remote) /\ stored w0) _
             (fun r w0 => (n = Z.of_nat (length remote) /\ stored w0)
                          /\ r !! "activities_synced" = Some (PInt n))
             _ (fun _ _ => True) _); [auto| |auto|].
    { intros r0 w0 [[-> Hs] Hr]. auto. }
    assert (Hinv : forall w0 w0' : World,
              activities (db w0') = activities (db w0) ->
              n = Z.of_nat (length remote) /\ stored w0 ->
              n = Z.of_nat (length remote) /\ stored w0')
      by (intros w0 w0' Heq [Hn Hs]; split; [exact Hn|exact (Hstored _ _ Heq Hs)]).
    assert (Hweak : forall (A : Type) (m : M A),
              preserves (fun w => activities (db w)) m ->
              hoare u (fun w0 => n = Z.of_nat (length remote) /\ stored w0) m
                (fun _ w0 => n = Z.of_nat (length remote) /\ stored w0)
                (fun _ _ => True)).
    { intros A m Hm. eapply hoare_conseq; [| | |apply (hoare_frame u _ _ _ Hinv Hm)]; auto. }
    eapply hoare_bind; [apply Hweak, update_sync_record_activities|]. intros ?; cbv beta.
    eapply hoare_bind.
    { apply Hweak. destruct (0 <? n)%Z; [|apply preserves_ret].
      repeat first [ apply update_sync_record_activities
                   | apply calculate_training_loads_activities
                   | apply sync_recent_streams_preserves;
                     [exact tables_activities|intros; reflexivity]
                   | frame_step ]. }
    intros streams; cbv beta.
    apply sync_completed_reports. exact Hinv.
  - (* handler and [finally] *)
    apply (hoare_try_finally u _ _ _ goal goal (fun _ _ => True) (fun _ _ => True)).
    + apply (hoare_try_except u _ _ _ _ (fun _ _ => True)).
      * eapply hoare_conseq; [| | |exact Hbody]; [auto| |auto].
        intros r0 w0 Hr0 _. exact Hr0.
      * intros e w0 _. unfold SyncManager.sync_failed, bind, utcnow, gets,
          SyncManager.update_sync_record, modify, db_operation, ret.
        destruct (db_fault u SiteFailed); [exact Logic.I|].
        intros Hstatus. discriminate.
    + intros r0 w0 Hw0. unfold db_operation.
      destruct (db_fault u SiteClose); [exact Logic.I|exact Hw0].
    + intros e w0 _. unfold db_operation.
      destruct (db_fault u SiteClose); exact Logic.I.
  - specialize (Hall w1 (conj Hrecord Hundated1)). rewrite Hrun in Hall.
    exact (Hall Hsuccess).
Qed.

Lemma incremental_sync_fetches_all_activities_witness :
  activities_stored 7 [ride 1 0; ride 2 86400]
    (snd (SyncManager.full_sync 7 None (calm_upstream [ride 1 0]) (example_world empty_db)))
    (snd (SyncManager.incremental_sync 7 None (calm_upstream [ride 1 0; ride 2 86400])
            (snd (SyncManager.full_sync 7 None (calm_upstream [ride 1 0])
                    (example_world empty_db)))))
  /\ fst (SyncManager.incremental_sync 7 None (calm_upstream [ride 1 0; ride 2 86400])
            (snd (SyncManager.full_sync 7 None (calm_upstream [ride 1 0])
                    (example_world empty_db))))
     = Ok {[ "status" := PStr "success";
             "activities_synced" := PInt 2;
             "streams_synced" := PInt 2;
             "duration_seconds" := PInt 0 ]}.
Proof.
  set (w := snd (SyncManager.full_sync 7 None (calm_upstream [ride 1 0])
                   (example_world empty_db))).
  assert (Hundated : Forall (fun r => last_activity_date r = None) (sync_metadata (db w))).
  { vm_compute. repeat constructor. }
  assert (Hids : NoDup (map sa_id (remote_activities
                                     (calm_upstream [ride 1 0; ride 2 86400])))).
  { cbn. repeat constructor; cbn; rewrite ?list_elem_of_In; cbn; intuition discriminate. }
  assert (Hfst : fst (SyncManager.incremental_sync 7 None
                         (calm_upstream [ride 1 0; ride 2 86400]) w)
                 = Ok {[ "status" := PStr "success";
                         "activities_synced" := PInt 2;
                         "streams_synced" := PInt 2;
                         "duration_seconds" := PInt 0 ]})
    by (vm_compute; reflexivity).
  destruct (SyncManager.incremental_sync 7 None (calm_upstream [ride 1 0; ride 2 86400]) w)
    as [[r|e] w'] eqn:Hrun; cbn [fst] in Hfst; [|discriminate].
  injection Hfst as ->.
  destruct (incremental_sync_fetches_all_activities 7 None _ _ _ w' Hundated Hids Hrun)
    as [Hstored _].
  { vm_compute. reflexivity. }
  split; [exact Hstored|reflexivity].
Defined.

(** ** Estimates from a single activity *)

Lemma Qlt_bool_true (x y : Q) : x < y -> Qlt_bool x y = true.
Proof.
  intros H. unfold Qlt_bool. destruct (Qle_bool y x) eqn:E; [|reflexivity].
  apply Qle_bool_iff in E. lra.
Qed.

Lemma Qeq_bool_false (x y : Q) : ~ x == y -> Qeq_bool x y = false.
Proof.
  intros H. destruct (Qeq_bool x y) eqn:E; [|reflexivity].
  apply Qeq_bool_iff in E. contradiction.
Qed.

(** X21.  With a positive normalized power, the FTP estimated from an
    activity lies between 93 % of it and the whole of it (both rounded),
    and does not depend on the average power. *)
Theorem ftp_estimate_within_normalized_power
    (duration_seconds average_power normalized_power : Q) (estimated_ftp : Z)
    (Hpower : 0 < normalized_power)
    (Hestimate : TrainingMetrics.estimate_ftp_from_activity
                   duration_seconds average_power normalized_power
                 = Some estimated_ftp) :
  (round_half_even (normalized_power * (93 # 100)) <= estimated_ftp
   <= round_half_even normalized_power)%Z
  /\ forall other_average : Q,
       TrainingMetrics.estimate_ftp_from_activity
         duration_seconds other_average normalized_power
       = Some estimated_ftp.
Proof.
  unfold TrainingMetrics.estimate_ftp_from_activity in *.
  rewrite (Qlt_bool_true 0 normalized_power Hpower) in *.
  rewrite (Qeq_bool_false normalized_power 0) in * by lra.
  split; [|intros other; exact Hestimate].
  repeat match type of Hestimate with
         | (if ?b then _ else _) = _ => destruct b
         end; try discriminate; injection Hestimate as <-.
  - split; [lia|]. apply round_half_even_monotone. lra.
  - split; apply round_half_even_monotone; lra.
  - split; apply round_half_even_monotone; lra.
Qed.

Lemma ftp_estimate_within_normalized_power_witness :
  (round_half_even (250 * (93 # 100)) <= 238 <= round_half_even 250)%Z
  /\ forall other_average : Q,
       TrainingMetrics.estimate_ftp_from_activity 72000 other_average 250 = Some 238%Z.
Proof.
  apply (ftp_estimate_within_normalized_power 72000 200 250 238).
  - lra.
  - vm_compute. reflexivity.
Defined.

Lemma Qmax0_range (x : Q) : x <= 1 -> 0 <= TrainingMetrics.Qmax0 x <= 1.
Proof.
  intros Hx. unfold TrainingMetrics.Qmax0.
  destruct (Qle_bool x 0) eqn:E; [lra|].
  assert (~ x <= 0) by (rewrite <- Qle_bool_iff; congruence). lra.
Qed.

(** X22.  Over the same time, a longer run never gives a lower VO2max
    estimate (for an athlete of at most 225 years, beyond which the age
    factor turns negative). *)
Theorem vo2max_estimate_grows_with_distance
    (distance_1 distance_2 duration_seconds : Q) (age : Z) (weight_kg : Q) (sex : string)
    (Hdistance : 0 < distance_1 <= distance_2)
    (Hduration : 0 < duration_seconds)
    (Hage : (age <= 225)%Z) :
  TrainingMetrics.estimate_vo2max_from_running
    distance_1 duration_seconds age weight_kg sex
  <= TrainingMetrics.estimate_vo2max_from_running
       distance_2 duration_seconds age weight_kg sex.
Proof.
  unfold TrainingMetrics.estimate_vo2max_from_running.
  rewrite (Qeq_bool_false duration_seconds 0) by lra.
  rewrite (Qeq_bool_false distance_1 0), (Qeq_bool_false distance_2 0) by lra.
  cbn [orb]. cbv zeta.
  set (v1 := distance_1 / (duration_seconds / 60)).
  set (v2 := distance_2 / (duration_seconds / 60)).
  assert (Hminutes : 0 < duration_seconds / 60).
  { apply Qlt_shift_div_l; lra. }
  assert (Hv1 : 0 < v1).
  { subst v1. apply Qlt_shift_div_l; [exact Hminutes|lra]. }
  assert (Hv : v1 <= v2).
  { subst v1 v2. unfold Qdiv at 1 3. apply Qmult_le_compat_r; [lra|].
    apply Qlt_le_weak, Qinv_lt_0_compat. exact Hminutes. }
  assert (Hsquare : v1 ^ 2 <= v2 ^ 2).
  { cbn. apply Qmult_le_compat_nonneg; split; lra. }
  assert (Hfactor : 0 <= 1 - TrainingMetrics.Qmax0 (inject_Z (age - 25) * (5 # 1000))).
  { assert (Hx : inject_Z (age - 25) * (5 # 1000) <= 1).
    { assert (Hz : inject_Z (age - 25) <= inject_Z 200) by (rewrite <- Zle_Qle; lia).
      change (inject_Z 200) with 200 in Hz. lra. }
    pose proof (Qmax0_range _ Hx). lra. }
  set (factor := 1 - TrainingMetrics.Qmax0 (inject_Z (age - 25) * (5 # 1000))) in *.
  set (s1 := v1 ^ 2) in *. set (s2 := v2 ^ 2) in *.
  clearbody factor s1 s2 v1 v2.
  assert (Hvo2 : (- (460 # 100) + (182258 # 1000000) * v1 + (104 # 1000000) * s1) * factor
                 <= (- (460 # 100) + (182258 # 1000000) * v2 + (104 # 1000000) * s2)
                    * factor).
  { apply Qmult_le_compat_r; [lra|exact Hfactor]. }
  apply py_round_monotone.
  destruct (String.eqb _ "F"); lra.
Qed.

Lemma vo2max_estimate_grows_with_distance_witness :
  TrainingMetrics.estimate_vo2max_from_running 5000 1500 30 70 "M"
  <= TrainingMetrics.estimate_vo2max_from_running 5200 1500 30 70 "M".
Proof.
  apply (vo2max_estimate_grows_with_distance 5000 5200 1500 30 70 "M"); [lra|lra|lia].
Defined.

